(** * ETS2 Lane Assist: lane connectivity, path window, lane safety, smoothing

    A shallow embedding of
      - [Plugins/Map/utils/node_helpers.py],
      - [Plugins/Map/utils/lane_safety.py],
      - [ETS2LA/Utils/Values/numbers.py],
    followed by the properties proved about them.

    Python [float]s are IEEE 754 binary64 numbers and are modelled by Rocq's
    primitive floats, which are the same numbers with the same rounding, so
    every definition below evaluates.  Python [int]s are [Z].  Exceptions are
    explicit: a function that can raise returns a [Py.result]. *)

From Stdlib Require Import Floats SpecFloat Uint63 List Sorted Permutation ZArith PArith Bool Lia.
Import ListNotations.

Local Open Scope Z_scope.
Set Warnings "-inexact-float".

(* ===================================================================== *)
(** * Part I: the embedding                                               *)
(* ===================================================================== *)

(** ** Python built-ins used by the three modules *)

Module Py.

Inductive exn : Set :=
| IndexError
| ValueError
| AssertionError
| ZeroDivisionError
| OverflowError.

Inductive result (A : Type) : Type :=
| Return (a : A)
| Raise (e : exn).

Arguments Return {A} a.
Arguments Raise {A} e.

(** Sequencing: an exception ends the computation. *)
Definition bind {A B : Type} (r : result A) (k : A -> result B) : result B :=
  match r with
  | Return a => k a
  | Raise e => Raise e
  end.

(** [l[i]]: a negative index counts from the end; out of range is [None]
    (Python raises IndexError there, which every caller below turns into
    its own outcome). *)
Definition getitem {A : Type} (l : list A) (i : Z) : option A :=
  let n := Z.of_nat (length l) in
  if 0 <=? i then nth_error l (Z.to_nat i)
  else if - n <=? i then nth_error l (Z.to_nat (n + i))
  else None.

(** A slice bound as Python normalises it against the length [n]. *)
Definition clip (n i : Z) : Z :=
  let j := if i <? 0 then i + n else i in
  if j <? 0 then 0 else if n <? j then n else j.

(** [l[lo:hi]]. *)
Definition slice {A : Type} (l : list A) (lo hi : Z) : list A :=
  let n := Z.of_nat (length l) in
  let a := Z.to_nat (clip n lo) in
  let b := Z.to_nat (clip n hi) in
  firstn (b - a) (skipn a l).

(** [l[i:]] and [l[:i]]. *)
Definition slice_from {A : Type} (l : list A) (lo : Z) : list A :=
  skipn (Z.to_nat (clip (Z.of_nat (length l)) lo)) l.

Definition slice_to {A : Type} (l : list A) (hi : Z) : list A :=
  firstn (Z.to_nat (clip (Z.of_nat (length l)) hi)) l.

(** [l.index(x)] with [==] given by [eqb]; [None] stands for ValueError. *)
Fixpoint index {A : Type} (eqb : A -> A -> bool) (x : A) (l : list A) : option nat :=
  match l with
  | [] => None
  | y :: rest =>
      if eqb y x then Some O
      else match index eqb x rest with
           | Some i => Some (S i)
           | None => None
           end
  end.

(** [[i for i, n in enumerate(l) if p(n)]], counting from [start]. *)
Fixpoint enumerate_filter {A : Type} (p : A -> bool) (start : nat) (l : list A) : list nat :=
  match l with
  | [] => []
  | y :: rest =>
      if p y then start :: enumerate_filter p (S start) rest
      else enumerate_filter p (S start) rest
  end.

(** [range(lo, hi)]. *)
Definition range (lo hi : Z) : list Z :=
  map (fun k => lo + Z.of_nat k) (seq 0 (Z.to_nat (hi - lo))).

(** [x in l] for a list of ints. *)
Definition contains (x : Z) (l : list Z) : bool := existsb (Z.eqb x) l.

Local Open Scope float_scope.

(** Two-argument [min(a, b)] and [max(a, b)]: the first argument is kept
    unless the second is strictly below (above) it. *)
Definition min (a b : float) : float := if b <? a then b else a.
Definition max (a b : float) : float := if a <? b then b else a.

(** [min(iterable)] over floats: the first least element; [None] stands for
    the ValueError on an empty iterable. *)
Definition min_of (l : list float) : option float :=
  match l with
  | [] => None
  | a :: rest => Some (fold_left min rest a)
  end.

(** [math.sqrt(v)]: ValueError below zero; NaN, zeros and +inf pass. *)
Definition math_sqrt (v : float) : result float :=
  if v <? 0 then Raise ValueError else Return (PrimFloat.sqrt v).

(** [f > n] for a float [f] and an int [n]: Python compares the two exactly,
    without converting the int to a float; NaN is above nothing. *)
Definition float_gt_int (f : float) (n : Z) : bool :=
  match Prim2SF f with
  | S754_nan => false
  | S754_infinity negative => negb negative
  | S754_zero _ => (n <? 0)%Z
  | S754_finite negative m e =>
      let mantissa := if negative then Z.neg m else Z.pos m in
      if (0 <=? e)%Z then (n <? mantissa * 2 ^ e)%Z
      else (n * 2 ^ (- e) <? mantissa)%Z
  end.

(** [float(n)] for a length. *)
Definition float_of_nat (n : nat) : float :=
  PrimFloat.of_uint63 (Uint63.of_Z (Z.of_nat n)).

End Py.

Notation "x <- r ;; k" := (Py.bind r (fun x => k))
  (at level 61, r at next level, right associativity).

(** ** Plugins/Map/utils/lane_safety.py *)

Module LaneSafety.

Local Open Scope float_scope.

(** A ground-plane point [(x, z)]. *)
Definition point : Type := (float * float)%type.

Record Position : Set := mkPosition {
  x : float;
  y : float;
  z : float
}.

(** Modelled from the spec: [Position.is_zero] belongs to a class that is
    not under src/.  The spec calls a zero position the mark of a vehicle
    that is not currently valid: every coordinate is zero. *)
Definition is_zero (p : Position) : bool :=
  (x p =? 0) && (y p =? 0) && (z p =? 0).

Record Vehicle : Set := mkVehicle {
  position : Position
}.

(** A lane of a road; [points = None] is a lane object without the
    attribute [points]. *)
Record Lane : Set := mkLane {
  points : option (list Position)
}.

(** [lanes = None] is a road object without the attribute [lanes]. *)
Record Road : Set := mkRoad {
  lanes : option (list Lane)
}.

(** The truck pose the module reads from [Plugins.Map.data]. *)
Record Data : Set := mkData {
  truck_x : float;
  truck_z : float;
  truck_rotation : float
}.

(** The three module-level state variables. *)
Record State : Set := mkState {
  _pending_lane_change : bool;
  _target_lane_index : option Z;
  _slow_down_for_lane_change : bool
}.

(** The state the module is loaded with. *)
Definition initial_state : State :=
  {| _pending_lane_change := false;
     _target_lane_index := None;
     _slow_down_for_lane_change := false |}.

Definition LANE_WIDTH : float := 3.5.
Definition SAFETY_DISTANCE_AHEAD : float := 30.
Definition SAFETY_DISTANCE_BEHIND : float := 15.
Definition SAFETY_DISTANCE_BESIDE : float := 8.

Inductive side : Set := ahead | behind | beside.

Section WithLibrary.

(** [v ** 2] on a float.  CPython hands the power to the C library's [pow]
    and raises OverflowError when the result overflows; [power2] gives the
    float [pow] returns, [None] where OverflowError is raised.  Every
    definition and theorem below holds for whatever [pow] computes. *)
Variable power2 : float -> option float.

(** [math_helpers.IsInFront(point, rotation, position)]: the heading test of
    a module that is not under src/; every definition and theorem below
    holds for whatever it computes. *)
Variable IsInFront : point -> float -> point -> bool.

Definition pow2 (v : float) : Py.result float :=
  match power2 v with
  | Some r => Py.Return r
  | None => Py.Raise Py.OverflowError
  end.

(** [math.sqrt(a ** 2 + b ** 2)], the squares taken from left to right. *)
Definition hypot (a b : float) : Py.result float :=
  a2 <- pow2 a ;;
  b2 <- pow2 b ;;
  Py.math_sqrt (a2 + b2).

Definition distance_point_to_line_segment (pt line_start line_end : point)
    : Py.result float :=
  let '(px, pz) := pt in
  let '(x1, z1) := line_start in
  let '(x2, z2) := line_end in
  let dx := x2 - x1 in
  let dz := z2 - z1 in
  let length_sq := dx * dx + dz * dz in
  if length_sq =? 0 then hypot (px - x1) (pz - z1)
  else
    let t := Py.max 0 (Py.min 1 (((px - x1) * dx + (pz - z1) * dz) / length_sq)) in
    let closest_x := x1 + t * dx in
    let closest_z := z1 + t * dz in
    hypot (px - closest_x) (pz - closest_z).

(** The loop of [is_vehicle_in_lane] over consecutive centerline points;
    [acc] is [min_dist_to_lane]. *)
Fixpoint min_dist_to_lane (vehicle_pos : point) (lane_points : list Position)
    (acc : float) : Py.result float :=
  match lane_points with
  | p1 :: ((p2 :: _) as rest) =>
      dist <- distance_point_to_line_segment vehicle_pos (x p1, z p1) (x p2, z p2) ;;
      min_dist_to_lane vehicle_pos rest (Py.min acc dist)
  | _ => Py.Return acc
  end.

(** Distance from a point to the truck, as both functions compute it. *)
Definition dist_to (vehicle_pos truck_pos : point) : Py.result float :=
  hypot (fst vehicle_pos - fst truck_pos) (snd vehicle_pos - snd truck_pos).

Definition is_vehicle_in_lane (vehicle : Vehicle) (lane_points : list Position)
    (truck_pos : point) (truck_rotation : float) : Py.result bool :=
  if (length lane_points <? 2)%nat then Py.Return false
  else
    let vehicle_pos := (x (position vehicle), z (position vehicle)) in
    let is_in_front := IsInFront vehicle_pos truck_rotation truck_pos in
    dist_to_truck <- dist_to vehicle_pos truck_pos ;;
    let max_check_distance :=
      if is_in_front then SAFETY_DISTANCE_AHEAD else SAFETY_DISTANCE_BEHIND in
    if max_check_distance + 10 <? dist_to_truck then Py.Return false
    else
      min_dist <- min_dist_to_lane vehicle_pos lane_points infinity ;;
      Py.Return (min_dist <? LANE_WIDTH / 2 + 1).

(** The three-way test in the loop of [check_lane_safety] (lines 174-179):
    the tag a vehicle in the lane is appended with, if any. *)
Definition classify (is_in_front : bool) (dist : float) : option side :=
  if is_in_front && (dist <? SAFETY_DISTANCE_AHEAD) then Some ahead
  else if negb is_in_front && (dist <? SAFETY_DISTANCE_BEHIND) then Some behind
  else if dist <? SAFETY_DISTANCE_BESIDE then Some beside
  else None.

(** The loop building [blocking_vehicles]; an exception raised for a vehicle
    ends it. *)
Fixpoint blocking_vehicles (vehicles : list Vehicle) (lane_points : list Position)
    (truck_pos : point) (truck_rotation : float)
    : Py.result (list (Vehicle * float * side)) :=
  match vehicles with
  | [] => Py.Return []
  | vehicle :: rest =>
      if is_zero (position vehicle)
      then blocking_vehicles rest lane_points truck_pos truck_rotation
      else
        in_lane <- is_vehicle_in_lane vehicle lane_points truck_pos truck_rotation ;;
        if in_lane then
          let vehicle_pos := (x (position vehicle), z (position vehicle)) in
          dist <- dist_to vehicle_pos truck_pos ;;
          let is_in_front := IsInFront vehicle_pos truck_rotation truck_pos in
          match classify is_in_front dist with
          | Some tag =>
              tail <- blocking_vehicles rest lane_points truck_pos truck_rotation ;;
              Py.Return ((vehicle, dist, tag) :: tail)
          | None => blocking_vehicles rest lane_points truck_pos truck_rotation
          end
        else blocking_vehicles rest lane_points truck_pos truck_rotation
  end.

Definition speed_factor (closest_dist : float) : float :=
  Py.min 1 (Py.max 0.3 (closest_dist / SAFETY_DISTANCE_AHEAD)).

(** [check_lane_safety]: [st] is the module state before the call,
    [vehicles] what [get_vehicles_from_plugin()] returns (the empty list when
    the traffic module gives nothing), [d] the truck pose.  The result and
    the module state after the call are returned together; the state is
    written only after the loop, so an exception leaves it as it was. *)
Definition check_lane_safety (st : State) (d : Data) (vehicles : list Vehicle)
    (target_lane_index current_lane_index : Z) (road : Road)
    : Py.result (bool * float) * State :=
  let cleared :=
    {| _pending_lane_change := false;
       _target_lane_index := _target_lane_index st;
       _slow_down_for_lane_change := false |} in
  if (target_lane_index =? current_lane_index)%Z then (Py.Return (true, 1), cleared)
  else
    match vehicles with
    | [] => (Py.Return (true, 1), st)
    | _ :: _ =>
        match lanes road with
        | None => (Py.Return (true, 1), st)
        | Some road_lanes =>
            if (Z.of_nat (length road_lanes) <=? target_lane_index)%Z
            then (Py.Return (true, 1), st)
            else
              match Py.getitem road_lanes target_lane_index with
              | None => (Py.Raise Py.IndexError, st)
              | Some target_lane =>
                  match points target_lane with
                  | None => (Py.Return (true, 1), st)
                  | Some [] => (Py.Return (true, 1), st)
                  | Some lane_points =>
                      let truck_pos := (truck_x d, truck_z d) in
                      match blocking_vehicles vehicles lane_points truck_pos
                              (truck_rotation d) with
                      | Py.Raise e => (Py.Raise e, st)
                      | Py.Return [] => (Py.Return (true, 1), cleared)
                      | Py.Return blocking =>
                          let pending :=
                            {| _pending_lane_change := true;
                               _target_lane_index := Some target_lane_index;
                               _slow_down_for_lane_change := true |} in
                          match Py.min_of (map (fun v => snd (fst v)) blocking) with
                          | None => (Py.Raise Py.ValueError, pending)
                          | Some closest_dist =>
                              (Py.Return (false, speed_factor closest_dist), pending)
                          end
                      end
                  end
              end
        end
    end.

End WithLibrary.

Definition is_waiting_for_lane_change (st : State) : bool :=
  _pending_lane_change st.

Definition get_lane_change_speed_factor (st : State) : float :=
  if negb (_slow_down_for_lane_change st) then 1 else 0.5.

Definition reset_lane_change_state (st : State) : State :=
  {| _pending_lane_change := false;
     _target_lane_index := None;
     _slow_down_for_lane_change := false |}.

End LaneSafety.

(** ** Plugins/Map/utils/node_helpers.py *)

Module NodeHelpers.

(** A navigation-graph node.  An item uid is an int or [None]. *)
Module Node.
Record t : Set := mk {
  uid : Z;
  x : float;
  y : float;
  forward_item_uid : option Z;
  backward_item_uid : option Z
}.
End Node.

(** Truth value of an item uid: [None] and [0] are false. *)
Definition truthy (u : option Z) : bool :=
  match u with
  | Some v => negb (v =? 0)
  | None => false
  end.

(** [a == b] on item uids. *)
Definition uid_eqb (a b : option Z) : bool :=
  match a, b with
  | Some v, Some w => v =? w
  | None, None => true
  | _, _ => false
  end.

Definition get_connecting_item_uid (node_1 node_2 : Node.t) : option Z :=
  let node_1_forward_item := Node.forward_item_uid node_1 in
  let node_1_backward_item := Node.backward_item_uid node_1 in
  let node_2_forward_item := Node.forward_item_uid node_2 in
  let node_2_backward_item := Node.backward_item_uid node_2 in
  if truthy node_1_forward_item && uid_eqb node_1_forward_item node_2_backward_item
  then node_1_forward_item
  else if truthy node_1_backward_item && uid_eqb node_1_backward_item node_2_forward_item
  then node_1_backward_item
  else if truthy node_1_forward_item && uid_eqb node_1_forward_item node_2_forward_item
  then node_1_forward_item
  else if truthy node_1_backward_item && uid_eqb node_1_backward_item node_2_backward_item
  then node_1_backward_item
  else None.

Definition rotate_left {T : Type} (arr : list T) (count : Z) : Py.result (list T) :=
  if (0 <=? count) && (count <? Z.of_nat (length arr)) then
    if count =? 0 then Py.Return arr
    else Py.Return (Py.slice_from arr count ++ Py.slice_to arr count)
  else Py.Raise Py.AssertionError.

Definition rotate_right {T : Type} (arr : list T) (count : Z) : Py.result (list T) :=
  if (0 <=? count) && (count <? Z.of_nat (length arr)) then
    if count =? 0 then Py.Return arr
    else Py.Return (Py.slice_from arr (- count) ++ Py.slice_to arr (- count))
  else Py.Raise Py.AssertionError.

(** The lane lists of a road look; only their lengths are read. *)
Record RoadLook : Set := mkRoadLook {
  lanes_left : list unit;
  lanes_right : list unit
}.

Module Road.
Record t : Set := mk {
  uid : Z;
  road_look : option RoadLook;
  start_node_uid : Z
}.
End Road.

(** A prefab-local node descriptor. *)
Record PrefabNode : Set := mkPrefabNode {
  input_lanes : list Z;
  output_lanes : list Z
}.

Section WithCurves.

(** Navigation curves are objects compared with [==]. *)
Variable Curve : Type.
Variable curve_eqb : Curve -> Curve -> bool.

Record NavRoute : Type := mkNavRoute {
  curves : list Curve
}.

Record PrefabDescription : Type := mkPrefabDescription {
  nodes : list PrefabNode;
  nav_curves : list Curve;
  nav_routes : list NavRoute
}.

Record Prefab : Type := mkPrefab {
  prefab_uid : Z;
  node_uids : list Z;
  origin_node_index : Z;
  prefab_description : option PrefabDescription
}.

Inductive Item : Type :=
| ItemRoad (r : Road.t)
| ItemPrefab (p : Prefab)
| ItemOther.

Record MapData : Type := mkMapData {
  get_node_by_uid : Z -> option Node.t
}.

(** The inner loop over [route.curves]: returns [(start_found, end_found)]
    as they stand when the loop ends or breaks. *)
Fixpoint scan_curves (description : PrefabDescription)
    (start_prefab_node end_prefab_node : PrefabNode)
    (route_curves : list Curve) (start_found : bool) : bool * bool :=
  match route_curves with
  | [] => (start_found, false)
  | curve :: rest =>
      match Py.index curve_eqb curve (nav_curves description) with
      | None => scan_curves description start_prefab_node end_prefab_node rest start_found
      | Some index =>
          let start_found :=
            if Py.contains (Z.of_nat index) (input_lanes start_prefab_node)
            then true else start_found in
          if Py.contains (Z.of_nat index) (output_lanes end_prefab_node) && start_found
          then (start_found, true)
          else scan_curves description start_prefab_node end_prefab_node rest start_found
      end
  end.

(** The outer loop over [enumerate(routes)], counting from [i]. *)
Fixpoint accepted_routes (description : PrefabDescription)
    (start_prefab_node end_prefab_node : PrefabNode)
    (i : nat) (routes : list NavRoute) : list Z :=
  match routes with
  | [] => []
  | route :: rest =>
      let tail :=
        accepted_routes description start_prefab_node end_prefab_node (S i) rest in
      let '(start_found, end_found) :=
        scan_curves description start_prefab_node end_prefab_node (curves route) false in
      if start_found && end_found then Z.of_nat i :: tail else tail
  end.

(** [[i for i, n in enumerate(rotated_nodes) if n and n.uid == node.uid]]. *)
Definition node_matches (rotated_nodes : list (option Node.t)) (node : Node.t) : list nat :=
  Py.enumerate_filter
    (fun n => match n with
              | Some n => Node.uid n =? Node.uid node
              | None => false
              end)
    O rotated_nodes.

Definition get_connecting_lanes_by_item (node_1 node_2 : Node.t) (item : Item)
    (map_data : MapData) : Py.result (list Z) :=
  match item with
  | ItemRoad item =>
      match Road.road_look item with
      | None => Py.Return []
      | Some road_look =>
          let left_lanes := Z.of_nat (length (lanes_left road_look)) in
          let right_lanes := Z.of_nat (length (lanes_right road_look)) in
          let start_node := Road.start_node_uid item in
          if start_node =? Node.uid node_1 then
            Py.Return (Py.range left_lanes (left_lanes + right_lanes))
          else if 0 <? left_lanes then Py.Return (Py.range 0 left_lanes)
          else Py.Return (Py.range 0 right_lanes)
      end
  | ItemPrefab item =>
      match prefab_description item with
      | None => Py.Return []
      | Some description =>
          let item_nodes := map (get_node_by_uid map_data) (node_uids item) in
          match rotate_right item_nodes (origin_node_index item) with
          | Py.Raise e => Py.Raise e
          | Py.Return rotated_nodes =>
              match node_matches rotated_nodes node_1 with
              | [] => Py.Return []
              | node_1_index :: _ =>
                  match nth_error (nodes description) node_1_index with
                  | None => Py.Return []
                  | Some start_prefab_node =>
                      match node_matches rotated_nodes node_2 with
                      | [] => Py.Return []
                      | node_2_index :: _ =>
                          match nth_error (nodes description) node_2_index with
                          | None => Py.Return []
                          | Some end_prefab_node =>
                              if (node_1_index =? node_2_index)%nat then Py.Return []
                              else
                                match nav_routes description with
                                | [] => Py.Return []
                                | routes =>
                                    Py.Return
                                      (accepted_routes description start_prefab_node
                                         end_prefab_node O routes)
                                end
                          end
                      end
                  end
              end
          end
      end
  | ItemOther => Py.Return []
  end.

End WithCurves.

Arguments curves {Curve} n.
Arguments nodes {Curve} p.
Arguments nav_curves {Curve} p.
Arguments nav_routes {Curve} p.
Arguments prefab_uid {Curve} p.
Arguments node_uids {Curve} p.
Arguments origin_node_index {Curve} p.
Arguments prefab_description {Curve} p.
Arguments ItemRoad {Curve} r.
Arguments ItemPrefab {Curve} p.
Arguments ItemOther {Curve}.
Arguments scan_curves {Curve} curve_eqb description start_prefab_node end_prefab_node
  route_curves start_found.
Arguments accepted_routes {Curve} curve_eqb description start_prefab_node end_prefab_node
  i routes.
Arguments get_connecting_lanes_by_item {Curve} curve_eqb node_1 node_2 item map_data.

Record RouteNode : Set := mkRouteNode {
  node : Node.t
}.

(** [list.index] on nodes: node objects are told apart by their unique id. *)
Definition node_eqb (a b : Node.t) : bool := Node.uid a =? Node.uid b.

Local Open Scope float_scope.

(** The bounds of the window around [index] (lines 219-227). *)
Definition window_bounds (len index : Z) (in_front : bool) : Z * Z :=
  if negb in_front then (index, Z.min len (index + 2))
  else
    let lower_bound := Z.max 0 (index - 1) in
    if (lower_bound =? 0)%Z then (lower_bound, (index + 2)%Z)
    else (lower_bound, (index + 1)%Z).

Section WithGeometry.

(** [math_helpers.DistanceBetweenPoints] and [math_helpers.IsInFront]: the
    helpers of a module that is not under src/. *)
Variable DistanceBetweenPoints : float * float -> float * float -> float.
Variable IsInFront : float * float -> float -> float * float -> bool.

(** The built-in [sorted(path, key=...)] computes the keys, compares keys
    only, and returns a rearrangement of the path, so its first element is
    an element of the path.  [sorted_head keys] is the position of that
    element in the path, which is for Python's sort to decide; every
    definition and theorem below holds whatever it decides. *)
Variable sorted_head : list float -> nat.

(** Lines 229-242: classify the window and pick the first node behind as
    [last] and the first node in front as [next]; a missing class is the
    exception the [try] turns into [(None, None)]. *)
Definition last_and_next (closest_nodes : list Node.t) (rotation : float)
    (position : float * float) : option Node.t * option Node.t :=
  let in_front :=
    map (fun n => IsInFront (Node.x n, Node.y n) rotation position) closest_nodes in
  match Py.index Bool.eqb false in_front, Py.index Bool.eqb true in_front with
  | Some i_last, Some i_next =>
      (nth_error closest_nodes i_last, nth_error closest_nodes i_next)
  | _, _ => (None, None)
  end.

(** [distance_ordered[0]] for a path that starts with [first]. *)
Definition closest_node (first : Node.t) (others : list Node.t)
    (position : float * float) : Node.t :=
  let path := first :: others in
  let keys := map (fun n => DistanceBetweenPoints (Node.x n, Node.y n) position) path in
  nth (sorted_head keys) path first.

Definition get_surrounding_nav_nodes (route_nodes : list RouteNode) (x z rotation : float)
    : Py.result (option Node.t * option Node.t) :=
  let position := (x, z) in
  let path := map node route_nodes in
  match path with
  | [] => Py.Raise Py.IndexError
  | first :: others =>
      let closest := closest_node first others position in
      let in_front := IsInFront (Node.x closest, Node.y closest) rotation position in
      match Py.index node_eqb closest path with
      | None => Py.Raise Py.ValueError
      | Some index =>
          let '(lower_bound, upper_bound) :=
            window_bounds (Z.of_nat (length path)) (Z.of_nat index) in_front in
          let closest_nodes := Py.slice path lower_bound upper_bound in
          Py.Return (last_and_next closest_nodes rotation position)
      end
  end.

End WithGeometry.

End NodeHelpers.

(** ** ETS2LA/Utils/Values/numbers.py *)

Module Numbers.

Local Open Scope float_scope.

(** [collections.deque] with an optional [maxlen], oldest element first. *)
Record deque (A : Type) : Type := mkDeque {
  items : list A;
  maxlen : option nat
}.

Arguments mkDeque {A} items maxlen.
Arguments items {A} d.
Arguments maxlen {A} d.

(** [deque.append(v)]: a full bounded deque discards its oldest element;
    a deque of capacity zero stays empty. *)
Definition append {A : Type} (d : deque A) (v : A) : deque A :=
  match maxlen d with
  | None => mkDeque (items d ++ [v]) None
  | Some O => d
  | Some m =>
      if (length (items d) <? m)%nat then mkDeque (items d ++ [v]) (Some m)
      else mkDeque (tl (items d) ++ [v]) (Some m)
  end.

(** [deque(iterable, maxlen=m)]: the elements are appended one by one. *)
Definition deque_of {A : Type} (l : list A) (m : option nat) : deque A :=
  fold_left append l (mkDeque [] m).

(** [deque.popleft()] on a non-empty deque. *)
Definition popleft {A : Type} (d : deque A) : deque A :=
  mkDeque (tl (items d)) (maxlen d).

Inductive smoothing : Set :=
| frames
| time
| other_smoothing.

(** [valueArray] holds plain samples in "frames" mode and
    [[timestamp, sample]] pairs in "time" mode; an object built with another
    mode has no [valueArray]. *)
Inductive values : Type :=
| FrameValues (d : deque float)
| TimeValues (d : deque (float * float))
| NoValues.

Record SmoothedValue : Type := mkSmoothedValue {
  smoothingType : smoothing;
  smoothingAmount : Z;
  valueArray : values
}.

(** [sum(l) / len(l)]; the sum adds from the left, starting at 0. *)
Definition average (l : list float) : Py.result float :=
  match l with
  | [] => Py.Raise Py.ZeroDivisionError
  | _ :: _ => Py.Return (fold_left PrimFloat.add l 0 / Py.float_of_nat (length l))
  end.

(** [SmoothedValue(smoothingType, smoothingAmount)] for an integer amount;
    [now] is the reading of [time.perf_counter()].  [deque] converts
    [maxlen] to a C [ssize_t] of 64 bits and raises OverflowError when it
    does not fit; a negative [maxlen] that fits is refused with
    ValueError. *)
Definition init (smoothingType : smoothing) (smoothingAmount : Z) (now : float)
    : Py.result SmoothedValue :=
  match smoothingType with
  | frames =>
      if (smoothingAmount <? - 2 ^ 63)%Z || (2 ^ 63 <=? smoothingAmount)%Z
      then Py.Raise Py.OverflowError
      else if (smoothingAmount <? 0)%Z then Py.Raise Py.ValueError
      else Py.Return
             (mkSmoothedValue frames smoothingAmount
                (FrameValues (deque_of [0] (Some (Z.to_nat smoothingAmount)))))
  | time =>
      Py.Return
        (mkSmoothedValue time smoothingAmount (TimeValues (deque_of [(now, 0)] None)))
  | other_smoothing => Py.Return (mkSmoothedValue other_smoothing smoothingAmount NoValues)
  end.

(** The pruning loop of "time" mode: drop from the front while more than one
    pair is held and newest minus oldest exceeds the window, an int that the
    span is compared with exactly. *)
Fixpoint prune (fuel : nat) (window : Z) (l : list (float * float))
    : list (float * float) :=
  match fuel with
  | O => l
  | S fuel' =>
      match l with
      | oldest :: ((_ :: _) as rest) =>
          if Py.float_gt_int (fst (last l oldest) - fst oldest) window
          then prune fuel' window rest
          else l
      | _ => l
      end
  end.

(** [smooth(value)]: the object after the call and what the call returns. *)
Definition smooth (self : SmoothedValue) (value : float) (now : float)
    : SmoothedValue * Py.result float :=
  match smoothingType self, valueArray self with
  | frames, FrameValues d =>
      let d' := append d value in
      (mkSmoothedValue frames (smoothingAmount self) (FrameValues d'), average (items d'))
  | time, TimeValues d =>
      let d1 := append d (now, value) in
      let kept := prune (length (items d1)) (smoothingAmount self) (items d1) in
      (mkSmoothedValue time (smoothingAmount self) (TimeValues (mkDeque kept (maxlen d1))),
       average (map snd kept))
  | _, _ => (self, Py.Raise Py.ValueError)
  end.

(** [get()]. *)
Definition get (self : SmoothedValue) : SmoothedValue * Py.result float :=
  match smoothingType self, valueArray self with
  | frames, FrameValues d => (self, average (items d))
  | time, TimeValues d =>
      let kept := prune (length (items d)) (smoothingAmount self) (items d) in
      (mkSmoothedValue time (smoothingAmount self) (TimeValues (mkDeque kept (maxlen d))),
       match kept with
       | [] => Py.Return 0
       | _ :: _ => average (map snd kept)
       end)
  | _, _ => (self, Py.Raise Py.ValueError)
  end.

(** Pushing a sequence of samples in order; the average reported by the
    last push. *)
Fixpoint smooth_all (self : SmoothedValue) (samples : list float) (now : float)
    (reported : Py.result float) : SmoothedValue * Py.result float :=
  match samples with
  | [] => (self, reported)
  | v :: rest =>
      let '(self', r) := smooth self v now in
      smooth_all self' rest now r
  end.

End Numbers.

(** ** Reference notions the properties are stated with *)

Module NodeHelpersSpec.

Import NodeHelpers.

(** The four pairings of item ids, in the order they are to be tried. *)
Definition pairings (node_1 node_2 : Node.t) : list (option Z * option Z) :=
  [ (Node.forward_item_uid node_1, Node.backward_item_uid node_2);
    (Node.backward_item_uid node_1, Node.forward_item_uid node_2);
    (Node.forward_item_uid node_1, Node.forward_item_uid node_2);
    (Node.backward_item_uid node_1, Node.backward_item_uid node_2) ].

(** A pairing connects through [u] when both sides are the id [u] and [u] is
    a real id: present and not 0. *)
Definition connects_through (p : option Z * option Z) (u : Z) : Prop :=
  fst p = Some u /\ snd p = Some u /\ u <> 0.

Definition no_connection (p : option Z * option Z) : Prop :=
  forall u, ~ connects_through p u.

(** The cascade of [get_connecting_item_uid] over a list of pairings. *)
Fixpoint first_connection (ps : list (option Z * option Z)) : option Z :=
  match ps with
  | [] => None
  | (a, b) :: rest => if truthy a && uid_eqb a b then a else first_connection rest
  end.

(** [lanes] is the contiguous ascending range [lo, hi). *)
Definition consecutive (lanes : list Z) (lo hi : Z) : Prop :=
  Z.of_nat (length lanes) = Z.max 0 (hi - lo) /\
  forall i, (i < length lanes)%nat -> nth_error lanes i = Some (lo + Z.of_nat i).


Section Routes.

Variable Curve : Type.
Variable curve_eqb : Curve -> Curve -> bool.

(** The curve at position [pos] of a route's chain is a navigation curve of
    the description and its index there is one of [lane_set]. *)
Definition curve_in (description : PrefabDescription Curve) (lane_set : list Z)
    (chain : list Curve) (pos : nat) : Prop :=
  exists curve index,
    nth_error chain pos = Some curve /\
    Py.index curve_eqb curve (nav_curves description) = Some index /\
    Py.contains (Z.of_nat index) lane_set = true.

(** The chain reaches an input lane of [start_node] and, at or after that
    position, an output lane of [end_node]. *)
Definition chain_connects (description : PrefabDescription Curve)
    (start_node end_node : PrefabNode) (chain : list Curve) : Prop :=
  exists i j,
    (i <= j)%nat /\
    curve_in description (input_lanes start_node) chain i /\
    curve_in description (output_lanes end_node) chain j.

End Routes.

(** [i] is the position of [node] in the rotated boundary order: the first
    index holding a resolved node with the uid of [node]. *)
Definition position_in (rotated : list (option Node.t)) (node : Node.t) (i : nat) : Prop :=
  (exists n, nth_error rotated i = Some (Some n) /\ Node.uid n = Node.uid node) /\
  forall j n, (j < i)%nat -> nth_error rotated j = Some (Some n) ->
              Node.uid n <> Node.uid node.
(** A three-way junction for the prefab query: boundary nodes 100, 200,
    300 with origin index 1, four navigation curves (10, 11, 12, 13) and
    four routes.  In the rotated order [300, 100, 200] node 100 is at
    position 1 and node 200 at position 2. *)
Definition junction_node (uid : Z) : Node.t := Node.mk uid 0 0 None None.

Definition junction_map : MapData :=
  mkMapData (fun uid => Some (junction_node uid)).

Definition junction_description : PrefabDescription Z :=
  mkPrefabDescription Z
    [ mkPrefabNode [3] [3]; mkPrefabNode [0] [1]; mkPrefabNode [1] [2] ]
    [ 10; 11; 12; 13 ]
    [ mkNavRoute Z [10; 11; 12];   (* input lane 0, then output lane 2 *)
      mkNavRoute Z [12; 10];       (* output lane before the input lane *)
      mkNavRoute Z [13; 99; 11];   (* neither, and a curve that is not listed *)
      mkNavRoute Z [10; 12] ].

Definition junction : Prefab Z :=
  mkPrefab Z 5 [100; 200; 300] 1 (Some junction_description).

End NodeHelpersSpec.

Module LaneSafetySpec.

Import LaneSafety.

Local Open Scope float_scope.

(** [clamp(v, lo, hi)]. *)
Definition clamp (v lo hi : float) : float := Py.min hi (Py.max lo v).

Section WithLibrary.

Variable power2 : float -> option float.
Variable IsInFront : point -> float -> point -> bool.

Definition ground (v : Vehicle) : point := (x (position v), z (position v)).

(** The distance of a vehicle from the truck is computed, and is [dist]. *)
Definition at_distance (v : Vehicle) (truck_pos : point) (dist : float) : Prop :=
  dist_to power2 (ground v) truck_pos = Py.Return dist.

(** The three classes of the specification for a vehicle seen from the
    truck at [truck_pos] heading [truck_rotation]. *)
Definition is_ahead (v : Vehicle) (truck_pos : point) (truck_rotation : float) : Prop :=
  IsInFront (ground v) truck_rotation truck_pos = true /\
  exists dist, at_distance v truck_pos dist /\ (dist <? 30) = true.

Definition is_behind (v : Vehicle) (truck_pos : point) (truck_rotation : float) : Prop :=
  IsInFront (ground v) truck_rotation truck_pos = false /\
  exists dist, at_distance v truck_pos dist /\ (dist <? 15) = true.

Definition is_beside (v : Vehicle) (truck_pos : point) : Prop :=
  exists dist, at_distance v truck_pos dist /\ (dist <? 8) = true.

(** A blocking vehicle: its position is not zero, it lies in the lane, and
    it falls in one of the three classes. *)
Definition blocks (lane_points : list Position) (truck_pos : point)
    (truck_rotation : float) (v : Vehicle) : Prop :=
  is_zero (position v) = false /\
  is_vehicle_in_lane power2 IsInFront v lane_points truck_pos truck_rotation
  = Py.Return true /\
  (is_ahead v truck_pos truck_rotation \/
   is_behind v truck_pos truck_rotation \/
   is_beside v truck_pos).

(** [closest] is the distance of a blocking vehicle that no blocking
    vehicle is strictly closer than. *)
Definition closest_blocking_distance (vehicles : list Vehicle)
    (lane_points : list Position) (truck_pos : point) (truck_rotation : float)
    (closest : float) : Prop :=
  (exists v, In v vehicles /\ blocks lane_points truck_pos truck_rotation v /\
             at_distance v truck_pos closest) /\
  (forall v dist, In v vehicles -> blocks lane_points truck_pos truck_rotation v ->
                  at_distance v truck_pos dist -> (dist <? closest) = false).

(** No distance computation of the loop over the vehicles raises: the lane
    test of every vehicle with a non-zero position returns. *)
Definition distances_computed (vehicles : list Vehicle) (lane_points : list Position)
    (truck_pos : point) (truck_rotation : float) : Prop :=
  forall v, In v vehicles -> is_zero (position v) = false ->
    exists in_lane,
      is_vehicle_in_lane power2 IsInFront v lane_points truck_pos truck_rotation
      = Py.Return in_lane.

End WithLibrary.

(** The state after the two branches that clear the flags. *)
Definition cleared (st : State) : State :=
  {| _pending_lane_change := false;
     _target_lane_index := _target_lane_index st;
     _slow_down_for_lane_change := false |}.

(** The state after the branch that blocks the change. *)
Definition pending (target_lane_index : Z) : State :=
  {| _pending_lane_change := true;
     _target_lane_index := Some target_lane_index;
     _slow_down_for_lane_change := true |}.

(** The worked scenario: a truck at the origin heading along the z axis, a
    road whose lane 0 has no points and whose lane 1 is a straight
    centerline through the truck, and one vehicle on that centerline at
    [along] metres in front.  The centerline runs from z = -128 to z = 128,
    so that for a vehicle at a whole number of metres every product,
    quotient and square of the computation is exact. *)
Definition truck : Data := mkData 0 0 0.

Definition centerline : list Position := [mkPosition 0 0 (-128); mkPosition 0 0 128].

Definition two_lane_road : Road :=
  mkRoad (Some [mkLane (Some []); mkLane (Some centerline)]).

Definition vehicle_at (along : float) : Vehicle := mkVehicle (mkPosition 0 0 along).

(** The state while a change to lane 1 is pending. *)
Definition pending_state : State :=
  {| _pending_lane_change := true;
     _target_lane_index := Some 1%Z;
     _slow_down_for_lane_change := true |}.

End LaneSafetySpec.

(** ** Stand-ins for the geometry helpers in the worked scenarios *)

Module Geometry.

Local Open Scope float_scope.

(** Modelled from the spec: [math_helpers.DistanceBetweenPoints] is not
    under src/; the spec has the path locator use the Euclidean ground-plane
    distance. *)
Definition euclidean_distance (p q : float * float) : float :=
  let dx := fst p - fst q in
  let dy := snd p - snd q in
  PrimFloat.sqrt (dx * dx + dy * dy).

(** Modelled from the spec: [math_helpers.IsInFront] is not under src/; the
    spec describes a dot-product-style check against the heading direction.
    The scenarios fix the heading along the second axis, where the heading
    direction is (0, 1) whatever the rotation value says, and a point is in
    front when the dot product of that direction with its offset from
    [position] is positive. *)
Definition in_front_along_axis (p : float * float) (rotation : float)
    (position : float * float) : bool :=
  0 <? 0 * (fst p - fst position) + 1 * (snd p - snd position).

(** Modelled from CPython's float power: [v ** 2] is the C library's
    [pow(v, 2.0)] and raises OverflowError when [v] is finite and the result
    is not.  A [pow] that is accurate to less than one unit in the last
    place returns the exact square wherever the square is a binary64
    number, which is the case for every value the worked scenarios square;
    there it is the product below.  Elsewhere [pow] may differ from the
    product in the last digit, and nothing is claimed. *)
Definition power2_exact (v : float) : option float :=
  let square := v * v in
  if PrimFloat.is_infinity square && negb (PrimFloat.is_infinity v) then None
  else Some square.

(** The position of the first least key after [pos], [best] at [best_pos]
    being the least so far. *)
Fixpoint least_from (best : float) (best_pos pos : nat) (keys : list float) : nat :=
  match keys with
  | [] => best_pos
  | k :: rest =>
      if k <? best then least_from k pos (S pos) rest
      else least_from best best_pos (S pos) rest
  end.

(** Modelled from Python's documentation of [sorted]: the sort is stable
    and ascending, so when the keys are numbers its first element is the
    first one with the least key.  (With a NaN among the keys the order is
    whatever the algorithm makes of it, and nothing is claimed.) *)
Definition stable_sort_head (keys : list float) : nat :=
  match keys with
  | [] => O
  | k :: rest => least_from k O 1 rest
  end.

(** A float that is a number: not NaN. *)
Definition is_number (v : float) : Prop := (v =? v) = true.

End Geometry.

Module PathWindowSpec.

Import NodeHelpers.

(** The window bounds as C8 words them: [index, index+2) behind;
    [0, index+2) in front at index 0; [index-1, index+1) in front
    elsewhere. *)
Definition claimed_window (index : Z) (in_front : bool) : Z * Z :=
  if negb in_front then (index, index + 2)
  else if index =? 0 then (0, index + 2)
  else (index - 1, index + 1).

(** The first node behind and the first node in front of a window, when
    both exist. *)
Definition first_behind_and_ahead (front : Node.t -> bool) (window : list Node.t)
    : option Node.t * option Node.t :=
  match find (fun n => negb (front n)) window, find front window with
  | Some last, Some next => (Some last, Some next)
  | _, _ => (None, None)
  end.

(** A straight path of five nodes, 10 m apart along the heading axis. *)
Definition straight_node (k : Z) (along : float) : Node.t :=
  Node.mk k 0 along None None.

Definition straight_path : list RouteNode :=
  map mkRouteNode
    [ straight_node 0 0; straight_node 1 10; straight_node 2 20;
      straight_node 3 30; straight_node 4 40 ].

(** A path that doubles back: its first two nodes are in front of a truck
    at the origin, the third is behind, and the second is the closest. *)
Definition hairpin_path : list RouteNode :=
  map mkRouteNode
    [ Node.mk 0 3 4 None None; Node.mk 1 0 3 None None; Node.mk 2 0 (-4) None None ].


End PathWindowSpec.

(** ** Sequences of calls on the lane-safety state *)

Module LaneSafetyRuns.

Import LaneSafety.

(** One use of the module by its caller: a safety check with its inputs, or
    a reset. *)
Inductive call : Type :=
| Check (d : Data) (vehicles : list Vehicle) (target_lane_index current_lane_index : Z)
    (road : Road)
| Reset.

Section WithLibrary.

Variable power2 : float -> option float.
Variable IsInFront : point -> float -> point -> bool.

(** The module state after one call. *)
Definition step (st : State) (c : call) : State :=
  match c with
  | Check d vehicles target current road =>
      snd (check_lane_safety power2 IsInFront st d vehicles target current road)
  | Reset => reset_lane_change_state st
  end.

(** The module state after a sequence of calls, starting from the state
    the module is loaded with. *)
Definition run (calls : list call) : State := fold_left step calls initial_state.

End WithLibrary.

(** The two flags agree, and a pending change has a target lane. *)
Definition consistent (st : State) : Prop :=
  _pending_lane_change st = _slow_down_for_lane_change st /\
  (_pending_lane_change st = true -> _target_lane_index st <> None).

End LaneSafetyRuns.

(** ** Sequences of uses of a smoother *)

Module NumbersRuns.

Import Numbers.

(** The last [m] elements of a list (all of it when it is shorter). *)
Definition last_n {A : Type} (m : nat) (l : list A) : list A :=
  skipn (length l - m) l.

(** One use of a smoother: [smooth(value)] at clock reading [now], or
    [get()]. *)
Inductive use : Set :=
| Push (value now : float)
| Read.

Definition apply_use (self : SmoothedValue) (u : use) : SmoothedValue * Py.result float :=
  match u with
  | Push value now => smooth self value now
  | Read => get self
  end.

(** What a sequence of uses returns or raises, one outcome per use; a
    caller that catches an exception goes on with the same object. *)
Fixpoint outcomes (self : SmoothedValue) (uses : list use) : list (Py.result float) :=
  match uses with
  | [] => []
  | u :: rest =>
      let '(self', outcome) := apply_use self u in
      outcome :: outcomes self' rest
  end.

(** In "time" mode: the kept pairs need no pruning. *)
Definition within_window (window : Z) (kept : list (float * float)) : Prop :=
  match kept with
  | oldest :: _ :: _ =>
      Py.float_gt_int (fst (last kept oldest) - fst oldest) window = false
  | _ => True
  end.

(** A smoother that holds at least one sample: in "frames" mode within a
    positive capacity, in "time" mode in an unbounded deque. *)
Definition holds_samples (self : SmoothedValue) : Prop :=
  (smoothingType self = frames /\
   exists held m,
     valueArray self = FrameValues (mkDeque held (Some m)) /\
     (0 < m)%nat /\ held <> [] /\ (length held <= m)%nat) \/
  (smoothingType self = time /\
   exists held,
     valueArray self = TimeValues (mkDeque held None) /\ held <> []).

End NumbersRuns.

(* ===================================================================== *)
(** * Part II: properties                                                 *)
(* ===================================================================== *)

(** ** Order of binary64 numbers *)

Module FloatOrder.

Ltac compare_cases :=
  repeat match goal with
  | |- context [Pos.compare_cont Eq ?a ?b] =>
      change (Pos.compare_cont Eq a b) with (Pos.compare a b)
  | H : context [Pos.compare_cont Eq ?a ?b] |- _ =>
      change (Pos.compare_cont Eq a b) with (Pos.compare a b) in H
  | |- context [Z.compare ?a ?b] => destruct (Z.compare_spec a b)
  | H : context [Z.compare ?a ?b] |- _ => destruct (Z.compare_spec a b)
  | |- context [Pos.compare ?a ?b] => destruct (Pos.compare_spec a b)
  | H : context [Pos.compare ?a ?b] |- _ => destruct (Pos.compare_spec a b)
  end; simpl in *.

Lemma SFltb_trans (a b c : spec_float) :
  SFltb a b = true -> SFltb b c = true -> SFltb a c = true.
Proof.
  unfold SFltb, SFcompare.
  destruct a as [[]|[]| |[] m1 e1], b as [[]|[]| |[] m2 e2], c as [[]|[]| |[] m3 e3];
    try discriminate; try reflexivity; intros H1 H2;
    compare_cases; subst; try discriminate; try reflexivity; try lia.
Qed.

(** Below [c] means below [b] or above [b], for a number [b]. *)
Lemma SFltb_between (a b c : spec_float) :
  SFltb a c = true -> b <> S754_nan -> SFltb a b = true \/ SFltb b c = true.
Proof.
  unfold SFltb, SFcompare.
  destruct a as [[]|[]| |[] m1 e1], b as [[]|[]| |[] m2 e2], c as [[]|[]| |[] m3 e3];
    try discriminate; try (intros; congruence);
    try (intros; left; reflexivity); try (intros; right; reflexivity);
    intros H1 _; compare_cases; subst; try discriminate; try lia;
    try (left; reflexivity); try (right; reflexivity).
Qed.

Local Open Scope float_scope.

Lemma ltb_trans (a b c : float) :
  (a <? b) = true -> (b <? c) = true -> (a <? c) = true.
Proof. rewrite !FloatAxioms.ltb_spec. apply SFltb_trans. Qed.

Lemma ltb_irrefl (a : float) : (a <? a) = false.
Proof.
  rewrite FloatAxioms.ltb_spec. unfold SFltb, SFcompare.
  destruct (Prim2SF a) as [[]|[]| |[] m e]; try reflexivity;
    compare_cases; subst; try reflexivity; lia.
Qed.

(** [b <? bound = true] shows that [b] is a number. *)
Lemma ltb_between (a b c bound : float) :
  (a <? c) = true -> (b <? bound) = true -> (a <? b) = true \/ (b <? c) = true.
Proof.
  rewrite !FloatAxioms.ltb_spec. intros Hac Hb. apply SFltb_between; trivial.
  intros Hnan. rewrite Hnan in Hb. discriminate.
Qed.

(** The least element picked by Python's [min] over numbers: an element of
    the list that none is strictly below. *)
Lemma fold_min_least (l : list float) (a : float) :
  (forall v, In v (a :: l) -> exists bound, (v <? bound) = true) ->
  In (fold_left Py.min l a) (a :: l) /\
  forall v, In v (a :: l) -> (v <? fold_left Py.min l a) = false.
Proof.
  revert a. induction l as [|b l IH]; intros a Hnum; simpl fold_left.
  - split; [now left|]. intros v [<- | []]. apply ltb_irrefl.
  - assert (forall v, In v (Py.min a b :: l) -> exists bound, (v <? bound) = true) as Hnum'.
    { intros v [<- | Hv].
      - unfold Py.min. destruct (b <? a); apply Hnum; simpl; auto.
      - apply Hnum. simpl. auto. }
    destruct (IH (Py.min a b) Hnum') as [Hin Hleast]. split.
    + destruct Hin as [Hin | Hin]; [|simpl; auto].
      rewrite <- Hin. unfold Py.min. destruct (b <? a); simpl; auto.
    + set (m := fold_left Py.min l (Py.min a b)) in *.
      pose proof (Hleast (Py.min a b) (or_introl eq_refl)) as Hab.
      unfold Py.min in Hab.
      intros v [<- | [<- | Hv]].
      * destruct (b <? a) eqn:E; trivial.
        destruct (a <? m) eqn:Ham; trivial.
        rewrite (ltb_trans b a m E Ham) in Hab. discriminate.
      * destruct (b <? a) eqn:E; trivial.
        destruct (b <? m) eqn:Hbm; trivial.
        destruct (Hnum a (or_introl eq_refl)) as (bound & Ha).
        destruct (ltb_between b a m bound Hbm Ha); congruence.
      * apply Hleast. simpl. auto.
Qed.

(** The same for a [b] that is a number by [b == b]. *)
Lemma ltb_between_number (a b c : float) :
  Geometry.is_number b -> (a <? c) = true -> (a <? b) = true \/ (b <? c) = true.
Proof.
  unfold Geometry.is_number. rewrite FloatAxioms.eqb_spec, !FloatAxioms.ltb_spec.
  intros Hb Hac. apply SFltb_between; trivial.
  intros Hnan. rewrite Hnan in Hb. discriminate.
Qed.

Lemma ltb_asym (a b : float) : (a <? b) = true -> (b <? a) = false.
Proof.
  intros H. destruct (b <? a) eqn:E; trivial.
  pose proof (ltb_trans a b a H E) as Haa.
  now rewrite ltb_irrefl in Haa.
Qed.

End FloatOrder.

(** ** Python lists *)

Module PyFacts.

Lemma clip_nonneg (n i : Z) : 0 <= n -> 0 <= i -> Py.clip n i = Z.min n i.
Proof.
  intros Hn Hi. unfold Py.clip.
  destruct (i <? 0) eqn:E1; [apply Z.ltb_lt in E1; lia|].
  destruct (i <? 0) eqn:E2; [apply Z.ltb_lt in E2; lia|].
  destruct (n <? i) eqn:E3; [apply Z.ltb_lt in E3 | apply Z.ltb_ge in E3]; lia.
Qed.

Lemma clip_from_end (n k : Z) : 0 < k <= n -> Py.clip n (- k) = n - k.
Proof.
  intros H. unfold Py.clip.
  destruct (- k <? 0) eqn:E1; [|apply Z.ltb_ge in E1; lia].
  destruct (- k + n <? 0) eqn:E2; [apply Z.ltb_lt in E2; lia|].
  destruct (n <? - k + n) eqn:E3; [apply Z.ltb_lt in E3; lia|]. lia.
Qed.

Lemma slice_nonneg {A : Type} (l : list A) (lo hi : Z) :
  0 <= lo -> 0 <= hi ->
  Py.slice l lo hi = firstn (Z.to_nat hi - Z.to_nat lo) (skipn (Z.to_nat lo) l).
Proof.
  intros Hlo Hhi. unfold Py.slice.
  rewrite !clip_nonneg by lia.
  destruct (Z_le_gt_dec (Z.of_nat (length l)) lo) as [Hge | Hlt].
  - rewrite (Z.min_l _ lo) by lia. rewrite Nat2Z.id.
    rewrite !skipn_all2 by lia. now rewrite !firstn_nil.
  - rewrite (Z.min_r _ lo) by lia.
    destruct (Z_le_gt_dec (Z.of_nat (length l)) hi) as [Hge' | Hlt'].
    + rewrite Z.min_l by lia. rewrite Nat2Z.id.
      rewrite !firstn_all2; trivial; rewrite length_skipn; lia.
    + rewrite Z.min_r by lia. reflexivity.
Qed.

Lemma range_length (lo hi : Z) : length (Py.range lo hi) = Z.to_nat (hi - lo).
Proof. unfold Py.range. now rewrite length_map, length_seq. Qed.

Lemma range_nth (lo hi : Z) (i : nat) :
  (i < Z.to_nat (hi - lo))%nat -> nth_error (Py.range lo hi) i = Some (lo + Z.of_nat i).
Proof.
  intros H. unfold Py.range.
  rewrite nth_error_map, nth_error_seq.
  destruct (Nat.ltb_spec i (Z.to_nat (hi - lo))); [reflexivity | lia].
Qed.


Lemma find_pointwise {A : Type} (f g : A -> bool) (l : list A) :
  (forall a, f a = g a) -> find f l = find g l.
Proof.
  intros H. induction l as [|a l IH]; simpl; [reflexivity|].
  rewrite H, IH. reflexivity.
Qed.
End PyFacts.

(** ** Lane connectivity resolver *)

Module NodeHelpersFacts.

Import NodeHelpers NodeHelpersSpec.

(** *** Connecting item of two nodes *)

Lemma get_connecting_item_uid_cascade (node_1 node_2 : Node.t) :
  get_connecting_item_uid node_1 node_2 = first_connection (pairings node_1 node_2).
Proof. reflexivity. Qed.

Lemma test_connects (a b : option Z) :
  truthy a && uid_eqb a b = true <-> exists u, a = Some u /\ connects_through (a, b) u.
Proof.
  unfold connects_through; simpl. split.
  - intros H. apply andb_true_iff in H as [Ht He].
    destruct a as [v|]; [|discriminate]. destruct b as [w|]; [|discriminate].
    simpl in Ht, He. apply Z.eqb_eq in He. subst w.
    exists v. repeat split; trivial.
    intros ->. discriminate.
  - intros (u & -> & _ & -> & Hu). simpl.
    rewrite Z.eqb_refl. destruct (Z.eqb_spec u 0); [contradiction | reflexivity].
Qed.

Lemma test_no_connection (a b : option Z) :
  truthy a && uid_eqb a b = false <-> no_connection (a, b).
Proof.
  split.
  - intros H u Hc.
    assert (truthy a && uid_eqb a b = true) as Ht.
    { apply test_connects. exists u. split; [apply Hc | exact Hc]. }
    congruence.
  - intros H. destruct (truthy a && uid_eqb a b) eqn:E; trivial.
    apply test_connects in E as (u & _ & Hc). now apply H in Hc.
Qed.

Lemma first_connection_some (ps : list (option Z * option Z)) (u : Z) :
  first_connection ps = Some u <->
  exists before p after,
    ps = before ++ p :: after /\ Forall no_connection before /\ connects_through p u.
Proof.
  induction ps as [|[a b] ps IH]; simpl.
  - split; [discriminate|]. intros (before & p & after & H & _). now destruct before.
  - destruct (truthy a && uid_eqb a b) eqn:E.
    + apply test_connects in E as (v & -> & Hc). split.
      * intros [= ->]. exists [], (Some u, b), ps. repeat split; trivial. apply Hc. apply Hc.
      * intros (before & p & after & Hps & Hall & Hp).
        destruct before as [|q before]; simpl in Hps; injection Hps as <- ->.
        -- destruct Hp as (Hp & _). simpl in Hp. exact Hp.
        -- inversion Hall as [|? ? Hq _]; subst. now apply Hq in Hc.
    + apply test_no_connection in E. rewrite IH. split.
      * intros (before & p & after & -> & Hall & Hp).
        exists ((a, b) :: before), p, after. repeat split; trivial; try apply Hp.
        now constructor.
      * intros (before & p & after & Hps & Hall & Hp).
        destruct before as [|q before]; simpl in Hps; injection Hps as <- ->.
        -- now apply E in Hp.
        -- exists before, p, after. inversion Hall; subst. repeat split; trivial; apply Hp.
Qed.

Lemma first_connection_none (ps : list (option Z * option Z)) :
  first_connection ps = None <-> Forall no_connection ps.
Proof.
  induction ps as [|[a b] ps IH]; simpl.
  - split; trivial.
  - destruct (truthy a && uid_eqb a b) eqn:E.
    + apply test_connects in E as (v & -> & Hc). split; [discriminate|].
      intros Hall. inversion Hall as [|? ? Hq _]; subst. now apply Hq in Hc.
    + apply test_no_connection in E. rewrite IH. split.
      * now constructor.
      * intros Hall. now inversion Hall.
Qed.

(** C7.  The connecting-item query tries the pairings (node_1.forward,
    node_2.backward), (node_1.backward, node_2.forward), (node_1.forward,
    node_2.forward), (node_1.backward, node_2.backward) in that order and
    returns the id of the first pairing whose two ids are equal and real;
    an id that is absent or 0 never produces a match (so 0 is never
    returned), and the result is absent exactly when no pairing matches. *)
Theorem get_connecting_item_uid_first_match (node_1 node_2 : Node.t) :
  (forall u,
      get_connecting_item_uid node_1 node_2 = Some u <->
      exists before p after,
        pairings node_1 node_2 = before ++ p :: after /\
        Forall no_connection before /\ connects_through p u) /\
  (get_connecting_item_uid node_1 node_2 = None <->
   Forall no_connection (pairings node_1 node_2)) /\
  get_connecting_item_uid node_1 node_2 <> Some 0.
Proof.
  rewrite get_connecting_item_uid_cascade. repeat split.
  - apply first_connection_some.
  - apply first_connection_some.
  - apply first_connection_none.
  - apply first_connection_none.
  - intros H. apply first_connection_some in H as (_ & p & _ & _ & _ & Hp).
    now destruct Hp as (_ & _ & Hp).
Qed.

(** *** Connecting lanes through a road *)

Lemma range_consecutive (lo hi : Z) : consecutive (Py.range lo hi) lo hi.
Proof.
  split.
  - rewrite PyFacts.range_length. lia.
  - intros i Hi. rewrite PyFacts.range_length in Hi. now apply PyFacts.range_nth.
Qed.

(** C6.  For a road: without its lane look the query returns the empty
    list; when node_1 is the start node it returns the contiguous right-side
    range [left, left + right); otherwise the left-side range [0, left) when
    left > 0 and the range [0, right) when there is no left lane.  A road
    with 2 left and 3 right lanes taken forward gives [2, 3, 4]. *)
Theorem road_connecting_lanes (Curve : Type) (curve_eqb : Curve -> Curve -> bool)
    (node_1 node_2 : Node.t) (road : Road.t) (map_data : MapData) :
  let result :=
    get_connecting_lanes_by_item curve_eqb node_1 node_2 (ItemRoad road) map_data in
  (Road.road_look road = None -> result = Py.Return []) /\
  (forall look, Road.road_look road = Some look ->
     let left := Z.of_nat (length (lanes_left look)) in
     let right := Z.of_nat (length (lanes_right look)) in
     exists lanes,
       result = Py.Return lanes /\
       (Road.start_node_uid road = Node.uid node_1 ->
        consecutive lanes left (left + right)) /\
       (Road.start_node_uid road <> Node.uid node_1 -> 0 < left ->
        consecutive lanes 0 left) /\
       (Road.start_node_uid road <> Node.uid node_1 -> left = 0 ->
        consecutive lanes 0 right) /\
       (Road.start_node_uid road = Node.uid node_1 -> left = 2 -> right = 3 ->
        lanes = [2; 3; 4])).
Proof.
  simpl. split.
  - intros ->. reflexivity.
  - intros look ->.
    destruct (Z.eqb_spec (Road.start_node_uid road) (Node.uid node_1)) as [Heq | Hne].
    + eexists. split; [reflexivity|].
      refine (conj _ (conj _ (conj _ _))); try (intros; contradiction).
      * intros _. apply range_consecutive.
      * intros _ H2 H3. rewrite H2, H3. reflexivity.
    + destruct (Z.ltb_spec 0 (Z.of_nat (length (lanes_left look)))) as [Hpos | Hzero];
        (eexists; split; [reflexivity|]);
        refine (conj _ (conj _ (conj _ _))); try (intros; contradiction);
        try (intros; lia); intros; apply range_consecutive.
Qed.

(** The example of C6 on a concrete road: uid 7, 2 left and 3 right lanes,
    start node 1, entered from node 1 and, for the way back, from node 2. *)
Example road_forward_2_3 :
  let n1 := Node.mk 1 0 0 (Some 7) None in
  let n2 := Node.mk 2 0 0 None (Some 7) in
  let road := Road.mk 7 (Some (mkRoadLook [tt; tt] [tt; tt; tt])) 1 in
  let md := mkMapData (fun _ => None) in
  get_connecting_lanes_by_item Z.eqb n1 n2 (ItemRoad road) md = Py.Return [2; 3; 4] /\
  get_connecting_lanes_by_item Z.eqb n2 n1 (ItemRoad road) md = Py.Return [0; 1] /\
  get_connecting_item_uid n1 n2 = Some 7.
Proof. repeat split. Qed.

(** *** Rotation of the boundary nodes *)

Lemma rotate_right_pos {T : Type} (arr : list T) (count : Z) :
  0 < count < Z.of_nat (length arr) ->
  rotate_right arr count =
  Py.Return (skipn (length arr - Z.to_nat count) arr
             ++ firstn (length arr - Z.to_nat count) arr).
Proof.
  intros H. unfold rotate_right.
  destruct (Z.leb_spec 0 count); [|lia].
  destruct (Z.ltb_spec count (Z.of_nat (length arr))); [|lia].
  destruct (Z.eqb_spec count 0); [lia|]. simpl.
  unfold Py.slice_from, Py.slice_to.
  rewrite PyFacts.clip_from_end by lia.
  replace (Z.to_nat (Z.of_nat (length arr) - count))
    with (length arr - Z.to_nat count)%nat by lia.
  reflexivity.
Qed.

(** A right rotation by [count] moves the element at index [i] to index
    [(i + count) mod length]. *)
Lemma rotate_right_nth {T : Type} (arr : list T) (count : Z) :
  0 <= count < Z.of_nat (length arr) ->
  exists rotated,
    rotate_right arr count = Py.Return rotated /\
    length rotated = length arr /\
    forall i, (i < length arr)%nat ->
      nth_error rotated (Z.to_nat ((Z.of_nat i + count) mod Z.of_nat (length arr)))
      = nth_error arr i.
Proof.
  intros H.
  destruct (Z.eq_dec count 0) as [-> | Hne].
  - exists arr. unfold rotate_right.
    destruct (Z.ltb_spec 0 (Z.of_nat (length arr))); [|lia]. simpl.
    repeat split. intros i Hi.
    rewrite Z.add_0_r, Z.mod_small by lia. now rewrite Nat2Z.id.
  - rewrite rotate_right_pos by lia. eexists. split; [reflexivity|].
    set (n := length arr) in *. set (k := Z.to_nat count).
    assert (0 < k < n)%nat as Hk by (unfold k; lia).
    split.
    + rewrite length_app, length_skipn, length_firstn. fold n. lia.
    + intros i Hi.
      destruct (Nat.lt_ge_cases i (n - k)) as [Hlo | Hhi].
      * rewrite Z.mod_small by lia.
        replace (Z.to_nat (Z.of_nat i + count)) with (k + i)%nat by (unfold k; lia).
        rewrite nth_error_app2 by (rewrite length_skipn; fold n; lia).
        rewrite length_skipn. fold n.
        replace (k + i - (n - (n - k)))%nat with i by lia.
        now rewrite nth_error_firstn, (proj2 (Nat.ltb_lt _ _) Hlo).
      * replace ((Z.of_nat i + count) mod Z.of_nat n)
          with (Z.of_nat i + count - Z.of_nat n).
        2:{ apply Z.mod_unique with (q := 1); lia. }
        replace (Z.to_nat (Z.of_nat i + count - Z.of_nat n))
          with (i - (n - k))%nat by (unfold k; lia).
        rewrite nth_error_app1 by (rewrite length_skipn; fold n; lia).
        rewrite nth_error_skipn. f_equal. lia.
Qed.

(** C4, as the code has it.  For 0 <= origin < length, the right rotation by
    the origin index moves every boundary node origin places towards the
    end, cyclically: the node at index i lands at index (i + origin) mod
    length.  So the first boundary node lands at the origin index, and the
    node that becomes first is the one at index (length - origin) mod
    length. *)
Theorem rotate_right_places_first_at_origin {T : Type} (arr : list T) (origin : Z) :
  0 <= origin < Z.of_nat (length arr) ->
  exists rotated,
    rotate_right arr origin = Py.Return rotated /\
    length rotated = length arr /\
    (forall i, (i < length arr)%nat ->
       nth_error rotated (Z.to_nat ((Z.of_nat i + origin) mod Z.of_nat (length arr)))
       = nth_error arr i) /\
    nth_error rotated (Z.to_nat origin) = hd_error arr /\
    hd_error rotated
    = nth_error arr (Z.to_nat ((Z.of_nat (length arr) - origin) mod Z.of_nat (length arr))).
Proof.
  intros H.
  destruct (rotate_right_nth arr origin H) as (rotated & Hrot & Hlen & Hnth).
  exists rotated. repeat split; trivial.
  - specialize (Hnth O ltac:(lia)). simpl in Hnth.
    rewrite Z.mod_small in Hnth by lia.
    rewrite Hnth. now destruct arr.
  - set (n := Z.of_nat (length arr)) in *.
    assert (0 <= (n - origin) mod n < n) as Hm by (apply Z.mod_pos_bound; lia).
    specialize (Hnth (Z.to_nat ((n - origin) mod n)) ltac:(lia)).
    rewrite <- Hnth. rewrite Z2Nat.id by lia.
    rewrite Zplus_mod_idemp_l.
    replace (n - origin + origin) with (1 * n) by lia.
    rewrite Z_mod_mult. now destruct rotated.
Qed.

(** The rotation of a prefab with boundary nodes 10, 20, 30 and origin
    index 1. *)
Lemma rotate_right_places_first_at_origin_witness :
  exists rotated,
    rotate_right [10; 20; 30] 1 = Py.Return rotated /\
    length rotated = 3%nat /\
    (forall i, (i < 3)%nat ->
       nth_error rotated (Z.to_nat ((Z.of_nat i + 1) mod 3)) = nth_error [10; 20; 30] i) /\
    nth_error rotated 1 = Some 10 /\
    hd_error rotated = Some 30.
Proof.
  apply (rotate_right_places_first_at_origin [10; 20; 30] 1). simpl. lia.
Defined.

(** C4 as stated fails: with boundary nodes 10, 20, 30 and origin index 1
    the rotated list starts with 30, the last node, and not with 20, the
    node recorded at the origin index. *)
Lemma origin_node_not_first :
  rotate_right [10; 20; 30] 1 = Py.Return [30; 10; 20] /\
  nth_error [10; 20; 30] 1 = Some 20 /\
  hd_error [30; 10; 20] = Some 30 /\
  hd_error [30; 10; 20] <> nth_error [10; 20; 30] 1.
Proof. repeat split. discriminate. Qed.

(** *** Connecting lanes through a prefab *)

Lemma enumerate_filter_head {A : Type} (p : A -> bool) (l : list A) (start i : nat) :
  hd_error (Py.enumerate_filter p start l) = Some (start + i)%nat <->
  (exists a, nth_error l i = Some a /\ p a = true) /\
  (forall j a, (j < i)%nat -> nth_error l j = Some a -> p a = false).
Proof.
  revert start i. induction l as [|y l IH]; intros start i; simpl.
  - split; [discriminate|]. intros [(a & Ha & _) _]. now destruct i.
  - destruct (p y) eqn:Py; simpl.
    + split.
      * intros [= H]. assert (i = O) as -> by lia. split.
        -- now exists y.
        -- intros j a Hj. lia.
      * intros [_ Hall]. destruct i as [|i]; [f_equal; lia|].
        specialize (Hall O y ltac:(lia) eq_refl). congruence.
    + destruct i as [|i].
      * split.
        -- intros H. exfalso.
           assert (forall s k, hd_error (Py.enumerate_filter p s l) = Some k -> (s <= k)%nat) as Hge.
           { clear. induction l as [|z l IHl]; intros s k; simpl; [discriminate|].
             destruct (p z); simpl.
             - intros [= <-]. lia.
             - intros H. apply IHl in H. lia. }
           apply Hge in H. lia.
        -- intros [(a & [= <-] & Ha) _]. congruence.
      * replace (start + S i)%nat with (S start + i)%nat by lia.
        rewrite IH. split.
        -- intros [Hex Hall]. split; [exact Hex|].
           intros [|j] a Hj; simpl; [intros [= <-]; exact Py|].
           apply Hall. lia.
        -- intros [Hex Hall]. split; [exact Hex|].
           intros j a Hj Ha. apply (Hall (S j) a); [lia | exact Ha].
Qed.

Lemma node_matches_position (rotated : list (option Node.t)) (node : Node.t) (i : nat) :
  hd_error (node_matches rotated node) = Some i <-> position_in rotated node i.
Proof.
  unfold node_matches, position_in.
  rewrite (enumerate_filter_head _ rotated O i). split.
  - intros [(a & Ha & Hp) Hall]. split.
    + destruct a as [n|]; [|discriminate]. exists n. split; trivial. now apply Z.eqb_eq.
    + intros j n Hj Hn Heq. specialize (Hall j (Some n) Hj Hn). simpl in Hall.
      apply Z.eqb_neq in Hall. contradiction.
  - intros [(n & Hn & Hu) Hall]. split.
    + exists (Some n). split; trivial. now apply Z.eqb_eq.
    + intros j [n'|] Hj Hn'; trivial. apply Z.eqb_neq. now apply (Hall j n').
Qed.

Section RouteFacts.

Variable Curve : Type.
Variable curve_eqb : Curve -> Curve -> bool.
Variable description : PrefabDescription Curve.
Variables start_node end_node : PrefabNode.

Local Abbreviation curve_in := (curve_in Curve curve_eqb description).
Local Abbreviation chain_connects :=
  (chain_connects Curve curve_eqb description start_node end_node).
Local Abbreviation scan := (scan_curves curve_eqb description start_node end_node).
Local Abbreviation accepted := (accepted_routes curve_eqb description start_node end_node).

Lemma curve_in_tail (lane_set : list Z) (curve : Curve) (rest : list Curve) (pos : nat) :
  curve_in lane_set (curve :: rest) (S pos) <-> curve_in lane_set rest pos.
Proof. reflexivity. Qed.

Lemma curve_in_head (lane_set : list Z) (curve : Curve) (rest : list Curve) :
  curve_in lane_set (curve :: rest) O <->
  exists index,
    Py.index curve_eqb curve (nav_curves description) = Some index /\
    Py.contains (Z.of_nat index) lane_set = true.
Proof.
  split.
  - intros (c & index & [= <-] & H). now exists index.
  - intros (index & H). now exists curve, index.
Qed.

(** The loop over a chain entered with [start_found = b]: [end_found] is
    set exactly when the start was already reached and an output lane
    follows, or the chain itself connects; and then [start_found] is set. *)
Lemma scan_curves_spec (chain : list Curve) (b : bool) :
  (snd (scan chain b) = true <->
   (b = true /\ exists j, curve_in (output_lanes end_node) chain j) \/
   chain_connects chain) /\
  (snd (scan chain b) = true -> fst (scan chain b) = true).
Proof.
  revert b. induction chain as [|curve rest IH]; intros b; simpl.
  - split; [|discriminate]. split; [discriminate|].
    intros [(_ & j & c & k & H & _) | (i & j & _ & (c & k & H & _) & _)];
      [now destruct j | now destruct i].
  - destruct (Py.index curve_eqb curve (nav_curves description)) as [index|] eqn:Hidx.
    + set (b' := if Py.contains (Z.of_nat index) (input_lanes start_node) then true else b).
      destruct (Py.contains (Z.of_nat index) (output_lanes end_node) && b') eqn:Hout; simpl.
      * apply andb_true_iff in Hout as [Hout Hb'].
        split; [|intros _; exact Hb'].
        split; [intros _ | reflexivity].
        assert (curve_in (output_lanes end_node) (curve :: rest) O) as H0
            by (apply curve_in_head; now exists index).
        destruct b.
        -- left. split; trivial. now exists O.
        -- right. exists O, O. repeat split; trivial.
           apply curve_in_head. exists index. split; trivial.
           unfold b' in Hb'. now destruct (Py.contains _ (input_lanes start_node)).
      * destruct (IH b') as [IHiff IHfst]. split; [|exact IHfst].
        rewrite IHiff. split.
        -- intros [(Hb' & j & Hj) | (i & j & Hij & Hi & Hj)].
           ++ destruct b.
              ** left. split; trivial. now exists (S j).
              ** right. exists O, (S j). repeat split; [lia | | exact Hj].
                 apply curve_in_head. exists index. split; trivial.
                 unfold b' in Hb'. now destruct (Py.contains _ (input_lanes start_node)).
           ++ right. exists (S i), (S j). repeat split; [lia | exact Hi | exact Hj].
        -- assert (forall j, curve_in (output_lanes end_node) (curve :: rest) j ->
                             b' = true ->
                             exists j', j = S j' /\ curve_in (output_lanes end_node) rest j')
             as Hshift.
           { intros [|j'] Hj Hb'.
             - apply curve_in_head in Hj as (k & Hk & Hc).
               rewrite Hidx in Hk. injection Hk as <-.
               rewrite Hc, Hb' in Hout. discriminate.
             - now exists j'. }
           intros [(-> & j & Hj) | (i & j & Hij & Hi & Hj)].
           ++ assert (b' = true) as Hb'
                 by (unfold b'; now destruct (Py.contains _ (input_lanes start_node))).
              destruct (Hshift j Hj Hb') as (j' & -> & Hj').
              left. split; trivial. now exists j'.
           ++ destruct i as [|i'].
              ** apply curve_in_head in Hi as (k & Hk & Hc).
                 rewrite Hidx in Hk. injection Hk as <-.
                 assert (b' = true) as Hb' by (unfold b'; now rewrite Hc).
                 destruct (Hshift j Hj Hb') as (j' & -> & Hj').
                 left. split; trivial. now exists j'.
              ** destruct j as [|j']; [lia|].
                 right. exists i', j'. repeat split; [lia | exact Hi | exact Hj].
    + destruct (IH b) as [IHiff IHfst]. split; [|exact IHfst].
      rewrite IHiff. split.
      * intros [(Hb & j & Hj) | (i & j & Hij & Hi & Hj)].
        -- left. split; trivial. now exists (S j).
        -- right. exists (S i), (S j). repeat split; [lia | exact Hi | exact Hj].
      * assert (forall lane_set, ~ curve_in lane_set (curve :: rest) O) as Hno.
        { intros lane_set H. apply curve_in_head in H as (k & Hk & _). congruence. }
        intros [(Hb & [|j] & Hj) | ([|i] & [|j] & Hij & Hi & Hj)];
          try (now apply Hno in Hj); try (now apply Hno in Hi).
        -- left. split; trivial. now exists j.
        -- right. exists i, j. repeat split; [lia | exact Hi | exact Hj].
Qed.

(** A route is accepted exactly when its chain connects. *)
Lemma route_accepted_iff (chain : list Curve) :
  (let '(start_found, end_found) := scan chain false in start_found && end_found) = true
  <-> chain_connects chain.
Proof.
  destruct (scan_curves_spec chain false) as [Hiff Hfst].
  destruct (scan chain false) as [sf ef] eqn:E. simpl in *.
  split.
  - intros H. apply andb_true_iff in H as [_ H].
    apply Hiff in H as [(Hb & _) | H]; [discriminate | exact H].
  - intros H. assert (ef = true) as -> by (apply Hiff; now right).
    now rewrite Hfst.
Qed.

Lemma accepted_routes_In (routes : list (NavRoute Curve)) (i0 : nat) (r : Z) :
  In r (accepted i0 routes) <->
  exists k route,
    r = Z.of_nat (i0 + k) /\ nth_error routes k = Some route /\
    chain_connects (curves route).
Proof.
  revert i0. induction routes as [|route rest IH]; intros i0; simpl.
  - split; [contradiction|]. intros (k & route & _ & H & _). now destruct k.
  - pose proof (route_accepted_iff (curves route)) as Hacc.
    destruct (scan (curves route) false) as [sf ef].
    assert (In r (accepted (S i0) rest) <->
            exists k route', r = Z.of_nat (i0 + S k) /\ nth_error rest k = Some route' /\
                             chain_connects (curves route')) as IH'.
    { rewrite IH. split; intros (k & route' & Hr & H); exists k, route';
        (split; [rewrite Hr; f_equal; lia | exact H]). }
    destruct (sf && ef) eqn:E; simpl.
    + split.
      * intros [<- | H].
        -- exists O, route. repeat split; [f_equal; lia | now apply Hacc].
        -- apply IH' in H as (k & route' & Hr & H). now exists (S k), route'.
      * intros ([|k] & route' & Hr & Hn & Hc).
        -- left. rewrite Hr. f_equal. lia.
        -- right. apply IH'. now exists k, route'.
    + rewrite IH'. split.
      * intros (k & route' & Hr & H). now exists (S k), route'.
      * intros ([|k] & route' & Hr & Hn & Hc).
        -- simpl in Hn. injection Hn as <-. apply Hacc in Hc. discriminate.
        -- now exists k, route'.
Qed.

Lemma accepted_routes_sorted (routes : list (NavRoute Curve)) (i0 : nat) :
  StronglySorted Z.lt (accepted i0 routes).
Proof.
  revert i0. induction routes as [|route rest IH]; intros i0; simpl.
  - constructor.
  - destruct (scan (curves route) false) as [sf ef].
    destruct (sf && ef); [|apply IH].
    constructor; [apply IH|].
    apply Forall_forall. intros r Hr.
    apply accepted_routes_In in Hr as (k & _ & -> & _). lia.
Qed.

End RouteFacts.

(** C5.  For a prefab with a resolved description, whose rotation succeeds
    and in whose rotated boundary order node_1 and node_2 have distinct
    positions that the description has descriptors for, the query returns
    exactly the indices, in ascending order, of the navigation routes whose
    curve chain reaches a curve indexed in the start descriptor's input
    lanes and, at or after that position, a curve indexed in the end
    descriptor's output lanes.  Every other route is left out; the result
    may be empty. *)
Theorem prefab_connecting_lanes (Curve : Type) (curve_eqb : Curve -> Curve -> bool)
    (node_1 node_2 : Node.t) (prefab : Prefab Curve) (map_data : MapData)
    (description : PrefabDescription Curve) (rotated : list (option Node.t))
    (i1 i2 : nat) (start_node end_node : PrefabNode) :
  prefab_description prefab = Some description ->
  rotate_right (map (get_node_by_uid map_data) (node_uids prefab))
    (origin_node_index prefab) = Py.Return rotated ->
  position_in rotated node_1 i1 ->
  position_in rotated node_2 i2 ->
  i1 <> i2 ->
  nth_error (nodes description) i1 = Some start_node ->
  nth_error (nodes description) i2 = Some end_node ->
  exists lanes,
    get_connecting_lanes_by_item curve_eqb node_1 node_2 (ItemPrefab prefab) map_data
    = Py.Return lanes /\
    StronglySorted Z.lt lanes /\
    forall r,
      In r lanes <->
      exists k route,
        r = Z.of_nat k /\
        nth_error (nav_routes description) k = Some route /\
        chain_connects Curve curve_eqb description start_node end_node (curves route).
Proof.
  intros Hdesc Hrot H1 H2 Hne Hs He.
  apply node_matches_position in H1, H2.
  unfold get_connecting_lanes_by_item. rewrite Hdesc, Hrot.
  destruct (node_matches rotated node_1) as [|j1 rest1]; [discriminate|].
  injection H1 as ->. rewrite Hs.
  destruct (node_matches rotated node_2) as [|j2 rest2]; [discriminate|].
  injection H2 as ->. rewrite He.
  destruct (Nat.eqb_spec i1 i2) as [Heq | _]; [contradiction|].
  exists (accepted_routes curve_eqb description start_node end_node O
            (nav_routes description)).
  split; [now destruct (nav_routes description)|].
  split; [apply accepted_routes_sorted|].
  intros r. rewrite accepted_routes_In. reflexivity.
Qed.

(** The junction above: entering at node 100 and leaving at
    node 200, routes 0 and 3 connect. *)
Lemma prefab_connecting_lanes_witness :
  exists lanes,
    get_connecting_lanes_by_item Z.eqb
      (junction_node 100) (junction_node 200)
      (ItemPrefab junction) junction_map
    = Py.Return lanes /\
    StronglySorted Z.lt lanes /\
    forall r,
      In r lanes <->
      exists k route,
        r = Z.of_nat k /\
        nth_error (nav_routes junction_description) k = Some route /\
        chain_connects Z Z.eqb junction_description
          (mkPrefabNode [0] [1]) (mkPrefabNode [1] [2]) (curves route).
Proof.
  apply (prefab_connecting_lanes Z Z.eqb
           (junction_node 100) (junction_node 200)
           junction junction_map
           junction_description
           [ Some (junction_node 300);
             Some (junction_node 100);
             Some (junction_node 200) ]
           1%nat 2%nat).
  - reflexivity.
  - reflexivity.
  - apply node_matches_position. reflexivity.
  - apply node_matches_position. reflexivity.
  - discriminate.
  - reflexivity.
  - reflexivity.
Defined.

Example junction_routes :
  get_connecting_lanes_by_item Z.eqb
    (junction_node 100) (junction_node 200)
    (ItemPrefab junction) junction_map
  = Py.Return [0; 3].
Proof. reflexivity. Qed.

End NodeHelpersFacts.

(** ** Path window locator *)

Module PathWindowFacts.

Import NodeHelpers PathWindowSpec.

(** Whatever the sort puts first, the closest node is a node of the path. *)
Lemma closest_node_In (DistanceBetweenPoints : float * float -> float * float -> float)
    (sorted_head : list float -> nat) (first : Node.t) (others : list Node.t)
    (position : float * float) :
  In (closest_node DistanceBetweenPoints sorted_head first others position) (first :: others).
Proof.
  unfold closest_node.
  set (p := sorted_head _).
  destruct (Nat.lt_ge_cases p (length (first :: others))) as [Hlt | Hge].
  - now apply nth_In.
  - rewrite nth_overflow by exact Hge. now left.
Qed.

Section StableSort.

Local Open Scope float_scope.

(** The stand-in for a stable ascending sort: scanning [keys] after
    [prefix] with the least key so far at [best_pos] ends on a position
    whose key none is strictly below, and, when the keys are numbers, that
    is strictly below every key before it. *)
Lemma least_from_spec (keys : list float) :
  forall (prefix : list float) (best : float) (best_pos : nat),
    (best_pos < length prefix)%nat ->
    nth best_pos prefix 0 = best ->
    (forall k, In k prefix -> (k <? best) = false) ->
    let p := Geometry.least_from best best_pos (length prefix) keys in
    let all := prefix ++ keys in
    (p < length all)%nat /\
    (forall k, In k all -> (k <? nth p all 0) = false) /\
    ((forall k, In k all -> Geometry.is_number k) ->
     (forall j, (j < best_pos)%nat -> (best <? nth j prefix 0) = true) ->
     forall j, (j < p)%nat -> (nth p all 0 <? nth j all 0) = true).
Proof.
  induction keys as [|k rest IH]; intros prefix best best_pos Hpos Hbest Hleast; simpl.
  - rewrite app_nil_r. repeat split; trivial.
    + rewrite Hbest. exact Hleast.
    + intros _ Hties j Hj. rewrite Hbest. now apply Hties.
  - assert (prefix ++ k :: rest = (prefix ++ [k]) ++ rest) as Happ
        by (rewrite <- app_assoc; reflexivity).
    rewrite Happ. rewrite <- (last_length prefix k).
    destruct (k <? best) eqn:E.
    + destruct (IH (prefix ++ [k]) k (length prefix)) as (Hp & Hl & Ht).
      * rewrite last_length. lia.
      * rewrite app_nth2, Nat.sub_diag by lia. reflexivity.
      * intros k' Hk'. apply in_app_or in Hk'. destruct Hk' as [Hk' | [<- | []]].
        -- destruct (k' <? k) eqn:E'; trivial.
           pose proof (FloatOrder.ltb_trans _ _ _ E' E) as Hbelow.
           rewrite (Hleast k' Hk') in Hbelow. discriminate.
        -- apply FloatOrder.ltb_irrefl.
      * split; [exact Hp|]. split; [exact Hl|].
        intros Hnum _. apply Ht; trivial.
        intros j Hj. rewrite app_nth1 by lia.
        assert (In (nth j prefix 0) prefix) as Hin by (apply nth_In; lia).
        destruct (FloatOrder.ltb_between_number k (nth j prefix 0) best) as [H | H]; trivial.
        -- apply Hnum. apply in_or_app. left. apply in_or_app. now left.
        -- rewrite (Hleast _ Hin) in H. discriminate.
    + destruct (IH (prefix ++ [k]) best best_pos) as (Hp & Hl & Ht).
      * rewrite last_length. lia.
      * rewrite app_nth1 by lia. exact Hbest.
      * intros k' Hk'. apply in_app_or in Hk'. destruct Hk' as [Hk' | [<- | []]]; auto.
      * split; [exact Hp|]. split; [exact Hl|].
        intros Hnum Hties. apply Ht; trivial.
        intros j Hj. rewrite app_nth1 by lia. now apply Hties.
Qed.

Lemma stable_sort_head_spec (k : float) (keys : list float) :
  let p := Geometry.stable_sort_head (k :: keys) in
  (p < length (k :: keys))%nat /\
  (forall k', In k' (k :: keys) -> (k' <? nth p (k :: keys) 0) = false) /\
  ((forall k', In k' (k :: keys) -> Geometry.is_number k') ->
   forall j, (j < p)%nat -> (nth p (k :: keys) 0 <? nth j (k :: keys) 0) = true).
Proof.
  destruct (least_from_spec keys [k] k 0) as (Hp & Hl & Ht).
  - simpl. lia.
  - reflexivity.
  - intros k' [<- | []]. apply FloatOrder.ltb_irrefl.
  - split; [exact Hp|]. split; [exact Hl|].
    intros Hnum. apply Ht; trivial. intros j Hj. lia.
Qed.

End StableSort.

Lemma nth_map_key {A : Type} (key : A -> float) (l : list A) (d : A) (p : nat) :
  (p < length l)%nat -> nth p (map key l) 0%float = key (nth p l d).
Proof.
  intros Hp. rewrite (nth_indep _ 0%float (key d)) by (rewrite length_map; exact Hp).
  apply map_nth.
Qed.

Lemma node_index_of_member (n : Node.t) (path : list Node.t) :
  In n path -> exists index, Py.index node_eqb n path = Some index /\ (index < length path)%nat.
Proof.
  induction path as [|m path IH]; simpl; [contradiction|].
  intros Hin. unfold node_eqb at 1.
  destruct (Z.eqb_spec (Node.uid m) (Node.uid n)) as [_ | Hne].
  - exists O. split; [reflexivity | lia].
  - destruct Hin as [-> | Hin]; [contradiction|].
    destruct (IH Hin) as (i & -> & Hi). exists (S i). split; [reflexivity | lia].
Qed.

Lemma index_map_find {A : Type} (f : A -> bool) (b : bool) (w : list A) :
  match Py.index Bool.eqb b (map f w) with
  | Some i => nth_error w i = find (fun n => Bool.eqb (f n) b) w /\
              find (fun n => Bool.eqb (f n) b) w <> None
  | None => find (fun n => Bool.eqb (f n) b) w = None
  end.
Proof.
  induction w as [|a w IH]; simpl; [reflexivity|].
  destruct (Bool.eqb (f a) b) eqn:E; simpl.
  - split; [reflexivity | discriminate].
  - destruct (Py.index Bool.eqb b (map f w)); simpl; exact IH.
Qed.

Lemma pick_by_index_find {A : Type} (front : A -> bool) (window : list A) :
  match Py.index Bool.eqb false (map front window),
        Py.index Bool.eqb true (map front window) with
  | Some i_last, Some i_next => (nth_error window i_last, nth_error window i_next)
  | _, _ => (None, None)
  end
  = match find (fun n => negb (front n)) window, find front window with
    | Some last, Some next => (Some last, Some next)
    | _, _ => (None, None)
    end.
Proof.
  pose proof (index_map_find front false window) as Hb.
  pose proof (index_map_find front true window) as Ha.
  rewrite (PyFacts.find_pointwise (fun n => Bool.eqb (front n) false) (fun n => negb (front n)))
    in Hb by (intros n; now destruct (front n)).
  rewrite (PyFacts.find_pointwise (fun n => Bool.eqb (front n) true) front)
    in Ha by (intros n; now destruct (front n)).
  destruct (Py.index Bool.eqb false (map front window)) as [i|].
  - destruct Hb as [Hb Hb'].
    destruct (Py.index Bool.eqb true (map front window)) as [j|].
    + destruct Ha as [Ha Ha']. rewrite Hb, Ha.
      destruct (find (fun n => negb (front n)) window); [|contradiction].
      destruct (find front window); [reflexivity | contradiction].
    + rewrite Ha. now destruct (find (fun n => negb (front n)) window).
  - now rewrite Hb.
Qed.

(** [last] is the first node of the window that is behind, [next] the first
    that is in front; without one of them the answer is (None, None). *)
Lemma last_and_next_find (IsInFront : float * float -> float -> float * float -> bool)
    (window : list Node.t) (rotation : float) (position : float * float) :
  last_and_next IsInFront window rotation position
  = first_behind_and_ahead
      (fun n => IsInFront (Node.x n, Node.y n) rotation position) window.
Proof.
  exact (pick_by_index_find
           (fun n => IsInFront (Node.x n, Node.y n) rotation position) window).
Qed.

Lemma window_slice_behind (path : list Node.t) (index : nat) :
  let '(lo, hi) := window_bounds (Z.of_nat (length path)) (Z.of_nat index) false in
  Py.slice path lo hi = firstn 2 (skipn index path).
Proof.
  unfold window_bounds; simpl negb; cbv iota.
  rewrite PyFacts.slice_nonneg by lia. rewrite Nat2Z.id.
  destruct (Z.min_spec (Z.of_nat (length path)) (Z.of_nat index + 2)) as [[Hlt ->] | [Hge ->]].
  - rewrite Nat2Z.id.
    rewrite !firstn_all2; trivial; rewrite length_skipn; lia.
  - f_equal. lia.
Qed.

Lemma window_slice_ahead (path : list Node.t) (index : nat) :
  let '(lo, hi) := window_bounds (Z.of_nat (length path)) (Z.of_nat index) true in
  Py.slice path lo hi =
  if (index <=? 1)%nat then firstn (index + 2) path
  else firstn 2 (skipn (index - 1) path).
Proof.
  unfold window_bounds; simpl negb; cbv iota.
  destruct (Nat.leb_spec index 1) as [Hle | Hgt].
  - rewrite Z.max_l by lia. simpl Z.eqb. cbv iota.
    rewrite PyFacts.slice_nonneg by lia. simpl skipn. f_equal. lia.
  - rewrite Z.max_r by lia.
    destruct (Z.eqb_spec (Z.of_nat index - 1) 0) as [H0 | _]; [lia|].
    rewrite PyFacts.slice_nonneg by lia.
    replace (Z.to_nat (Z.of_nat index - 1)) with (index - 1)%nat by lia.
    f_equal. lia.
Qed.


(** C8, as the code has it.  With [index] the position in a non-empty path
    of the closest node, whichever node the sort of the path by distance
    puts first, the window is [index, index+2) when the closest node is
    behind; [0, index+2) when it is in front and index is 0 or 1 (the lower
    bound max(0, index-1) is 0 in both cases); [index-1, index+1) when it
    is in front and index is at least 2; each clipped to the path.  The
    first node of the window that is behind is returned as last and the
    first that is in front as next, and (None, None) when either is
    missing, as on every 1-node path.  Where the sort puts first what a
    stable ascending sort does, no node is strictly nearer than the closest
    node, and when the distances are numbers every node before it in the
    path is strictly farther.  On a straight 5-node path, a truck halfway
    between two consecutive nodes and facing along the path gets exactly
    these two nodes. *)
Theorem surrounding_nav_nodes_window :
  (forall (DistanceBetweenPoints : float * float -> float * float -> float)
          (IsInFront : float * float -> float -> float * float -> bool)
          (sorted_head : list float -> nat)
          (first_node : RouteNode) (other_nodes : list RouteNode) (x z rotation : float),
      let path := map node (first_node :: other_nodes) in
      let closest :=
        closest_node DistanceBetweenPoints sorted_head
          (node first_node) (map node other_nodes) (x, z) in
      let front := fun n => IsInFront (Node.x n, Node.y n) rotation (x, z) in
      let distance := fun n => DistanceBetweenPoints (Node.x n, Node.y n) (x, z) in
      exists index,
        Py.index node_eqb closest path = Some index /\
        (index < length path)%nat /\
        In closest path /\
        (sorted_head (map distance path) = Geometry.stable_sort_head (map distance path) ->
         (forall n, In n path -> (distance n <? distance closest)%float = false) /\
         ((forall n, In n path -> Geometry.is_number (distance n)) ->
          forall earlier, (earlier < sorted_head (map distance path))%nat ->
            (distance closest <? distance (nth earlier path (node first_node)))%float
            = true)) /\
        get_surrounding_nav_nodes DistanceBetweenPoints IsInFront sorted_head
          (first_node :: other_nodes) x z rotation
        = Py.Return
            (first_behind_and_ahead front
               (if negb (front closest) then firstn 2 (skipn index path)
                else if (index <=? 1)%nat then firstn (index + 2) path
                else firstn 2 (skipn (index - 1) path)))) /\
  (forall (DistanceBetweenPoints : float * float -> float * float -> float)
          (IsInFront : float * float -> float -> float * float -> bool)
          (sorted_head : list float -> nat)
          (only_node : RouteNode) (x z rotation : float),
      get_surrounding_nav_nodes DistanceBetweenPoints IsInFront sorted_head
        [only_node] x z rotation
      = Py.Return (None, None)) /\
  get_surrounding_nav_nodes Geometry.euclidean_distance Geometry.in_front_along_axis
    Geometry.stable_sort_head straight_path 0 25 0
  = Py.Return (Some (straight_node 2 20), Some (straight_node 3 30)) /\
  get_surrounding_nav_nodes Geometry.euclidean_distance Geometry.in_front_along_axis
    Geometry.stable_sort_head straight_path 0 15 0
  = Py.Return (Some (straight_node 1 10), Some (straight_node 2 20)).
Proof.
  split; [|split; [|split; reflexivity]].
  - intros DBP IIF sorted_head first_node other_nodes x z rotation path closest front distance.
    destruct (node_index_of_member closest path) as (index & Hidx & Hlt).
    { apply closest_node_In. }
    exists index. split; [exact Hidx|]. split; [exact Hlt|].
    split; [apply closest_node_In|].
    split.
    { intros Hsort.
      destruct (stable_sort_head_spec (distance (node first_node))
                  (map distance (map node other_nodes))) as (Hp & Hleast & Hties).
      change (distance (node first_node) :: map distance (map node other_nodes))
        with (map distance path) in Hp, Hleast, Hties.
      cbv zeta in Hp, Hleast, Hties. rewrite <- Hsort in Hp, Hleast, Hties.
      rewrite length_map in Hp.
      assert (nth (sorted_head (map distance path)) (map distance path) 0%float
              = distance closest) as Hkey.
      { rewrite (nth_map_key distance path (node first_node)) by exact Hp. reflexivity. }
      rewrite Hkey in Hleast, Hties. split.
      - intros n Hn. apply Hleast. now apply in_map.
      - intros Hnum earlier Hearlier.
        rewrite <- (nth_map_key distance path (node first_node)) by lia.
        apply Hties; trivial.
        intros k Hk. apply in_map_iff in Hk. destruct Hk as (n & <- & Hn). now apply Hnum. }
    unfold get_surrounding_nav_nodes.
    change (map node (first_node :: other_nodes)) with path.
    change path with (node first_node :: map node other_nodes) at 1.
    cbv iota beta zeta.
    fold closest. rewrite Hidx.
    change (IIF (Node.x closest, Node.y closest) rotation (x, z)) with (front closest).
    destruct (front closest); simpl negb; cbv iota.
    + pose proof (window_slice_ahead path index) as Hw.
      destruct (window_bounds (Z.of_nat (length path)) (Z.of_nat index) true) as [lo hi].
      rewrite Hw. f_equal. apply last_and_next_find.
    + pose proof (window_slice_behind path index) as Hw.
      destruct (window_bounds (Z.of_nat (length path)) (Z.of_nat index) false) as [lo hi].
      rewrite Hw. f_equal. apply last_and_next_find.
  - intros DBP IIF sorted_head only_node x z rotation.
    unfold get_surrounding_nav_nodes, closest_node.
    assert (forall p, nth p [node only_node] (node only_node) = node only_node) as Hone
        by (intros [|[|p]]; reflexivity).
    cbv zeta. simpl map. cbv iota beta. rewrite !Hone. simpl.
    unfold node_eqb. rewrite Z.eqb_refl.
    unfold last_and_next.
    destruct (IIF (Node.x (node only_node), Node.y (node only_node)) rotation (x, z)) eqn:E;
      simpl; rewrite E; reflexivity.
Qed.

(** C8 as stated fails at index 1.  On a 3-node path whose closest node is
    the second one and lies in front, the window is [0, 3) and not [0, 2):
    the third node, behind the truck, is inside it and is returned as last,
    where the window [0, 2) would hold two nodes in front and give
    (None, None). *)
Lemma window_at_index_one_has_three_nodes :
  closest_node Geometry.euclidean_distance Geometry.stable_sort_head
    (Node.mk 0 3 4 None None)
    [Node.mk 1 0 3 None None; Node.mk 2 0 (-4) None None] (0, 0)%float
  = Node.mk 1 0 3 None None /\
  Py.index node_eqb (Node.mk 1 0 3 None None) (map node hairpin_path) = Some 1%nat /\
  Geometry.in_front_along_axis (0, 3)%float 0 (0, 0)%float = true /\
  window_bounds 3 1 true = (0, 3) /\
  claimed_window 1 true = (0, 2) /\
  get_surrounding_nav_nodes Geometry.euclidean_distance Geometry.in_front_along_axis
    Geometry.stable_sort_head hairpin_path 0 0 0
  = Py.Return (Some (Node.mk 2 0 (-4) None None), Some (Node.mk 0 3 4 None None)) /\
  last_and_next Geometry.in_front_along_axis
    (Py.slice (map node hairpin_path) 0 2) 0 (0, 0)%float
  = (None, None).
Proof. repeat split. Qed.

End PathWindowFacts.

(** ** Scalar smoother *)

Module NumbersFacts.

Import Numbers.

Local Open Scope float_scope.

(** Appending to a bounded deque of capacity [m > 0]: below capacity the
    sample is added at the end; at capacity the oldest sample is dropped
    and the length stays [m]. *)
Lemma append_bounded {A : Type} (d : deque A) (v : A) (m : nat) :
  maxlen d = Some m -> (0 < m)%nat ->
  ((length (items d) < m)%nat -> items (append d v) = items d ++ [v]) /\
  (length (items d) = m ->
   items (append d v) = tl (items d) ++ [v] /\ length (items (append d v)) = m).
Proof.
  intros Hm Hpos. unfold append. rewrite Hm.
  destruct m as [|m]; [lia|]. split.
  - intros Hlt. apply Nat.ltb_lt in Hlt. now rewrite Hlt.
  - intros Hlen.
    destruct (Nat.ltb_spec (length (items d)) (S m)) as [Hlt | _]; [lia|]. simpl.
    split; [reflexivity|].
    rewrite length_app. destruct (items d); simpl in *; lia.
Qed.

(** C10.  A smoother in "frames" mode with capacity 3 that is pushed 1, 2,
    3, 4 in this order holds the samples 2, 3, 4 and reports the average
    (2 + 3 + 4) / 3 = 3; each push beyond the capacity drops the oldest
    stored sample and nothing else. *)
Theorem frames_smoother_drops_oldest :
  (forall (now : float) (r0 : Py.result float),
      exists s0 s4,
        init frames 3 now = Py.Return s0 /\
        smooth_all s0 [1; 2; 3; 4] now r0 = (s4, Py.Return ((2 + 3 + 4) / 3)) /\
        valueArray s4 = FrameValues (mkDeque [2; 3; 4] (Some 3%nat)) /\
        snd (get s4) = Py.Return 3) /\
  (forall (A : Type) (d : deque A) (v : A),
      maxlen d = Some 3%nat ->
      ((length (items d) < 3)%nat -> items (append d v) = items d ++ [v]) /\
      (length (items d) = 3%nat ->
       items (append d v) = tl (items d) ++ [v] /\
       length (items (append d v)) = 3%nat)).
Proof.
  split.
  - intros now r0. eexists. eexists. repeat split.
  - intros A d v Hm. apply append_bounded; [exact Hm | lia].
Qed.

(** The pushes of C10 one by one. *)
Example frames_pushes :
  let d0 := deque_of [0] (Some 3%nat) in
  items d0 = [0] /\
  items (append d0 1) = [0; 1] /\
  items (append (append d0 1) 2) = [0; 1; 2] /\
  items (append (append (append d0 1) 2) 3) = [1; 2; 3] /\
  items (append (append (append (append d0 1) 2) 3) 4) = [2; 3; 4] /\
  average [2; 3; 4] = Py.Return 3.
Proof. repeat split. Qed.

End NumbersFacts.

(** ** Lane-safety evaluator *)

Module LaneSafetyFacts.

Import LaneSafety LaneSafetySpec.

Local Open Scope float_scope.

Section WithLibrary.

Variable power2 : float -> option float.
Variable IsInFront : point -> float -> point -> bool.

Local Abbreviation check_lane_safety := (check_lane_safety power2 IsInFront).
Local Abbreviation blocking_vehicles := (blocking_vehicles power2 IsInFront).
Local Abbreviation is_vehicle_in_lane := (is_vehicle_in_lane power2 IsInFront).
Local Abbreviation dist_to := (dist_to power2).
Local Abbreviation at_distance := (at_distance power2).
Local Abbreviation is_ahead := (is_ahead power2 IsInFront).
Local Abbreviation is_behind := (is_behind power2 IsInFront).
Local Abbreviation is_beside := (is_beside power2).
Local Abbreviation blocks := (blocks power2 IsInFront).
Local Abbreviation distances_computed := (distances_computed power2 IsInFront).

(** A vehicle that is found in the lane has a distance to the truck: the
    lane test computed it. *)
Lemma in_lane_dist (v : Vehicle) (lane_points : list Position) (truck_pos : point)
    (truck_rotation : float) :
  is_vehicle_in_lane v lane_points truck_pos truck_rotation = Py.Return true ->
  exists dist, dist_to (ground v) truck_pos = Py.Return dist.
Proof.
  unfold LaneSafety.is_vehicle_in_lane, ground.
  destruct (length lane_points <? 2)%nat; [discriminate|].
  destruct (LaneSafety.dist_to power2 _ truck_pos) as [dist | e]; [eauto | discriminate].
Qed.

Lemma in_lane_has_points (v : Vehicle) (lane_points : list Position)
    (truck_pos : point) (truck_rotation : float) :
  is_vehicle_in_lane v lane_points truck_pos truck_rotation = Py.Return true ->
  lane_points <> [].
Proof. intros H ->. discriminate. Qed.

(** The three-way test of the loop against the three classes. *)
Lemma classify_classes (v : Vehicle) (truck_pos : point) (truck_rotation : float)
    (dist : float) :
  at_distance v truck_pos dist ->
  (exists tag, classify (IsInFront (ground v) truck_rotation truck_pos) dist = Some tag) <->
  is_ahead v truck_pos truck_rotation \/
  is_behind v truck_pos truck_rotation \/
  is_beside v truck_pos.
Proof.
  unfold LaneSafetySpec.is_ahead, LaneSafetySpec.is_behind, LaneSafetySpec.is_beside,
    LaneSafetySpec.at_distance, classify,
    SAFETY_DISTANCE_AHEAD, SAFETY_DISTANCE_BEHIND, SAFETY_DISTANCE_BESIDE.
  intros Hd.
  assert (forall dist', LaneSafety.dist_to power2 (ground v) truck_pos = Py.Return dist' ->
                        dist' = dist) as Hsame by (intros dist' H; congruence).
  destruct (IsInFront (ground v) truck_rotation truck_pos); simpl;
    destruct (dist <? 30) eqn:Ea; destruct (dist <? 15) eqn:Eb;
    destruct (dist <? 8) eqn:Ec;
    (split;
     [ intros [tag Htag]; try discriminate; eauto 7
     | intros [[H1 (dist' & H2 & H3)] | [[H1 (dist' & H2 & H3)] | (dist' & H2 & H3)]];
       try discriminate; try (rewrite (Hsame dist' H2) in H3; congruence); eauto ]).
Qed.

(** A distance that gets a tag is below 30, 15 or 8: it is a number. *)
Lemma classified_bounded (is_in_front : bool) (dist : float) (tag : side) :
  classify is_in_front dist = Some tag -> exists bound, (dist <? bound) = true.
Proof.
  unfold classify.
  destruct is_in_front; simpl;
    destruct (dist <? SAFETY_DISTANCE_AHEAD) eqn:Ea;
    destruct (dist <? SAFETY_DISTANCE_BEHIND) eqn:Eb;
    destruct (dist <? SAFETY_DISTANCE_BESIDE) eqn:Ec;
    intros H; try discriminate; eauto.
Qed.

Lemma blocking_vehicles_cons (w : Vehicle) (rest : list Vehicle)
    (lane_points : list Position) (truck_pos : point) (truck_rotation : float) :
  blocking_vehicles (w :: rest) lane_points truck_pos truck_rotation
  = if is_zero (position w)
    then blocking_vehicles rest lane_points truck_pos truck_rotation
    else
      in_lane <- is_vehicle_in_lane w lane_points truck_pos truck_rotation ;;
      if in_lane then
        dist <- dist_to (ground w) truck_pos ;;
        match classify (IsInFront (ground w) truck_rotation truck_pos) dist with
        | Some tag =>
            tail <- blocking_vehicles rest lane_points truck_pos truck_rotation ;;
            Py.Return ((w, dist, tag) :: tail)
        | None => blocking_vehicles rest lane_points truck_pos truck_rotation
        end
      else blocking_vehicles rest lane_points truck_pos truck_rotation.
Proof. reflexivity. Qed.

(** One step of the loop, by what it does with the first vehicle. *)
Lemma blocking_vehicles_step (w : Vehicle) (rest : list Vehicle)
    (lane_points : list Position) (truck_pos : point) (truck_rotation : float) :
  let loop := fun vs => blocking_vehicles vs lane_points truck_pos truck_rotation in
  (loop (w :: rest) = loop rest /\
   (is_zero (position w) = true \/
    is_vehicle_in_lane w lane_points truck_pos truck_rotation = Py.Return false \/
    exists dist,
      is_vehicle_in_lane w lane_points truck_pos truck_rotation = Py.Return true /\
      dist_to (ground w) truck_pos = Py.Return dist /\
      classify (IsInFront (ground w) truck_rotation truck_pos) dist = None)) \/
  (exists e,
      loop (w :: rest) = Py.Raise e /\ is_zero (position w) = false /\
      is_vehicle_in_lane w lane_points truck_pos truck_rotation = Py.Raise e) \/
  (exists dist tag,
      is_zero (position w) = false /\
      is_vehicle_in_lane w lane_points truck_pos truck_rotation = Py.Return true /\
      dist_to (ground w) truck_pos = Py.Return dist /\
      classify (IsInFront (ground w) truck_rotation truck_pos) dist = Some tag /\
      loop (w :: rest) = (tail <- loop rest ;; Py.Return ((w, dist, tag) :: tail))).
Proof.
  intros loop. unfold loop. rewrite blocking_vehicles_cons.
  destruct (is_zero (position w)) eqn:Ez; [left; auto|].
  destruct (is_vehicle_in_lane w lane_points truck_pos truck_rotation) as [[|]|e] eqn:El;
    simpl Py.bind.
  - destruct (in_lane_dist w lane_points truck_pos truck_rotation El) as (dist & Hd).
    rewrite Hd. simpl Py.bind.
    destruct (classify (IsInFront (ground w) truck_rotation truck_pos) dist) as [tag|] eqn:Ec.
    + right. right. exists dist, tag. auto.
    + left. split; [reflexivity|]. right. right. exists dist. auto.
  - left. auto.
  - right. left. exists e. auto.
Qed.

Lemma blocking_vehicles_In (vehicles : list Vehicle) (lane_points : list Position)
    (truck_pos : point) (truck_rotation : float) (blocking : list (Vehicle * float * side))
    (v : Vehicle) (dist : float) (tag : side) :
  blocking_vehicles vehicles lane_points truck_pos truck_rotation = Py.Return blocking ->
  In (v, dist, tag) blocking <->
  In v vehicles /\
  is_zero (position v) = false /\
  is_vehicle_in_lane v lane_points truck_pos truck_rotation = Py.Return true /\
  dist_to (ground v) truck_pos = Py.Return dist /\
  classify (IsInFront (ground v) truck_rotation truck_pos) dist = Some tag.
Proof.
  revert blocking. induction vehicles as [|w rest IH]; intros blocking Hloop.
  - injection Hloop as <-. simpl. tauto.
  - destruct (blocking_vehicles_step w rest lane_points truck_pos truck_rotation)
      as [[Hskip Hwhy] | [(e & Hraise & _) | (d & t & Hz & Hl & Hd & Hc & Hstep)]];
      cbv zeta in *.
    + rewrite Hskip in Hloop. rewrite (IH blocking Hloop). simpl. split; [tauto|].
      intros ([<- | Hin] & Hz & Hl & Hd & Hc); [|tauto].
      destruct Hwhy as [Hz' | [Hl' | (d' & _ & Hd' & Hc')]]; congruence.
    + congruence.
    + rewrite Hstep in Hloop.
      destruct (blocking_vehicles rest lane_points truck_pos truck_rotation)
        as [tail|e]; [|discriminate].
      injection Hloop as <-. simpl. rewrite (IH tail eq_refl). split.
      * intros [[= <- <- <-] | H]; tauto.
      * intros ([<- | Hin] & Hz' & Hl' & Hd' & Hc'); [|tauto].
        left. congruence.
Qed.

(** When the loop returns, a vehicle is in [blocking_vehicles] exactly when
    it blocks. *)
Lemma blocking_vehicles_blocks (vehicles : list Vehicle) (lane_points : list Position)
    (truck_pos : point) (truck_rotation : float) (blocking : list (Vehicle * float * side))
    (v : Vehicle) :
  blocking_vehicles vehicles lane_points truck_pos truck_rotation = Py.Return blocking ->
  (exists dist tag, In (v, dist, tag) blocking) <->
  In v vehicles /\ blocks lane_points truck_pos truck_rotation v.
Proof.
  intros Hloop. unfold LaneSafetySpec.blocks. split.
  - intros (dist & tag & H).
    apply (blocking_vehicles_In _ _ _ _ _ _ _ _ Hloop) in H as (Hin & Hz & Hl & Hd & Hc).
    repeat split; trivial.
    apply (classify_classes v truck_pos truck_rotation dist Hd). eauto.
  - intros (Hin & Hz & Hl & Hclass).
    destruct (in_lane_dist v lane_points truck_pos truck_rotation Hl) as (dist & Hd).
    destruct (proj2 (classify_classes v truck_pos truck_rotation dist Hd) Hclass)
      as (tag & Hc).
    exists dist, tag. apply (blocking_vehicles_In _ _ _ _ _ _ _ _ Hloop). tauto.
Qed.

(** The loop returns exactly when the lane test of every vehicle with a
    non-zero position returns. *)
Lemma blocking_vehicles_returns (vehicles : list Vehicle) (lane_points : list Position)
    (truck_pos : point) (truck_rotation : float) :
  distances_computed vehicles lane_points truck_pos truck_rotation <->
  exists blocking,
    blocking_vehicles vehicles lane_points truck_pos truck_rotation = Py.Return blocking.
Proof.
  unfold LaneSafetySpec.distances_computed.
  induction vehicles as [|w rest IH].
  - split; [intros _; now exists [] | intros _ v []].
  - destruct (blocking_vehicles_step w rest lane_points truck_pos truck_rotation)
      as [[Hskip Hwhy] | [(e & Hraise & Hz & Hl) | (d & t & Hz & Hl & Hd & Hc & Hstep)]];
      cbv zeta in *.
    + rewrite Hskip, <- IH. split.
      * intros H v Hin. apply H. now right.
      * intros H v [<- | Hin] Hz; [|now apply H].
        destruct Hwhy as [Hz' | [Hl' | (d' & Hl' & _)]]; [congruence | eauto | eauto].
    + rewrite Hraise. split.
      * intros H. destruct (H w (or_introl eq_refl) Hz) as (b & Hb). congruence.
      * intros (blocking & H). discriminate.
    + rewrite Hstep. split.
      * intros H.
        destruct (proj1 IH (fun v Hin => H v (or_intror Hin))) as (tail & ->).
        simpl. eauto.
      * intros (blocking & H) v [<- | Hin] Hz'; [eauto|].
        destruct (blocking_vehicles rest lane_points truck_pos truck_rotation)
          as [tail|e] eqn:Hrest; [|discriminate].
        apply (proj2 IH); eauto.
Qed.

(** What the loop raises was raised by the lane test of a vehicle with a
    non-zero position. *)
Lemma blocking_vehicles_raises (vehicles : list Vehicle) (lane_points : list Position)
    (truck_pos : point) (truck_rotation : float) (e : Py.exn) :
  blocking_vehicles vehicles lane_points truck_pos truck_rotation = Py.Raise e ->
  exists v,
    In v vehicles /\ is_zero (position v) = false /\
    is_vehicle_in_lane v lane_points truck_pos truck_rotation = Py.Raise e.
Proof.
  induction vehicles as [|w rest IH]; [discriminate|].
  destruct (blocking_vehicles_step w rest lane_points truck_pos truck_rotation)
    as [[Hskip _] | [(e' & Hraise & Hz & Hl) | (d & t & _ & _ & _ & _ & Hstep)]];
    cbv zeta in *.
  - rewrite Hskip. intros H. destruct (IH H) as (v & Hin & Hv). exists v. simpl. auto.
  - rewrite Hraise. intros [= <-]. exists w. simpl. auto.
  - rewrite Hstep.
    destruct (blocking_vehicles rest lane_points truck_pos truck_rotation)
      as [tail|e'] eqn:Hrest; [discriminate|].
    simpl. intros [= <-]. destruct (IH eq_refl) as (v & Hin & Hv). exists v. simpl. auto.
Qed.

(** [min(v[1] for v in blocking_vehicles)] is the closest blocking
    distance. *)
Lemma min_of_blocking (vehicles : list Vehicle) (lane_points : list Position)
    (truck_pos : point) (truck_rotation : float) (blocking : list (Vehicle * float * side))
    (v : Vehicle) :
  blocking_vehicles vehicles lane_points truck_pos truck_rotation = Py.Return blocking ->
  In v vehicles -> blocks lane_points truck_pos truck_rotation v ->
  exists first others closest,
    blocking = first :: others /\
    Py.min_of (map (fun b => snd (fst b)) blocking) = Some closest /\
    closest_blocking_distance power2 IsInFront vehicles lane_points truck_pos truck_rotation
      closest.
Proof.
  intros Hloop Hin Hblocks.
  assert (forall w d tag, In (w, d, tag) blocking ->
            In w vehicles /\ blocks lane_points truck_pos truck_rotation w /\
            at_distance w truck_pos d /\ exists bound, (d <? bound) = true) as Hsound.
  { intros w d tag H. split; [|split; [|split]].
    - apply (blocking_vehicles_blocks _ _ _ _ _ w Hloop). eauto.
    - apply (blocking_vehicles_blocks _ _ _ _ _ w Hloop). eauto.
    - apply (blocking_vehicles_In _ _ _ _ _ _ _ _ Hloop) in H. apply H.
    - apply (blocking_vehicles_In _ _ _ _ _ _ _ _ Hloop) in H as (_ & _ & _ & _ & Hc).
      now apply classified_bounded in Hc. }
  assert (forall w d, In w vehicles -> blocks lane_points truck_pos truck_rotation w ->
            at_distance w truck_pos d -> In d (map (fun b => snd (fst b)) blocking))
    as Hcomplete.
  { intros w d Hw Hb Hd.
    destruct (proj2 (blocking_vehicles_blocks _ _ _ _ _ w Hloop) (conj Hw Hb))
      as (d' & tag & H).
    pose proof H as H'.
    apply (blocking_vehicles_In _ _ _ _ _ _ _ _ Hloop) in H' as (_ & _ & _ & Hd' & _).
    unfold LaneSafetySpec.at_distance in Hd. rewrite Hd in Hd'. injection Hd' as <-.
    change d with ((fun b : Vehicle * float * side => snd (fst b)) (w, d, tag)).
    now apply in_map. }
  destruct (in_lane_dist v lane_points truck_pos truck_rotation (proj1 (proj2 Hblocks)))
    as (dv & Hdv).
  pose proof (Hcomplete v dv Hin Hblocks Hdv) as Hne.
  destruct blocking as [|first others]; [contradiction|].
  exists first, others. simpl map. simpl Py.min_of.
  set (a := snd (fst first)) in *.
  set (l := map (fun b => snd (fst b)) others) in *.
  destruct (FloatOrder.fold_min_least l a) as [Hmem Hleast].
  { intros d Hd. change (a :: l) with (map (fun b => snd (fst b)) (first :: others)) in Hd.
    apply in_map_iff in Hd as ([[w d'] tag] & <- & Hw). simpl.
    apply (Hsound w d' tag Hw). }
  eexists. split; [reflexivity|]. split; [reflexivity|]. split.
  - change (a :: l) with (map (fun b => snd (fst b)) (first :: others)) in Hmem.
    apply in_map_iff in Hmem as ([[w d'] tag] & Hd & Hw). simpl in Hd.
    destruct (Hsound w d' tag Hw) as (Hwin & Hwb & Hwd & _).
    exists w. rewrite <- Hd. auto.
  - intros w d Hw Hb Hd. apply Hleast. simpl in Hcomplete. now apply (Hcomplete w).
Qed.

(** The call once the early returns are passed: the target differs, traffic
    is there, and the target lane has points. *)
Lemma check_lane_safety_scan (st : State) (d : Data) (vehicles : list Vehicle)
    (target current : Z) (road : Road) (road_lanes : list Lane) (target_lane : Lane)
    (lane_points : list Position) :
  target <> current ->
  vehicles <> [] ->
  lanes road = Some road_lanes ->
  Py.getitem road_lanes target = Some target_lane ->
  points target_lane = Some lane_points ->
  lane_points <> [] ->
  check_lane_safety st d vehicles target current road =
  match blocking_vehicles vehicles lane_points (truck_x d, truck_z d) (truck_rotation d) with
  | Py.Raise e => (Py.Raise e, st)
  | Py.Return [] => (Py.Return (true, 1), cleared st)
  | Py.Return (b :: bs) =>
      match Py.min_of (map (fun v => snd (fst v)) (b :: bs)) with
      | None => (Py.Raise Py.ValueError, pending target)
      | Some closest_dist => (Py.Return (false, speed_factor closest_dist), pending target)
      end
  end.
Proof.
  intros Hne Hv Hl Hg Hp Hpts. unfold LaneSafety.check_lane_safety.
  destruct (Z.eqb_spec target current) as [|_]; [contradiction|].
  destruct vehicles as [|v0 rest]; [contradiction|].
  rewrite Hl.
  destruct (Z.leb_spec (Z.of_nat (length road_lanes)) target) as [Hge | _].
  { exfalso. unfold Py.getitem in Hg.
    destruct (Z.leb_spec 0 target); [|lia].
    assert (Z.to_nat target < length road_lanes)%nat
      by (apply nth_error_Some; congruence).
    lia. }
  rewrite Hg, Hp.
  destruct lane_points as [|p0 lane_points']; [contradiction|].
  destruct (LaneSafety.blocking_vehicles power2 IsInFront (v0 :: rest) (p0 :: lane_points')
              (truck_x d, truck_z d) (truck_rotation d)) as [[|b bs]|e]; reflexivity.
Qed.

(** C1, as the code has it.  Whenever the target lane differs from the
    current lane, no distance computation of the loop over the vehicles
    raises, and at least one vehicle with a non-zero position lies in the
    target lane and is ahead (distance < 30 m and in front), behind
    (distance < 15 m and not in front) or beside (distance < 8 m), the
    evaluator moves to the pending-change state for the target lane and
    returns safe=false with the factor clamp(closest / 30, 0.3, 1.0), where
    closest is the least distance of a blocking vehicle.  The distances are
    the ones the code computes, whatever the C library's [pow] returns for
    the squares. *)
Theorem blocked_lane_change (st : State) (d : Data) (vehicles : list Vehicle)
    (target current : Z) (road : Road) (road_lanes : list Lane) (target_lane : Lane)
    (lane_points : list Position) (v : Vehicle) :
  target <> current ->
  lanes road = Some road_lanes ->
  Py.getitem road_lanes target = Some target_lane ->
  points target_lane = Some lane_points ->
  distances_computed vehicles lane_points (truck_x d, truck_z d) (truck_rotation d) ->
  In v vehicles ->
  blocks lane_points (truck_x d, truck_z d) (truck_rotation d) v ->
  exists closest,
    closest_blocking_distance power2 IsInFront vehicles lane_points
      (truck_x d, truck_z d) (truck_rotation d) closest /\
    check_lane_safety st d vehicles target current road
    = (Py.Return (false, clamp (closest / 30) 0.3 1), pending target) /\
    is_waiting_for_lane_change (snd (check_lane_safety st d vehicles target current road))
    = true.
Proof.
  intros Hne Hl Hg Hp Hcomputed Hin Hb.
  assert (vehicles <> []) as Hv by (intros ->; contradiction).
  assert (lane_points <> []) as Hpts.
  { destruct Hb as (_ & Hlane & _). now apply in_lane_has_points in Hlane. }
  rewrite (check_lane_safety_scan st d vehicles target current road
             road_lanes target_lane lane_points Hne Hv Hl Hg Hp Hpts).
  apply blocking_vehicles_returns in Hcomputed as (blocking & Hloop).
  destruct (min_of_blocking vehicles lane_points (truck_x d, truck_z d) (truck_rotation d)
              blocking v Hloop Hin Hb) as (first & others & closest & -> & Hmin & Hclosest).
  exists closest. split; [exact Hclosest|].
  rewrite Hloop, Hmin. split; reflexivity.
Qed.

(** C2, as the code has it.  For a lane index that is not negative, a sole
    vehicle in front of the truck at a computed distance that is not below
    30 m never blocks: the evaluation returns safe=true with factor 1.0, at
    39 m as at 41 m, unless the lane test of the vehicle raises, which the
    call then raises too, leaving the state as it was.  The screening
    window only decides lane membership: beyond 30 + 10 m the vehicle is
    not a lane member, whatever the lane, and the evaluation returns
    safe=true. *)
Theorem vehicle_ahead_beyond_30_is_safe (st : State) (d : Data) (v : Vehicle)
    (target current : Z) (road : Road) (dist : float) :
  (0 <= target)%Z ->
  IsInFront (ground v) (truck_rotation d) (truck_x d, truck_z d) = true ->
  at_distance v (truck_x d, truck_z d) dist ->
  (dist <? 30) = false ->
  (fst (check_lane_safety st d [v] target current road) = Py.Return (true, 1) \/
   exists lane_points e,
     is_vehicle_in_lane v lane_points (truck_x d, truck_z d) (truck_rotation d)
     = Py.Raise e /\
     check_lane_safety st d [v] target current road = (Py.Raise e, st)) /\
  ((40 <? dist) = true ->
   fst (check_lane_safety st d [v] target current road) = Py.Return (true, 1) /\
   forall lane_points,
     is_vehicle_in_lane v lane_points (truck_x d, truck_z d) (truck_rotation d)
     = Py.Return false).
Proof.
  intros Hpos Hfront Hdist Hfar.
  assert (classify (IsInFront (ground v) (truck_rotation d) (truck_x d, truck_z d)) dist
          = None) as Hclass.
  { rewrite Hfront. unfold classify, SAFETY_DISTANCE_AHEAD, SAFETY_DISTANCE_BESIDE.
    rewrite Hfar. simpl.
    destruct (dist <? 8) eqn:E; [|reflexivity].
    rewrite (FloatOrder.ltb_trans _ 8 30 E eq_refl) in Hfar. discriminate. }
  assert (forall lane_points,
             blocking_vehicles [v] lane_points (truck_x d, truck_z d) (truck_rotation d)
             = Py.Return [] \/
             exists e,
               is_vehicle_in_lane v lane_points (truck_x d, truck_z d) (truck_rotation d)
               = Py.Raise e /\
               blocking_vehicles [v] lane_points (truck_x d, truck_z d) (truck_rotation d)
               = Py.Raise e) as Hloop.
  { intros lane_points.
    destruct (blocking_vehicles_step v [] lane_points (truck_x d, truck_z d)
                (truck_rotation d))
      as [[Hskip _] | [(e & Hraise & _ & Hl) | (d' & t & _ & _ & Hd & Hc & _)]];
      cbv zeta in *.
    - left. exact Hskip.
    - right. eauto.
    - unfold LaneSafetySpec.at_distance in Hdist. congruence. }
  assert (forall lane_points,
             (40 <? dist) = true ->
             is_vehicle_in_lane v lane_points (truck_x d, truck_z d) (truck_rotation d)
             = Py.Return false) as Hscreen.
  { intros lane_points Hout. unfold LaneSafety.is_vehicle_in_lane.
    destruct (length lane_points <? 2)%nat; [reflexivity|].
    unfold LaneSafetySpec.at_distance, ground in Hdist, Hfront.
    rewrite Hdist, Hfront. simpl Py.bind.
    change (SAFETY_DISTANCE_AHEAD + 10) with 40.
    now rewrite Hout. }
  assert (forall outcome : Py.result (bool * float) * State,
             fst outcome = Py.Return (true, 1) ->
             fst outcome = Py.Return (true, 1) \/
             exists lane_points e,
               is_vehicle_in_lane v lane_points (truck_x d, truck_z d) (truck_rotation d)
               = Py.Raise e /\ outcome = (Py.Raise e, st)) as Hsafe by auto.
  unfold LaneSafety.check_lane_safety.
  destruct (target =? current)%Z; [split; auto|].
  destruct (lanes road) as [road_lanes|]; [|split; auto].
  destruct (Z.leb_spec (Z.of_nat (length road_lanes)) target) as [Hge | Hlt];
    [split; auto|].
  unfold Py.getitem. destruct (Z.leb_spec 0 target) as [_|]; [|lia].
  destruct (nth_error road_lanes (Z.to_nat target)) as [target_lane|] eqn:Hnth.
  2:{ apply nth_error_None in Hnth. lia. }
  destruct (points target_lane) as [[|p0 lane_points]|]; try (split; auto; fail).
  split.
  - destruct (Hloop (p0 :: lane_points)) as [-> | (e & Hl & ->)]; [now left|].
    right. exists (p0 :: lane_points), e. auto.
  - intros Hout. split; [|intros lp; now apply Hscreen].
    destruct (Hloop (p0 :: lane_points)) as [-> | (e & Hl & _)]; [reflexivity|].
    rewrite (Hscreen (p0 :: lane_points) Hout) in Hl. discriminate.
Qed.

(** C3.  The evaluation returns (safe=true, factor=1.0), without raising,
    whenever the target lane equals the current lane, or the traffic
    collaborator yields no vehicles, or the road has no lane data, or no
    lane at the target index, or the target lane has no points; when the
    target equals the current lane the pending-change and must-slow-down
    flags are cleared as well. *)
Theorem fail_open_returns_safe (st : State) (d : Data) (vehicles : list Vehicle)
    (target current : Z) (road : Road) :
  target = current \/
  vehicles = [] \/
  lanes road = None \/
  (exists road_lanes,
      lanes road = Some road_lanes /\ (Z.of_nat (length road_lanes) <= target)%Z) \/
  (exists road_lanes target_lane,
      lanes road = Some road_lanes /\
      Py.getitem road_lanes target = Some target_lane /\
      (points target_lane = None \/ points target_lane = Some [])) ->
  fst (check_lane_safety st d vehicles target current road) = Py.Return (true, 1) /\
  (target = current ->
   _pending_lane_change (snd (check_lane_safety st d vehicles target current road)) = false /\
   _slow_down_for_lane_change (snd (check_lane_safety st d vehicles target current road))
   = false).
Proof.
  intros H. unfold LaneSafety.check_lane_safety.
  destruct (Z.eqb_spec target current) as [Heq | Hne].
  { split; [reflexivity | intros _; split; reflexivity]. }
  split; [|intros; contradiction].
  destruct H as [H | [-> | H]]; [contradiction | reflexivity |].
  destruct vehicles as [|v0 rest]; [reflexivity|].
  destruct H as [-> | [(road_lanes & -> & Hlen) | (road_lanes & target_lane & -> & Hg & Hp)]].
  - reflexivity.
  - destruct (Z.leb_spec (Z.of_nat (length road_lanes)) target); [reflexivity | lia].
  - destruct (Z.of_nat (length road_lanes) <=? target)%Z; [reflexivity|].
    rewrite Hg. destruct Hp as [-> | ->]; reflexivity.
Qed.

(** C9.  A call that takes a fail-open early return (target differs from
    current, and there are no vehicles, or no lane data or no lane at the
    target index, or no points in the target lane) returns (safe=true,
    factor=1.0) and leaves the three state variables as they were, so a
    pending change is still reported as waiting.  A pending flag that a call
    clears was cleared by the target == current branch or by the branch
    that found no blocking vehicle; [reset_lane_change_state] clears it
    too. *)
Theorem fail_open_keeps_pending_state :
  (forall (st : State) (d : Data) (vehicles : list Vehicle) (target current : Z)
          (road : Road),
      target <> current ->
      vehicles = [] \/
      lanes road = None \/
      (exists road_lanes,
          lanes road = Some road_lanes /\ (Z.of_nat (length road_lanes) <= target)%Z) \/
      (exists road_lanes target_lane,
          lanes road = Some road_lanes /\
          Py.getitem road_lanes target = Some target_lane /\
          (points target_lane = None \/ points target_lane = Some [])) ->
      check_lane_safety st d vehicles target current road = (Py.Return (true, 1), st) /\
      (is_waiting_for_lane_change st = true ->
       is_waiting_for_lane_change (snd (check_lane_safety st d vehicles target current road))
       = true)) /\
  (forall (st : State) (d : Data) (vehicles : list Vehicle) (target current : Z)
          (road : Road),
      _pending_lane_change st = true ->
      _pending_lane_change (snd (check_lane_safety st d vehicles target current road))
      = false ->
      target = current \/
      exists road_lanes target_lane lane_points,
        vehicles <> [] /\
        lanes road = Some road_lanes /\
        Py.getitem road_lanes target = Some target_lane /\
        points target_lane = Some lane_points /\
        blocking_vehicles vehicles lane_points (truck_x d, truck_z d) (truck_rotation d)
        = Py.Return []) /\
  (forall st : State, is_waiting_for_lane_change (reset_lane_change_state st) = false).
Proof.
  split; [|split].
  - intros st d vehicles target current road Hne H.
    assert (check_lane_safety st d vehicles target current road = (Py.Return (true, 1), st))
      as Hcall.
    { unfold LaneSafety.check_lane_safety.
      destruct (Z.eqb_spec target current) as [|_]; [contradiction|].
      destruct H as [-> | H]; [reflexivity|].
      destruct vehicles as [|v0 rest]; [reflexivity|].
      destruct H as [-> | [(road_lanes & -> & Hlen)
                          | (road_lanes & target_lane & -> & Hg & Hp)]].
      - reflexivity.
      - destruct (Z.leb_spec (Z.of_nat (length road_lanes)) target); [reflexivity | lia].
      - destruct (Z.of_nat (length road_lanes) <=? target)%Z; [reflexivity|].
        rewrite Hg. destruct Hp as [-> | ->]; reflexivity. }
    split; [exact Hcall|]. now rewrite Hcall.
  - intros st d vehicles target current road Hpending.
    unfold LaneSafety.check_lane_safety.
    destruct (Z.eqb_spec target current) as [Heq | Hne]; [now left|].
    destruct vehicles as [|v0 rest]; [simpl; congruence|].
    destruct (lanes road) as [road_lanes|]; [|simpl; congruence].
    destruct (Z.of_nat (length road_lanes) <=? target)%Z; [simpl; congruence|].
    destruct (Py.getitem road_lanes target) as [target_lane|] eqn:Hg; [|simpl; congruence].
    destruct (points target_lane) as [[|p0 lane_points]|] eqn:Hp; try (simpl; congruence).
    destruct (blocking_vehicles (v0 :: rest) (p0 :: lane_points) (truck_x d, truck_z d)
                (truck_rotation d)) as [[|b bs]|e] eqn:Hb.
    + intros _. right. exists road_lanes, target_lane, (p0 :: lane_points).
      repeat split; trivial. discriminate.
    + destruct (Py.min_of (map (fun v => snd (fst v)) (b :: bs))); simpl; discriminate.
    + simpl. congruence.
  - reflexivity.
Qed.

End WithLibrary.

(** *** The worked scenario *)

Local Abbreviation check_scenario :=
  (check_lane_safety Geometry.power2_exact Geometry.in_front_along_axis).
Local Abbreviation in_lane_scenario :=
  (is_vehicle_in_lane Geometry.power2_exact Geometry.in_front_along_axis).

(** A vehicle 10 m ahead on the centerline of lane 1, the truck in lane 0:
    the change is blocked with factor 10 / 30, the binary64 number closest
    to 1/3. *)
Lemma blocked_lane_change_witness :
  (exists closest,
      closest_blocking_distance Geometry.power2_exact Geometry.in_front_along_axis
        [vehicle_at 10] centerline (0, 0) 0 closest /\
      check_scenario initial_state truck [vehicle_at 10] 1 0 two_lane_road
      = (Py.Return (false, clamp (closest / 30) 0.3 1), pending 1) /\
      is_waiting_for_lane_change
        (snd (check_scenario initial_state truck [vehicle_at 10] 1 0 two_lane_road))
      = true) /\
  check_scenario initial_state truck [vehicle_at 10] 1 0 two_lane_road
  = (Py.Return (false, 1 / 3), pending 1).
Proof.
  split.
  - apply (blocked_lane_change Geometry.power2_exact Geometry.in_front_along_axis
             initial_state truck [vehicle_at 10] 1 0 two_lane_road
             [mkLane (Some []); mkLane (Some centerline)] (mkLane (Some centerline))
             centerline (vehicle_at 10)).
    + discriminate.
    + reflexivity.
    + reflexivity.
    + reflexivity.
    + intros v [<- | []] _. exists true. reflexivity.
    + left. reflexivity.
    + split; [reflexivity|]. split; [reflexivity|]. left. split; [reflexivity|].
      exists 10. split; reflexivity.
  - reflexivity.
Defined.

(** C1 as stated fails when the target lane is the current lane: the same
    vehicle, 10 m ahead in lane 1 and blocking it, does not keep a truck
    that is already in lane 1 from getting (safe=true, 1.0), and nothing
    becomes pending. *)
Lemma blocked_only_when_lanes_differ :
  is_zero (position (vehicle_at 10)) = false /\
  in_lane_scenario (vehicle_at 10) centerline (0, 0) 0 = Py.Return true /\
  Geometry.in_front_along_axis (ground (vehicle_at 10)) 0 (0, 0) = true /\
  dist_to Geometry.power2_exact (ground (vehicle_at 10)) (0, 0) = Py.Return 10 /\
  classify true 10 = Some ahead /\
  check_scenario initial_state truck [vehicle_at 10] 1 1 two_lane_road
  = (Py.Return (true, 1), initial_state).
Proof. repeat split. Qed.

(** The vehicle of C2 at 39 m. *)
Lemma vehicle_ahead_beyond_30_is_safe_witness :
  (fst (check_scenario initial_state truck [vehicle_at 39] 1 0 two_lane_road)
   = Py.Return (true, 1) \/
   exists lane_points e,
     in_lane_scenario (vehicle_at 39) lane_points (truck_x truck, truck_z truck)
       (truck_rotation truck)
     = Py.Raise e /\
     check_scenario initial_state truck [vehicle_at 39] 1 0 two_lane_road
     = (Py.Raise e, initial_state)) /\
  ((40 <? 39) = true ->
   fst (check_scenario initial_state truck [vehicle_at 39] 1 0 two_lane_road)
   = Py.Return (true, 1) /\
   forall lane_points,
     in_lane_scenario (vehicle_at 39) lane_points (truck_x truck, truck_z truck)
       (truck_rotation truck)
     = Py.Return false).
Proof.
  apply (vehicle_ahead_beyond_30_is_safe Geometry.power2_exact Geometry.in_front_along_axis
           initial_state truck (vehicle_at 39) 1 0 two_lane_road 39).
  - lia.
  - reflexivity.
  - reflexivity.
  - reflexivity.
Defined.

(** C2 as stated fails at 39 m: the vehicle is in front, on the centerline
    and inside the 40 m screening window, so it is a lane member, yet it is
    in none of the three classes and the evaluation returns safe=true.  At
    41 m the screening window drops it and the evaluation returns safe=true
    again; at 29 m it blocks. *)
Lemma vehicle_at_39_does_not_block :
  dist_to Geometry.power2_exact (ground (vehicle_at 39)) (0, 0) = Py.Return 39 /\
  Geometry.in_front_along_axis (ground (vehicle_at 39)) 0 (0, 0) = true /\
  in_lane_scenario (vehicle_at 39) centerline (0, 0) 0 = Py.Return true /\
  classify true 39 = None /\
  check_scenario initial_state truck [vehicle_at 39] 1 0 two_lane_road
  = (Py.Return (true, 1), initial_state) /\
  in_lane_scenario (vehicle_at 41) centerline (0, 0) 0 = Py.Return false /\
  check_scenario initial_state truck [vehicle_at 41] 1 0 two_lane_road
  = (Py.Return (true, 1), initial_state) /\
  fst (check_scenario initial_state truck [vehicle_at 29] 1 0 two_lane_road)
  = Py.Return (false, 29 / 30).
Proof. repeat split. Qed.

(** The truck already in the target lane while a change is pending. *)
Lemma fail_open_returns_safe_witness :
  fst (check_scenario pending_state truck [vehicle_at 10] 1 1 two_lane_road)
  = Py.Return (true, 1) /\
  (1%Z = 1%Z ->
   _pending_lane_change
     (snd (check_scenario pending_state truck [vehicle_at 10] 1 1 two_lane_road))
   = false /\
   _slow_down_for_lane_change
     (snd (check_scenario pending_state truck [vehicle_at 10] 1 1 two_lane_road))
   = false).
Proof.
  apply (fail_open_returns_safe Geometry.power2_exact Geometry.in_front_along_axis
           pending_state truck [vehicle_at 10] 1 1 two_lane_road).
  left. reflexivity.
Defined.

(** The fail-open returns on the scenario, entered with a pending change:
    no vehicles; a road without lane data; a target index past the lanes; a
    target lane without points.  Each leaves the change pending. *)
Example fail_open_cases :
  let check := check_scenario pending_state truck in
  check [] 1%Z 0%Z two_lane_road = (Py.Return (true, 1), pending_state) /\
  check [vehicle_at 10] 1%Z 0%Z (mkRoad None) = (Py.Return (true, 1), pending_state) /\
  check [vehicle_at 10] 2%Z 0%Z two_lane_road = (Py.Return (true, 1), pending_state) /\
  check [vehicle_at 10] 0%Z 1%Z two_lane_road = (Py.Return (true, 1), pending_state) /\
  check [vehicle_at 10] 1%Z 0%Z (mkRoad (Some [mkLane None; mkLane None]))
  = (Py.Return (true, 1), pending_state) /\
  is_waiting_for_lane_change pending_state = true.
Proof. repeat split. Qed.

(** Lane indices are 0-based.  An index below [-len(road.lanes)] is not a
    lane index; Python's list indexing raises on it. *)
Example negative_index_below_range :
  fst (check_scenario initial_state truck [vehicle_at 10] (-3) 0 two_lane_road)
  = Py.Raise Py.IndexError.
Proof. reflexivity. Qed.

(** A vehicle so far away that the square of its offset overflows: the
    distance computation raises OverflowError in the loop, the call raises
    it, and the state is left as it was. *)
Example far_vehicle_raises :
  check_scenario pending_state truck [vehicle_at 10; vehicle_at 1e200] 1 0 two_lane_road
  = (Py.Raise Py.OverflowError, pending_state).
Proof. reflexivity. Qed.

End LaneSafetyFacts.
(** ** Rotations *)

Module RotationFacts.

Import NodeHelpers.

Lemma rotate_left_pos {T : Type} (arr : list T) (count : Z) :
  0 < count < Z.of_nat (length arr) ->
  rotate_left arr count
  = Py.Return (skipn (Z.to_nat count) arr ++ firstn (Z.to_nat count) arr).
Proof.
  intros H. unfold rotate_left.
  destruct (Z.leb_spec 0 count); [|lia].
  destruct (Z.ltb_spec count (Z.of_nat (length arr))); [|lia].
  destruct (Z.eqb_spec count 0); [lia|]. simpl.
  unfold Py.slice_from, Py.slice_to.
  rewrite PyFacts.clip_nonneg by lia. rewrite Z.min_r by lia. reflexivity.
Qed.

Lemma split_swap_back {T : Type} (arr : list T) (k : nat) :
  (k <= length arr)%nat ->
  let swapped := skipn k arr ++ firstn k arr in
  skipn (length arr - k) swapped ++ firstn (length arr - k) swapped = arr.
Proof.
  intros Hk swapped. unfold swapped.
  rewrite skipn_app, firstn_app, length_skipn.
  rewrite Nat.sub_diag. simpl.
  rewrite (skipn_all2 (skipn k arr)) by (rewrite length_skipn; lia).
  rewrite (firstn_all2 (skipn k arr)) by (rewrite length_skipn; lia).
  simpl. rewrite app_nil_r. apply firstn_skipn.
Qed.

(** Rotating left and then right by the same count, or right and then
    left, gives the list back. *)
Theorem rotate_round_trip {T : Type} (arr : list T) (count : Z) :
  0 <= count < Z.of_nat (length arr) ->
  (exists turned,
      rotate_left arr count = Py.Return turned /\
      rotate_right turned count = Py.Return arr) /\
  (exists turned,
      rotate_right arr count = Py.Return turned /\
      rotate_left turned count = Py.Return arr).
Proof.
  intros H.
  destruct (Z.eq_dec count 0) as [-> | Hne].
  - split; exists arr; unfold rotate_left, rotate_right;
      (destruct (Z.ltb_spec 0 (Z.of_nat (length arr))); [|lia]); simpl;
      split; reflexivity.
  - set (n := length arr) in *. set (k := Z.to_nat count).
    assert (0 < k < n)%nat as Hk by (unfold k; lia).
    split.
    + rewrite rotate_left_pos by (fold n; lia). fold k.
      eexists. split; [reflexivity|].
      assert (length (skipn k arr ++ firstn k arr) = n) as Hlen
        by (rewrite length_app, length_skipn, length_firstn; fold n; lia).
      rewrite NodeHelpersFacts.rotate_right_pos by (rewrite Hlen; lia).
      rewrite Hlen. fold k. f_equal. apply (split_swap_back arr k). fold n. lia.
    + rewrite NodeHelpersFacts.rotate_right_pos by (fold n; lia). fold n k.
      eexists. split; [reflexivity|].
      assert (length (skipn (n - k) arr ++ firstn (n - k) arr) = n) as Hlen
        by (rewrite length_app, length_skipn, length_firstn; fold n; lia).
      rewrite rotate_left_pos by (rewrite Hlen; lia). fold k. f_equal.
      pose proof (split_swap_back arr (n - k) ltac:(fold n; lia)) as Hback.
      cbv zeta in Hback. fold n in Hback.
      replace (n - (n - k))%nat with k in Hback by lia. exact Hback.
Qed.

Lemma rotate_round_trip_witness :
  (exists turned,
      rotate_left [1; 2; 3; 4; 5] 2 = Py.Return turned /\
      rotate_right turned 2 = Py.Return [1; 2; 3; 4; 5]) /\
  (exists turned,
      rotate_right [1; 2; 3; 4; 5] 2 = Py.Return turned /\
      rotate_left turned 2 = Py.Return [1; 2; 3; 4; 5]).
Proof. apply (rotate_round_trip [1; 2; 3; 4; 5] 2). simpl. lia. Defined.

(** A rotation raises AssertionError exactly when the count is outside
    [0, length), so always on the empty list; otherwise it returns a
    rearrangement of the same elements. *)
Theorem rotate_raises_or_rearranges {T : Type} (arr : list T) (count : Z) :
  (rotate_left arr count = Py.Raise Py.AssertionError <->
   ~ (0 <= count < Z.of_nat (length arr))) /\
  (rotate_right arr count = Py.Raise Py.AssertionError <->
   ~ (0 <= count < Z.of_nat (length arr))) /\
  (forall turned, rotate_left arr count = Py.Return turned -> Permutation arr turned) /\
  (forall turned, rotate_right arr count = Py.Return turned -> Permutation arr turned) /\
  (forall e, rotate_left arr count = Py.Raise e -> e = Py.AssertionError) /\
  (forall e, rotate_right arr count = Py.Raise e -> e = Py.AssertionError).
Proof.
  assert (forall k : nat, Permutation arr (skipn k arr ++ firstn k arr)) as Hperm.
  { intros k. rewrite <- (firstn_skipn k arr) at 1. apply Permutation_app_comm. }
  unfold rotate_left, rotate_right.
  destruct (Z.leb_spec 0 count) as [H0 | H0];
    destruct (Z.ltb_spec count (Z.of_nat (length arr))) as [H1 | H1]; simpl;
    try (repeat split; try discriminate; try lia; intros; congruence).
  destruct (Z.eqb_spec count 0) as [-> | Hne].
  - repeat split; try discriminate; try lia; intros turned [= <-]; apply Permutation_refl.
  - repeat split; try discriminate; try lia; intros turned [= <-]; apply Hperm.
Qed.

(** A left rotation by [count] brings the element at index
    [(i + count) mod length] to index [i]; its first element is the one
    that was at index [count]. *)
Theorem rotate_left_brings_count_first {T : Type} (arr : list T) (count : Z) :
  0 <= count < Z.of_nat (length arr) ->
  exists turned,
    rotate_left arr count = Py.Return turned /\
    length turned = length arr /\
    (forall i, (i < length arr)%nat ->
       nth_error turned i
       = nth_error arr (Z.to_nat ((Z.of_nat i + count) mod Z.of_nat (length arr)))) /\
    hd_error turned = nth_error arr (Z.to_nat count).
Proof.
  intros H.
  assert (exists turned,
             rotate_left arr count = Py.Return turned /\
             length turned = length arr /\
             forall i, (i < length arr)%nat ->
               nth_error turned i
               = nth_error arr (Z.to_nat ((Z.of_nat i + count) mod Z.of_nat (length arr))))
    as (turned & Hrot & Hlen & Hnth).
  { destruct (Z.eq_dec count 0) as [-> | Hne].
    - exists arr. unfold rotate_left.
      destruct (Z.ltb_spec 0 (Z.of_nat (length arr))); [|lia]. simpl.
      repeat split. intros i Hi.
      rewrite Z.add_0_r, Z.mod_small by lia. now rewrite Nat2Z.id.
    - rewrite rotate_left_pos by lia. eexists. split; [reflexivity|].
      set (n := length arr) in *. set (k := Z.to_nat count).
      assert (0 < k < n)%nat as Hk by (unfold k; lia).
      split.
      + rewrite length_app, length_skipn, length_firstn. fold n. lia.
      + intros i Hi.
        destruct (Nat.lt_ge_cases i (n - k)) as [Hlo | Hhi].
        * rewrite Z.mod_small by lia.
          rewrite nth_error_app1 by (rewrite length_skipn; fold n; lia).
          rewrite nth_error_skipn. f_equal. unfold k. lia.
        * replace ((Z.of_nat i + count) mod Z.of_nat n)
            with (Z.of_nat i + count - Z.of_nat n).
          2:{ apply Z.mod_unique with (q := 1); lia. }
          rewrite nth_error_app2 by (rewrite length_skipn; fold n; lia).
          rewrite length_skipn. fold n.
          rewrite nth_error_firstn.
          destruct (Nat.ltb_spec (i - (n - k)) k); [|lia].
          f_equal. unfold k. lia. }
  exists turned. repeat split; trivial.
  specialize (Hnth O ltac:(lia)). simpl in Hnth.
  rewrite Z.mod_small in Hnth by lia.
  rewrite <- Hnth. now destruct turned.
Qed.

Lemma rotate_left_brings_count_first_witness :
  exists turned,
    rotate_left [10; 20; 30] 1 = Py.Return turned /\
    length turned = 3%nat /\
    (forall i, (i < 3)%nat ->
       nth_error turned i = nth_error [10; 20; 30] (Z.to_nat ((Z.of_nat i + 1) mod 3))) /\
    hd_error turned = Some 20.
Proof. apply (rotate_left_brings_count_first [10; 20; 30] 1). simpl. lia. Defined.

End RotationFacts.

(** ** More on the lane connectivity resolver *)

Module ConnectivityFacts.

Import NodeHelpers NodeHelpersSpec.

Lemma range_In (lo hi k : Z) : In k (Py.range lo hi) <-> lo <= k < hi.
Proof.
  unfold Py.range. rewrite in_map_iff. split.
  - intros (i & <- & Hi). apply in_seq in Hi. lia.
  - intros H. exists (Z.to_nat (k - lo)). split; [lia|]. apply in_seq. lia.
Qed.

Lemma no_connection_flip (a b : option Z) : no_connection (a, b) <-> no_connection (b, a).
Proof.
  unfold no_connection, connects_through; simpl.
  split; intros H u (H1 & H2 & H3); apply (H u); auto.
Qed.

(** Two nodes are connected in one order exactly when they are in the
    other, and the id returned is a real id carried by both nodes. *)
Theorem connecting_item_is_shared (node_1 node_2 : Node.t) :
  (get_connecting_item_uid node_1 node_2 = None <->
   get_connecting_item_uid node_2 node_1 = None) /\
  (forall u,
      get_connecting_item_uid node_1 node_2 = Some u ->
      u <> 0 /\
      (Node.forward_item_uid node_1 = Some u \/ Node.backward_item_uid node_1 = Some u) /\
      (Node.forward_item_uid node_2 = Some u \/ Node.backward_item_uid node_2 = Some u)).
Proof.
  rewrite !NodeHelpersFacts.get_connecting_item_uid_cascade. split.
  - rewrite !NodeHelpersFacts.first_connection_none. unfold pairings.
    rewrite !Forall_cons_iff, !Forall_nil_iff.
    rewrite (no_connection_flip (Node.forward_item_uid node_2)),
            (no_connection_flip (Node.backward_item_uid node_2)),
            (no_connection_flip (Node.forward_item_uid node_2)
               (Node.forward_item_uid node_1)),
            (no_connection_flip (Node.backward_item_uid node_2)
               (Node.backward_item_uid node_1)).
    tauto.
  - intros u H.
    apply NodeHelpersFacts.first_connection_some in H
      as (before & p & after & Hps & _ & Hfst & Hsnd & Hu).
    assert (In p (pairings node_1 node_2)) as Hin
      by (rewrite Hps; apply in_elt).
    split; [exact Hu|].
    unfold pairings in Hin. simpl in Hin.
    destruct Hin as [<- | [<- | [<- | [<- | []]]]]; simpl in *; auto.
Qed.

(** On a road with lanes on both sides the two directions of travel never
    share a lane and together use every lane; on a road without left lanes
    both directions get the same lanes. *)
Theorem road_directions_split_the_lanes (Curve : Type) (curve_eqb : Curve -> Curve -> bool)
    (node_1 node_2 : Node.t) (road : Road.t) (look : RoadLook) (map_data : MapData) :
  Road.road_look road = Some look ->
  Road.start_node_uid road = Node.uid node_1 ->
  Node.uid node_2 <> Node.uid node_1 ->
  let left := Z.of_nat (length (lanes_left look)) in
  let right := Z.of_nat (length (lanes_right look)) in
  exists forward backward,
    get_connecting_lanes_by_item curve_eqb node_1 node_2 (@ItemRoad Curve road) map_data
    = Py.Return forward /\
    get_connecting_lanes_by_item curve_eqb node_2 node_1 (@ItemRoad Curve road) map_data
    = Py.Return backward /\
    (0 < left ->
     (forall k, In k forward -> ~ In k backward) /\
     (forall k, 0 <= k < left + right <-> In k forward \/ In k backward)) /\
    (left = 0 -> backward = forward).
Proof.
  intros Hlook Hstart Hne left right. simpl. rewrite Hlook, Hstart.
  rewrite Z.eqb_refl.
  destruct (Z.eqb_spec (Node.uid node_1) (Node.uid node_2)) as [Heq | _];
    [symmetry in Heq; contradiction|].
  fold left right.
  destruct (Z.ltb_spec 0 left) as [Hpos | Hzero].
  - eexists. eexists. split; [reflexivity|]. split; [reflexivity|].
    split; [|lia]. intros _. split.
    + intros k Hf Hb. apply range_In in Hf, Hb. lia.
    + intros k. rewrite !range_In. lia.
  - eexists. eexists. split; [reflexivity|]. split; [reflexivity|].
    split; [lia|]. intros H0. now rewrite H0.
Qed.

Lemma road_directions_split_the_lanes_witness :
  exists forward backward,
    get_connecting_lanes_by_item Z.eqb (junction_node 1) (junction_node 2)
      (ItemRoad (Road.mk 7 (Some (mkRoadLook [tt; tt] [tt; tt; tt])) 1)) junction_map
    = Py.Return forward /\
    get_connecting_lanes_by_item Z.eqb (junction_node 2) (junction_node 1)
      (ItemRoad (Road.mk 7 (Some (mkRoadLook [tt; tt] [tt; tt; tt])) 1)) junction_map
    = Py.Return backward /\
    (0 < 2 ->
     (forall k, In k forward -> ~ In k backward) /\
     (forall k, 0 <= k < 2 + 3 <-> In k forward \/ In k backward)) /\
    (2 = 0 -> backward = forward).
Proof.
  apply (road_directions_split_the_lanes Z Z.eqb (junction_node 1) (junction_node 2)
           (Road.mk 7 (Some (mkRoadLook [tt; tt] [tt; tt; tt])) 1)
           (mkRoadLook [tt; tt] [tt; tt; tt]) junction_map).
  - reflexivity.
  - reflexivity.
  - discriminate.
Defined.

Lemma position_in_unique (rotated : list (option Node.t)) (node : Node.t) (i j : nat) :
  position_in rotated node i -> position_in rotated node j -> i = j.
Proof.
  intros Hi Hj. apply NodeHelpersFacts.node_matches_position in Hi, Hj. congruence.
Qed.

(** The query raises only for a prefab with a resolved description whose
    origin index is outside its boundary-node list (so for every resolved
    prefab without boundary nodes), and then it raises AssertionError. *)
Theorem connecting_lanes_raise_only_on_bad_origin (Curve : Type)
    (curve_eqb : Curve -> Curve -> bool) (node_1 node_2 : Node.t) (item : Item Curve)
    (map_data : MapData) (e : Py.exn) :
  get_connecting_lanes_by_item curve_eqb node_1 node_2 item map_data = Py.Raise e <->
  e = Py.AssertionError /\
  exists prefab description,
    item = ItemPrefab prefab /\
    prefab_description prefab = Some description /\
    ~ (0 <= origin_node_index prefab < Z.of_nat (length (node_uids prefab))).
Proof.
  unfold get_connecting_lanes_by_item.
  destruct item as [road | prefab |].
  - split.
    + destruct (Road.road_look road); [|discriminate].
      destruct (_ =? _); [discriminate|]. destruct (_ <? _); discriminate.
    + intros (_ & p & d & H & _). discriminate.
  - destruct (prefab_description prefab) as [description|] eqn:Hdesc.
    2:{ split; [discriminate|]. intros (_ & p & d & [= <-] & H & _). congruence. }
    unfold rotate_right. rewrite length_map.
    destruct (Z.leb_spec 0 (origin_node_index prefab)) as [H0 | H0];
      destruct (Z.ltb_spec (origin_node_index prefab)
                  (Z.of_nat (length (node_uids prefab)))) as [H1 | H1]; simpl.
    2,3,4: (split;
            [ intros [= <-]; split; [reflexivity|]; exists prefab, description;
              repeat split; trivial; lia
            | intros (-> & _); reflexivity ]).
    split.
    + intros H. exfalso. revert H.
      destruct (origin_node_index prefab =? 0);
        repeat match goal with
               | |- context [match ?t with _ => _ end] => destruct t
               end; discriminate.
    + intros (_ & p & d & [= <-] & _ & Hout). lia.
  - split; [discriminate|]. intros (_ & p & d & H & _). discriminate.
Qed.

(** Whatever the nodes asked for, the lanes returned for a prefab are
    indices of navigation routes of its description, in strictly ascending
    order. *)
Theorem prefab_lanes_are_route_indices (Curve : Type) (curve_eqb : Curve -> Curve -> bool)
    (node_1 node_2 : Node.t) (prefab : Prefab Curve) (map_data : MapData)
    (lanes : list Z) :
  get_connecting_lanes_by_item curve_eqb node_1 node_2 (ItemPrefab prefab) map_data
  = Py.Return lanes ->
  StronglySorted Z.lt lanes /\
  forall r, In r lanes ->
    exists description route,
      prefab_description prefab = Some description /\
      0 <= r /\
      nth_error (nav_routes description) (Z.to_nat r) = Some route.
Proof.
  unfold get_connecting_lanes_by_item.
  assert (StronglySorted Z.lt (@nil Z) /\
          forall r, In r (@nil Z) ->
            exists description route,
              prefab_description prefab = Some description /\
              0 <= r /\
              nth_error (nav_routes description) (Z.to_nat r) = Some route) as Hnil
    by (split; [constructor | intros r []]).
  destruct (prefab_description prefab) as [description|]; [|now intros [= <-]].
  destruct (rotate_right _ _) as [rotated|]; [|discriminate].
  destruct (node_matches rotated node_1) as [|i1 ?]; [now intros [= <-]|].
  destruct (nth_error (nodes description) i1) as [start_node|]; [|now intros [= <-]].
  destruct (node_matches rotated node_2) as [|i2 ?]; [now intros [= <-]|].
  destruct (nth_error (nodes description) i2) as [end_node|]; [|now intros [= <-]].
  destruct (i1 =? i2)%nat; [now intros [= <-]|].
  intros Hres.
  assert (lanes = accepted_routes curve_eqb description start_node end_node O
                    (nav_routes description)) as ->
    by (destruct (nav_routes description); now injection Hres).
  split; [apply NodeHelpersFacts.accepted_routes_sorted|].
  intros r Hr. apply NodeHelpersFacts.accepted_routes_In in Hr as (k & route & -> & Hk & _).
  exists description, route. repeat split; [lia|].
  simpl. now rewrite Nat2Z.id.
Qed.

Lemma prefab_lanes_are_route_indices_witness :
  StronglySorted Z.lt [0; 3] /\
  forall r, In r [0; 3] ->
    exists description route,
      prefab_description junction = Some description /\
      0 <= r /\
      nth_error (nav_routes description) (Z.to_nat r) = Some route.
Proof.
  apply (prefab_lanes_are_route_indices Z Z.eqb (junction_node 100) (junction_node 200)
           junction junction_map [0; 3]).
  reflexivity.
Defined.

(** The query answers with the empty list, and does not raise, when the
    item is neither a road nor a prefab, when the prefab has no description,
    and, once the rotation went through, when node_1 or node_2 is not among
    the rotated nodes, when both have the same position, when the
    description has no descriptor at one of the positions, or when it has no
    navigation route. *)
Theorem connecting_lanes_fail_empty (Curve : Type) (curve_eqb : Curve -> Curve -> bool)
    (node_1 node_2 : Node.t) (map_data : MapData) :
  get_connecting_lanes_by_item curve_eqb node_1 node_2 (@ItemOther Curve) map_data
  = Py.Return [] /\
  (forall prefab,
      prefab_description prefab = None ->
      get_connecting_lanes_by_item curve_eqb node_1 node_2 (ItemPrefab prefab) map_data
      = Py.Return []) /\
  (forall prefab description rotated,
      prefab_description prefab = Some description ->
      rotate_right (map (get_node_by_uid map_data) (node_uids prefab))
        (origin_node_index prefab) = Py.Return rotated ->
      (forall i, ~ position_in rotated node_1 i) \/
      (forall i, ~ position_in rotated node_2 i) \/
      (exists i, position_in rotated node_1 i /\ position_in rotated node_2 i) \/
      (exists i, position_in rotated node_1 i /\ nth_error (nodes description) i = None) \/
      (exists i, position_in rotated node_2 i /\ nth_error (nodes description) i = None) \/
      nav_routes description = [] ->
      get_connecting_lanes_by_item curve_eqb node_1 node_2 (ItemPrefab prefab) map_data
      = Py.Return []).
Proof.
  split; [reflexivity|]. split.
  - intros prefab H. simpl. now rewrite H.
  - intros prefab description rotated Hdesc Hrot H.
    unfold get_connecting_lanes_by_item. rewrite Hdesc, Hrot.
    destruct (node_matches rotated node_1) as [|i1 rest1] eqn:H1; [reflexivity|].
    assert (position_in rotated node_1 i1) as P1
      by (apply NodeHelpersFacts.node_matches_position; now rewrite H1).
    destruct (nth_error (nodes description) i1) as [start_node|] eqn:Hs; [|reflexivity].
    destruct (node_matches rotated node_2) as [|i2 rest2] eqn:H2; [reflexivity|].
    assert (position_in rotated node_2 i2) as P2
      by (apply NodeHelpersFacts.node_matches_position; now rewrite H2).
    destruct (nth_error (nodes description) i2) as [end_node|] eqn:He; [|reflexivity].
    destruct (Nat.eqb_spec i1 i2) as [Heq | Hne]; [reflexivity|].
    destruct H as [H | [H | [(i & Q1 & Q2) | [(i & Q1 & Hn) | [(i & Q2 & Hn) | H]]]]].
    + now apply H in P1.
    + now apply H in P2.
    + rewrite (position_in_unique _ _ _ _ P1 Q1) in Hne.
      rewrite (position_in_unique _ _ _ _ P2 Q2) in Hne. contradiction.
    + rewrite (position_in_unique _ _ _ _ Q1 P1) in Hn. congruence.
    + rewrite (position_in_unique _ _ _ _ Q2 P2) in Hn. congruence.
    + now rewrite H.
Qed.

End ConnectivityFacts.

(** ** More on the path window locator *)

Module PathWindowMore.

Import NodeHelpers PathWindowSpec.

Lemma in_slice {A : Type} (a : A) (l : list A) (lo hi : Z) :
  In a (Py.slice l lo hi) -> In a l.
Proof.
  unfold Py.slice. intros H.
  set (from := Z.to_nat (Py.clip (Z.of_nat (length l)) lo)) in *.
  rewrite <- (firstn_skipn from l). apply in_or_app. right.
  set (tail := skipn from l) in *.
  set (count := (Z.to_nat (Py.clip (Z.of_nat (length l)) hi) - from)%nat) in *.
  rewrite <- (firstn_skipn count tail). apply in_or_app. now left.
Qed.

(** On an empty route the locator raises IndexError.  On any other route it
    returns, and what it returns is either (None, None) or two nodes of the
    path, the first behind the truck and the second in front of it: never
    one node without the other.  This holds whichever node the sort puts
    first. *)
Theorem surrounding_nav_nodes_outcome
    (DistanceBetweenPoints : float * float -> float * float -> float)
    (IsInFront : float * float -> float -> float * float -> bool)
    (sorted_head : list float -> nat)
    (route_nodes : list RouteNode) (x z rotation : float) :
  let result :=
    get_surrounding_nav_nodes DistanceBetweenPoints IsInFront sorted_head
      route_nodes x z rotation in
  let front := fun n => IsInFront (Node.x n, Node.y n) rotation (x, z) in
  (route_nodes = [] <-> result = Py.Raise Py.IndexError) /\
  (route_nodes <> [] ->
   result = Py.Return (None, None) \/
   exists last next,
     result = Py.Return (Some last, Some next) /\
     In last (map node route_nodes) /\ In next (map node route_nodes) /\
     front last = false /\ front next = true).
Proof.
  intros result front. unfold result, get_surrounding_nav_nodes.
  destruct route_nodes as [|first_node other_nodes]; simpl map.
  - split; [split; reflexivity|]. intros H. now contradiction H.
  - cbv beta iota zeta.
    set (path := node first_node :: map node other_nodes).
    set (closest := closest_node DistanceBetweenPoints sorted_head (node first_node)
                      (map node other_nodes) (x, z)).
    destruct (PathWindowFacts.node_index_of_member closest path) as (index & Hidx & _).
    { apply PathWindowFacts.closest_node_In. }
    rewrite Hidx.
    destruct (window_bounds _ _ _) as [lo hi].
    split; [split; discriminate|]. intros _.
    rewrite PathWindowFacts.last_and_next_find. fold front.
    unfold first_behind_and_ahead.
    destruct (find (fun n => negb (front n)) (Py.slice path lo hi)) as [last|] eqn:Hl;
      [|now left].
    destruct (find front (Py.slice path lo hi)) as [next|] eqn:Hn; [|now left].
    right. exists last, next.
    apply find_some in Hl as [Hl1 Hl2]. apply find_some in Hn as [Hn1 Hn2].
    apply in_slice in Hl1, Hn1.
    repeat split; trivial. now destruct (front last).
Qed.

End PathWindowMore.

(** ** More on the lane-safety evaluator *)

Module LaneSafetyMore.

Import LaneSafety LaneSafetySpec LaneSafetyRuns.

Local Open Scope float_scope.

(** A square root is never below zero. *)
Lemma sqrt_not_negative (v : float) : (PrimFloat.sqrt v <? 0) = false.
Proof.
  rewrite FloatAxioms.ltb_spec, FloatAxioms.sqrt_spec.
  change (Prim2SF 0) with (S754_zero false).
  unfold SF64sqrt, SFsqrt.
  destruct (Prim2SF v) as [[]|[]| |[] m e]; try reflexivity.
  destruct (SFsqrt_core_binary prec emax (Z.pos m) e) as [[mz ez] lz].
  unfold binary_round_aux.
  destruct (shr_fexp prec emax mz ez lz) as [mrs' e'].
  destruct (shr_fexp prec emax _ e' loc_Exact) as [mrs'' e''].
  destruct (shr_m mrs''); try reflexivity.
  destruct (e'' <=? emax - prec)%Z; reflexivity.
Qed.

Lemma speed_factor_bounds (closest_dist : float) :
  (speed_factor closest_dist <? 0.3) = false /\ (1 <? speed_factor closest_dist) = false.
Proof.
  unfold speed_factor, Py.min, Py.max.
  set (v := closest_dist / SAFETY_DISTANCE_AHEAD).
  destruct (0.3 <? v) eqn:Elo.
  - destruct (v <? 1) eqn:Ehi.
    + split; now apply FloatOrder.ltb_asym.
    + split; reflexivity.
  - change (0.3 <? 1) with true. cbv iota. split; reflexivity.
Qed.

(** The third test of the classification can never succeed. *)
Lemma classify_not_beside (is_in_front : bool) (dist : float) :
  classify is_in_front dist <> Some beside.
Proof.
  unfold classify, SAFETY_DISTANCE_AHEAD, SAFETY_DISTANCE_BEHIND, SAFETY_DISTANCE_BESIDE.
  destruct is_in_front; simpl.
  - destruct (dist <? 30) eqn:Ea; [discriminate|].
    destruct (dist <? 8) eqn:Ec; [|discriminate].
    rewrite (FloatOrder.ltb_trans dist 8 30 Ec eq_refl) in Ea. discriminate.
  - destruct (dist <? 15) eqn:Eb; [discriminate|].
    destruct (dist <? 8) eqn:Ec; [|discriminate].
    rewrite (FloatOrder.ltb_trans dist 8 15 Ec eq_refl) in Eb. discriminate.
Qed.

Section WithLibrary.

Variable power2 : float -> option float.
Variable IsInFront : point -> float -> point -> bool.

Local Abbreviation check_lane_safety := (check_lane_safety power2 IsInFront).
Local Abbreviation blocking_vehicles := (blocking_vehicles power2 IsInFront).
Local Abbreviation is_vehicle_in_lane := (is_vehicle_in_lane power2 IsInFront).
Local Abbreviation hypot := (hypot power2).
Local Abbreviation dist_to := (dist_to power2).
Local Abbreviation distance_point_to_line_segment := (distance_point_to_line_segment power2).
Local Abbreviation min_dist_to_lane := (min_dist_to_lane power2).
Local Abbreviation at_distance := (at_distance power2).
Local Abbreviation is_ahead := (is_ahead power2 IsInFront).
Local Abbreviation is_behind := (is_behind power2 IsInFront).

(** [math.sqrt(a ** 2 + b ** 2)] by what the two squares are. *)
Lemma hypot_cases (a b : float) :
  (exists a2 b2,
      power2 a = Some a2 /\ power2 b = Some b2 /\ (a2 + b2 <? 0) = false /\
      hypot a b = Py.Return (PrimFloat.sqrt (a2 + b2))) \/
  ((power2 a = None \/ power2 b = None) /\ hypot a b = Py.Raise Py.OverflowError) \/
  (exists a2 b2,
      power2 a = Some a2 /\ power2 b = Some b2 /\ (a2 + b2 <? 0) = true /\
      hypot a b = Py.Raise Py.ValueError).
Proof.
  unfold LaneSafety.hypot, pow2, Py.math_sqrt.
  destruct (power2 a) as [a2|]; simpl; [|right; left; auto].
  destruct (power2 b) as [b2|]; simpl; [|right; left; auto].
  destruct (a2 + b2 <? 0) eqn:E.
  - right. right. exists a2, b2. auto.
  - left. exists a2, b2. auto.
Qed.

Lemma hypot_not_negative (a b dist : float) :
  hypot a b = Py.Return dist -> (dist <? 0) = false.
Proof.
  destruct (hypot_cases a b)
    as [(a2 & b2 & _ & _ & _ & ->) | [[_ ->] | (a2 & b2 & _ & _ & _ & ->)]];
    intros [= <-]. apply sqrt_not_negative.
Qed.

Lemma hypot_raises (a b : float) (e : Py.exn) :
  hypot a b = Py.Raise e -> e = Py.OverflowError \/ e = Py.ValueError.
Proof.
  destruct (hypot_cases a b)
    as [(a2 & b2 & _ & _ & _ & ->) | [[_ ->] | (a2 & b2 & _ & _ & _ & ->)]];
    intros [= <-]; auto.
Qed.

(** The distance to a segment is one [hypot]. *)
Lemma segment_distance_is_hypot (p a b : point) :
  exists u w, distance_point_to_line_segment p a b = hypot u w.
Proof.
  unfold LaneSafety.distance_point_to_line_segment.
  destruct p as [px pz], a as [x1 z1], b as [x2 z2].
  destruct (_ =? 0); eauto.
Qed.

Lemma min_dist_step (vehicle_pos : point) (p1 p2 : Position) (rest : list Position)
    (acc : float) :
  min_dist_to_lane vehicle_pos (p1 :: p2 :: rest) acc
  = (dist <- distance_point_to_line_segment vehicle_pos (x p1, z p1) (x p2, z p2) ;;
     min_dist_to_lane vehicle_pos (p2 :: rest) (Py.min acc dist)).
Proof. reflexivity. Qed.

Lemma min_dist_not_negative (vehicle_pos : point) (lane_points : list Position)
    (acc dist : float) :
  (acc <? 0) = false ->
  min_dist_to_lane vehicle_pos lane_points acc = Py.Return dist -> (dist <? 0) = false.
Proof.
  revert acc. induction lane_points as [|p1 rest IH]; intros acc Hacc.
  - intros [= <-]. exact Hacc.
  - destruct rest as [|p2 rest']; [intros [= <-]; exact Hacc|].
    rewrite min_dist_step.
    destruct (segment_distance_is_hypot vehicle_pos (x p1, z p1) (x p2, z p2))
      as (u & w & ->).
    destruct (LaneSafety.hypot power2 u w) as [segment|e] eqn:Hs; [|discriminate].
    simpl Py.bind. apply IH. unfold Py.min.
    destruct (segment <? acc); [|exact Hacc].
    exact (hypot_not_negative u w segment Hs).
Qed.

Lemma min_dist_raises (vehicle_pos : point) (lane_points : list Position)
    (acc : float) (e : Py.exn) :
  min_dist_to_lane vehicle_pos lane_points acc = Py.Raise e ->
  e = Py.OverflowError \/ e = Py.ValueError.
Proof.
  revert acc. induction lane_points as [|p1 rest IH]; intros acc; [discriminate|].
  destruct rest as [|p2 rest']; [discriminate|].
  rewrite min_dist_step.
  destruct (segment_distance_is_hypot vehicle_pos (x p1, z p1) (x p2, z p2))
    as (u & w & ->).
  destruct (LaneSafety.hypot power2 u w) as [segment|e'] eqn:Hs; simpl Py.bind.
  - apply IH.
  - intros [= <-]. exact (hypot_raises u w e' Hs).
Qed.

(** What the lane test raises comes from a distance computation. *)
Lemma in_lane_raises (v : Vehicle) (lane_points : list Position) (truck_pos : point)
    (truck_rotation : float) (e : Py.exn) :
  is_vehicle_in_lane v lane_points truck_pos truck_rotation = Py.Raise e ->
  e = Py.OverflowError \/ e = Py.ValueError.
Proof.
  unfold LaneSafety.is_vehicle_in_lane.
  destruct (length lane_points <? 2)%nat; [discriminate|].
  unfold LaneSafety.dist_to.
  destruct (LaneSafety.hypot power2 _ _) as [dist|e'] eqn:Hd; simpl Py.bind.
  - destruct (_ <? dist); [discriminate|].
    destruct (LaneSafety.min_dist_to_lane power2 _ lane_points infinity)
      as [m|e'] eqn:Hm; simpl Py.bind; [discriminate|].
    intros [= <-]. exact (min_dist_raises _ _ _ _ Hm).
  - intros [= <-]. exact (hypot_raises _ _ _ Hd).
Qed.

(** The distances the evaluator works with are never negative: whenever
    the distance to the truck, the distance to a segment or the distance to
    a centerline is computed, it is not below zero.  The distance to the
    truck is computed, as the square root of the sum of the two squares,
    exactly when both squares are and their sum is not below zero; it
    raises OverflowError when a square overflows, and ValueError only if
    the squares sum to less than zero.  No distance computation raises
    anything else. *)
Theorem distances_are_never_negative (p a b : point) (lane_points : list Position) :
  (forall dist, dist_to p a = Py.Return dist -> (dist <? 0) = false) /\
  (forall dist,
      distance_point_to_line_segment p a b = Py.Return dist -> (dist <? 0) = false) /\
  (forall dist,
      min_dist_to_lane p lane_points infinity = Py.Return dist -> (dist <? 0) = false) /\
  ((exists dx2 dz2,
       power2 (fst p - fst a) = Some dx2 /\ power2 (snd p - snd a) = Some dz2 /\
       (dx2 + dz2 <? 0) = false /\
       dist_to p a = Py.Return (PrimFloat.sqrt (dx2 + dz2))) \/
   ((power2 (fst p - fst a) = None \/ power2 (snd p - snd a) = None) /\
    dist_to p a = Py.Raise Py.OverflowError) \/
   (exists dx2 dz2,
       power2 (fst p - fst a) = Some dx2 /\ power2 (snd p - snd a) = Some dz2 /\
       (dx2 + dz2 <? 0) = true /\
       dist_to p a = Py.Raise Py.ValueError)) /\
  (forall e,
      dist_to p a = Py.Raise e \/
      distance_point_to_line_segment p a b = Py.Raise e \/
      min_dist_to_lane p lane_points infinity = Py.Raise e ->
      e = Py.OverflowError \/ e = Py.ValueError).
Proof.
  split; [intros dist; apply hypot_not_negative|].
  split.
  { intros dist. destruct (segment_distance_is_hypot p a b) as (u & w & ->).
    apply hypot_not_negative. }
  split; [intros dist; now apply min_dist_not_negative|].
  split; [apply hypot_cases|].
  intros e [H | [H | H]].
  - exact (hypot_raises _ _ e H).
  - destruct (segment_distance_is_hypot p a b) as (u & w & Hs). rewrite Hs in H.
    exact (hypot_raises _ _ e H).
  - exact (min_dist_raises _ _ _ e H).
Qed.

(** The third test of the classification can never succeed: a vehicle the
    first two tests let through is at 30 m or more in front, or at 15 m or
    more behind, so it is not below 8 m.  No vehicle is ever tagged
    beside. *)
Theorem no_vehicle_is_tagged_beside (vehicles : list Vehicle) (lane_points : list Position)
    (truck_pos : point) (truck_rotation : float) :
  (forall is_in_front dist, classify is_in_front dist <> Some beside) /\
  (forall blocking v d tag,
      blocking_vehicles vehicles lane_points truck_pos truck_rotation = Py.Return blocking ->
      In (v, d, tag) blocking ->
      tag = ahead \/ tag = behind).
Proof.
  split; [exact classify_not_beside|].
  intros blocking v d tag Hloop H.
  apply (LaneSafetyFacts.blocking_vehicles_In _ _ _ _ _ _ _ _ _ _ Hloop) in H
    as (_ & _ & _ & _ & H).
  destruct tag; auto. now apply classify_not_beside in H.
Qed.

(** Every way a call can end: safe, with the state kept or its flags
    cleared; blocked, with the pending state; the IndexError of a negative
    index; or what the loop over the vehicles raised. *)
Lemma check_cases (st : State) (d : Data) (vehicles : list Vehicle)
    (target current : Z) (road : Road) :
  (fst (check_lane_safety st d vehicles target current road) = Py.Return (true, 1) /\
   (snd (check_lane_safety st d vehicles target current road) = st \/
    snd (check_lane_safety st d vehicles target current road) = cleared st)) \/
  (target <> current /\
   exists road_lanes target_lane lane_points b bs,
     lanes road = Some road_lanes /\
     Py.getitem road_lanes target = Some target_lane /\
     points target_lane = Some lane_points /\
     lane_points <> [] /\
     blocking_vehicles vehicles lane_points (truck_x d, truck_z d) (truck_rotation d)
     = Py.Return (b :: bs) /\
     check_lane_safety st d vehicles target current road
     = (Py.Return
          (false,
           speed_factor
             (fold_left Py.min (map (fun v => snd (fst v)) bs) (snd (fst b)))),
        pending target)) \/
  (check_lane_safety st d vehicles target current road = (Py.Raise Py.IndexError, st) /\
   (target < 0)%Z) \/
  (target <> current /\
   exists road_lanes target_lane lane_points e,
     lanes road = Some road_lanes /\
     Py.getitem road_lanes target = Some target_lane /\
     points target_lane = Some lane_points /\
     lane_points <> [] /\
     blocking_vehicles vehicles lane_points (truck_x d, truck_z d) (truck_rotation d)
     = Py.Raise e /\
     check_lane_safety st d vehicles target current road = (Py.Raise e, st)).
Proof.
  unfold LaneSafety.check_lane_safety.
  destruct (Z.eqb_spec target current) as [Heq | Hne]; [left; simpl; auto|].
  destruct vehicles as [|v0 rest]; [left; simpl; auto|].
  destruct (lanes road) as [road_lanes|]; [|left; simpl; auto].
  destruct (Z.leb_spec (Z.of_nat (length road_lanes)) target) as [Hge | Hlt];
    [left; simpl; auto|].
  destruct (Py.getitem road_lanes target) as [target_lane|] eqn:Hg.
  2:{ right. right. left. split; [reflexivity|].
      unfold Py.getitem in Hg. destruct (Z.leb_spec 0 target) as [H0|]; [|lia].
      apply nth_error_None in Hg. lia. }
  destruct (points target_lane) as [[|p0 lane_points]|] eqn:Hp;
    try (left; simpl; auto; fail).
  destruct (LaneSafety.blocking_vehicles power2 IsInFront (v0 :: rest) (p0 :: lane_points)
              (truck_x d, truck_z d) (truck_rotation d)) as [[|b bs]|e] eqn:Hb.
  - left; simpl; auto.
  - right. left. split; [exact Hne|].
    exists road_lanes, target_lane, (p0 :: lane_points), b, bs.
    repeat split; trivial. discriminate.
  - right. right. right. split; [exact Hne|].
    exists road_lanes, target_lane, (p0 :: lane_points), e.
    repeat split; trivial. discriminate.
Qed.

Lemma blocking_vehicles_valid (vehicles : list Vehicle) (lane_points : list Position)
    (truck_pos : point) (truck_rotation : float) :
  blocking_vehicles (filter (fun v => negb (is_zero (position v))) vehicles)
    lane_points truck_pos truck_rotation
  = blocking_vehicles vehicles lane_points truck_pos truck_rotation.
Proof.
  induction vehicles as [|v rest IH]; simpl; [reflexivity|].
  destruct (is_zero (position v)) eqn:Ez; simpl; [exact IH|].
  rewrite Ez, IH. reflexivity.
Qed.

Lemma blocking_vehicles_short_lane (vehicles : list Vehicle) (lane_points : list Position)
    (truck_pos : point) (truck_rotation : float) :
  (length lane_points < 2)%nat ->
  blocking_vehicles vehicles lane_points truck_pos truck_rotation = Py.Return [].
Proof.
  intros Hshort. induction vehicles as [|v rest IH]; simpl; [reflexivity|].
  rewrite IH. unfold LaneSafety.is_vehicle_in_lane.
  destruct (Nat.ltb_spec (length lane_points) 2); [|lia].
  now destruct (is_zero (position v)).
Qed.

(** With a lane index that is not negative a call returns (True, 1.0), or
    (False, f) with f neither below 0.3 nor above 1.0 and the state set to
    pending for the target lane, or raises what the lane test of one of
    the vehicles raised, an OverflowError or ValueError of a distance
    computation.  Besides these the only exception is the IndexError of a
    negative lane index.  A call that raises leaves the state as it was. *)
Theorem check_lane_safety_outcome (st : State) (d : Data) (vehicles : list Vehicle)
    (target current : Z) (road : Road) :
  ((0 <= target)%Z ->
   (exists safe factor,
       fst (check_lane_safety st d vehicles target current road)
       = Py.Return (safe, factor) /\
       (safe = true -> factor = 1) /\
       (safe = false ->
        (factor <? 0.3) = false /\ (1 <? factor) = false /\
        snd (check_lane_safety st d vehicles target current road) = pending target)) \/
   (exists e v lane_points,
       In v vehicles /\ is_zero (position v) = false /\
       is_vehicle_in_lane v lane_points (truck_x d, truck_z d) (truck_rotation d)
       = Py.Raise e /\
       (e = Py.OverflowError \/ e = Py.ValueError) /\
       check_lane_safety st d vehicles target current road = (Py.Raise e, st))) /\
  (forall e,
      fst (check_lane_safety st d vehicles target current road) = Py.Raise e ->
      snd (check_lane_safety st d vehicles target current road) = st /\
      ((e = Py.IndexError /\ (target < 0)%Z) \/
       ((e = Py.OverflowError \/ e = Py.ValueError) /\
        exists v lane_points,
          In v vehicles /\ is_zero (position v) = false /\
          is_vehicle_in_lane v lane_points (truck_x d, truck_z d) (truck_rotation d)
          = Py.Raise e))).
Proof.
  destruct (check_cases st d vehicles target current road)
    as [[Hsafe _]
       | [(_ & rl & tl & lp & b & bs & _ & _ & _ & _ & _ & Hcall)
         | [[Hcall Hneg]
           | (_ & rl & tl & lp & e & _ & _ & _ & _ & Hloop & Hcall)]]].
  - split.
    + intros _. left. exists true, 1. rewrite Hsafe. repeat split; discriminate.
    + intros e He. rewrite Hsafe in He. discriminate.
  - rewrite Hcall. split.
    + intros _. left. eexists false, _. split; [reflexivity|]. split; [discriminate|].
      intros _. split; [apply speed_factor_bounds|].
      split; [apply speed_factor_bounds | reflexivity].
    + discriminate.
  - rewrite Hcall. split; [lia|]. simpl. intros e [= <-]. auto.
  - rewrite Hcall.
    destruct (LaneSafetyFacts.blocking_vehicles_raises power2 IsInFront vehicles lp
                (truck_x d, truck_z d) (truck_rotation d) e Hloop) as (v & Hin & Hz & Hl).
    pose proof (in_lane_raises v lp _ _ e Hl) as He.
    split.
    + intros _. right. exists e, v, lp. auto.
    + simpl. intros e' [= <-]. split; [reflexivity|]. right. split; [exact He|].
      exists v, lp. auto.
Qed.

(** The converse of blocking: a call answers safe=false only when the
    target lane differs from the current one and some vehicle of the list,
    with a non-zero position, is found in the target lane by the lane test
    and is ahead below 30 m or behind below 15 m, by the distance the code
    computes. *)
Theorem unsafe_only_when_blocked (st : State) (d : Data) (vehicles : list Vehicle)
    (target current : Z) (road : Road) (factor : float) :
  fst (check_lane_safety st d vehicles target current road) = Py.Return (false, factor) ->
  target <> current /\
  exists road_lanes target_lane lane_points v,
    lanes road = Some road_lanes /\
    Py.getitem road_lanes target = Some target_lane /\
    points target_lane = Some lane_points /\
    In v vehicles /\
    is_zero (position v) = false /\
    is_vehicle_in_lane v lane_points (truck_x d, truck_z d) (truck_rotation d)
    = Py.Return true /\
    (is_ahead v (truck_x d, truck_z d) (truck_rotation d) \/
     is_behind v (truck_x d, truck_z d) (truck_rotation d)).
Proof.
  intros Hunsafe.
  destruct (check_cases st d vehicles target current road)
    as [[Hsafe _]
       | [(Hne & rl & tl & lp & b & bs & Hl & Hg & Hp & _ & Hb & _)
         | [[Hcall _]
           | (_ & rl & tl & lp & e & _ & _ & _ & _ & _ & Hcall)]]].
  - rewrite Hsafe in Hunsafe. discriminate.
  - split; [exact Hne|]. destruct b as [[v dist] tag].
    assert (In (v, dist, tag) ((v, dist, tag) :: bs)) as Hin by now left.
    apply (LaneSafetyFacts.blocking_vehicles_In _ _ _ _ _ _ _ _ _ _ Hb) in Hin
      as (Hv & Hz & Hlane & Hdist & Hclass).
    exists rl, tl, lp, v. repeat split; trivial.
    unfold LaneSafetySpec.is_ahead, LaneSafetySpec.is_behind, LaneSafetySpec.at_distance.
    unfold classify, SAFETY_DISTANCE_AHEAD, SAFETY_DISTANCE_BEHIND,
      SAFETY_DISTANCE_BESIDE in Hclass.
    destruct (IsInFront (ground v) (truck_rotation d) (truck_x d, truck_z d));
      simpl in Hclass.
    + destruct (dist <? 30) eqn:Ea; [left; eauto|].
      destruct (dist <? 8) eqn:Ec; [|discriminate].
      rewrite (FloatOrder.ltb_trans dist 8 30 Ec eq_refl) in Ea. discriminate.
    + destruct (dist <? 15) eqn:Eb; [right; eauto|].
      destruct (dist <? 8) eqn:Ec; [|discriminate].
      rewrite (FloatOrder.ltb_trans dist 8 15 Ec eq_refl) in Eb. discriminate.
  - rewrite Hcall in Hunsafe. discriminate.
  - rewrite Hcall in Hunsafe. discriminate.
Qed.

(** More traffic never unblocks: when a call answers safe=false, the same
    call with further vehicles added before or after the list never
    answers safe=true.  It answers safe=false and sets the state to
    pending, unless the lane test of one of the added vehicles raises,
    which the call then raises too, leaving the state as it was. *)
Theorem more_traffic_never_unblocks (st : State) (d : Data)
    (vehicles before after : list Vehicle) (target current : Z) (road : Road)
    (factor : float) :
  fst (check_lane_safety st d vehicles target current road) = Py.Return (false, factor) ->
  (exists factor',
      check_lane_safety st d (before ++ vehicles ++ after) target current road
      = (Py.Return (false, factor'), pending target)) \/
  (exists e v lane_points,
      In v (before ++ after) /\ is_zero (position v) = false /\
      is_vehicle_in_lane v lane_points (truck_x d, truck_z d) (truck_rotation d)
      = Py.Raise e /\
      check_lane_safety st d (before ++ vehicles ++ after) target current road
      = (Py.Raise e, st)).
Proof.
  intros Hunsafe.
  destruct (check_cases st d vehicles target current road)
    as [[Hsafe _]
       | [(Hne & rl & tl & lp & b & bs & Hl & Hg & Hp & Hpts & Hb & _)
         | [[Hcall _]
           | (_ & rl & tl & lp & e & _ & _ & _ & _ & _ & Hcall)]]].
  - rewrite Hsafe in Hunsafe. discriminate.
  - assert (before ++ vehicles ++ after <> []) as Hv.
    { destruct vehicles; [discriminate Hb|]. now destruct before. }
    rewrite (LaneSafetyFacts.check_lane_safety_scan power2 IsInFront st d
               (before ++ vehicles ++ after) target current road rl tl lp
               Hne Hv Hl Hg Hp Hpts).
    destruct (LaneSafety.blocking_vehicles power2 IsInFront (before ++ vehicles ++ after) lp
                (truck_x d, truck_z d) (truck_rotation d)) as [all|e] eqn:Hall.
    + left. destruct b as [[w dist] tag].
      assert (In (w, dist, tag) ((w, dist, tag) :: bs)) as Hin by now left.
      apply (LaneSafetyFacts.blocking_vehicles_In _ _ _ _ _ _ _ _ _ _ Hb) in Hin
        as (Hw & Hrest).
      assert (In (w, dist, tag) all) as Hin'.
      { apply (LaneSafetyFacts.blocking_vehicles_In _ _ _ _ _ _ _ _ _ _ Hall).
        split; [|exact Hrest].
        apply in_or_app. right. apply in_or_app. now left. }
      destruct all as [|b' bs']; [contradiction|].
      simpl. eexists. reflexivity.
    + right.
      destruct (LaneSafetyFacts.blocking_vehicles_raises power2 IsInFront _ lp
                  (truck_x d, truck_z d) (truck_rotation d) e Hall) as (v & Hin & Hz & Hlane).
      exists e, v, lp. repeat split; trivial.
      apply in_app_or in Hin as [Hin | Hin]; [apply in_or_app; now left|].
      apply in_app_or in Hin as [Hin | Hin]; [|apply in_or_app; now right].
      exfalso.
      assert (exists blocking,
                 LaneSafety.blocking_vehicles power2 IsInFront vehicles lp
                   (truck_x d, truck_z d) (truck_rotation d) = Py.Return blocking)
        as Hreturns by eauto.
      apply LaneSafetyFacts.blocking_vehicles_returns in Hreturns.
      destruct (Hreturns v Hin Hz) as (in_lane & Hin_lane). congruence.
  - rewrite Hcall in Hunsafe. discriminate.
  - rewrite Hcall in Hunsafe. discriminate.
Qed.

(** Vehicles with a zero position do not count: as long as one vehicle with
    another position is in the list, the call gives the same result and
    the same state with or without them. *)
Theorem zero_positions_do_not_count (st : State) (d : Data) (vehicles : list Vehicle)
    (target current : Z) (road : Road) :
  filter (fun v => negb (is_zero (position v))) vehicles <> [] ->
  check_lane_safety st d (filter (fun v => negb (is_zero (position v))) vehicles)
    target current road
  = check_lane_safety st d vehicles target current road.
Proof.
  intros Hvalid.
  pose proof (fun lp => blocking_vehicles_valid vehicles lp (truck_x d, truck_z d)
                          (truck_rotation d)) as Hsame.
  destruct vehicles as [|v0 rest]; [contradiction|].
  destruct (filter (fun v => negb (is_zero (position v))) (v0 :: rest)) as [|f0 frest];
    [contradiction|].
  unfold LaneSafety.check_lane_safety.
  destruct (target =? current)%Z; [reflexivity|].
  destruct (lanes road) as [road_lanes|]; [|reflexivity].
  destruct (Z.of_nat (length road_lanes) <=? target)%Z; [reflexivity|].
  destruct (Py.getitem road_lanes target) as [target_lane|]; [|reflexivity].
  destruct (points target_lane) as [[|p0 lane_points]|]; try reflexivity.
  now rewrite Hsame.
Qed.

(** A target lane with fewer than two points never blocks, whatever the
    traffic: the call returns (True, 1.0).  With no point at all the state
    is kept; with a single point the pending and slow-down flags are
    cleared. *)
Theorem short_lane_never_blocks (st : State) (d : Data) (vehicles : list Vehicle)
    (target current : Z) (road : Road) (road_lanes : list Lane) (target_lane : Lane)
    (lane_points : list Position) :
  target <> current ->
  vehicles <> [] ->
  lanes road = Some road_lanes ->
  Py.getitem road_lanes target = Some target_lane ->
  points target_lane = Some lane_points ->
  (length lane_points < 2)%nat ->
  check_lane_safety st d vehicles target current road
  = (Py.Return (true, 1), match lane_points with [] => st | _ :: _ => cleared st end).
Proof.
  intros Hne Hv Hl Hg Hp Hshort.
  destruct lane_points as [|p0 rest].
  - unfold LaneSafety.check_lane_safety.
    destruct (Z.eqb_spec target current) as [|_]; [contradiction|].
    destruct vehicles as [|v0 vs]; [contradiction|].
    rewrite Hl. destruct (Z.of_nat (length road_lanes) <=? target)%Z; [reflexivity|].
    now rewrite Hg, Hp.
  - rewrite (LaneSafetyFacts.check_lane_safety_scan power2 IsInFront st d vehicles target
               current road road_lanes target_lane (p0 :: rest) Hne Hv Hl Hg Hp
               ltac:(discriminate)).
    now rewrite blocking_vehicles_short_lane.
Qed.

(** The distance screen of the lane-membership test never decides for a
    vehicle that gets classified: such a vehicle is below 30 m in front or
    below 15 m behind, inside the 40 m and 25 m screens, so on a lane of
    two points or more the lane test is the test of the distance to the
    centerline against half a lane width plus 1 m, and raises what that
    distance computation raises. *)
Theorem distance_screen_never_decides (v : Vehicle) (lane_points : list Position)
    (truck_pos : point) (truck_rotation : float) (dist : float) :
  at_distance v truck_pos dist ->
  classify (IsInFront (ground v) truck_rotation truck_pos) dist <> None ->
  is_vehicle_in_lane v lane_points truck_pos truck_rotation
  = if (length lane_points <? 2)%nat then Py.Return false
    else
      min_dist <- min_dist_to_lane (ground v) lane_points infinity ;;
      Py.Return (min_dist <? LANE_WIDTH / 2 + 1).
Proof.
  intros Hdist Hclass.
  unfold LaneSafety.is_vehicle_in_lane.
  destruct (length lane_points <? 2)%nat; [reflexivity|].
  unfold LaneSafetySpec.at_distance, ground in *.
  rewrite Hdist. simpl Py.bind.
  assert (forall bound far,
             (dist <? bound) = true -> (far <? bound) = false -> (far <? dist) = false)
    as Hinside.
  { intros bound far Hb Hfar. destruct (far <? dist) eqn:E; trivial.
    rewrite (FloatOrder.ltb_trans _ _ _ E Hb) in Hfar. discriminate. }
  unfold classify, SAFETY_DISTANCE_AHEAD, SAFETY_DISTANCE_BEHIND,
    SAFETY_DISTANCE_BESIDE in Hclass.
  destruct (IsInFront _ truck_rotation truck_pos); simpl in Hclass.
  - change (SAFETY_DISTANCE_AHEAD + 10) with 40.
    destruct (dist <? 30) eqn:Ea.
    + now rewrite (Hinside 30 40 Ea eq_refl).
    + destruct (dist <? 8) eqn:Ec; [|contradiction].
      now rewrite (Hinside 8 40 Ec eq_refl).
  - change (SAFETY_DISTANCE_BEHIND + 10) with 25.
    destruct (dist <? 15) eqn:Eb.
    + now rewrite (Hinside 15 25 Eb eq_refl).
    + destruct (dist <? 8) eqn:Ec; [|contradiction].
      now rewrite (Hinside 8 25 Ec eq_refl).
Qed.

(** The verdict of a call never depends on the module state, which the
    call only writes; and a second call with the same inputs leaves the
    state the first call left. *)
Theorem verdict_ignores_state (st st' : State) (d : Data) (vehicles : list Vehicle)
    (target current : Z) (road : Road) :
  fst (check_lane_safety st d vehicles target current road)
  = fst (check_lane_safety st' d vehicles target current road) /\
  snd (check_lane_safety (snd (check_lane_safety st d vehicles target current road))
         d vehicles target current road)
  = snd (check_lane_safety st d vehicles target current road).
Proof.
  unfold LaneSafety.check_lane_safety.
  destruct (target =? current)%Z; [split; reflexivity|].
  destruct vehicles as [|v0 rest]; [split; reflexivity|].
  destruct (lanes road) as [road_lanes|]; [|split; reflexivity].
  destruct (Z.of_nat (length road_lanes) <=? target)%Z; [split; reflexivity|].
  destruct (Py.getitem road_lanes target) as [target_lane|]; [|split; reflexivity].
  destruct (points target_lane) as [[|p0 lane_points]|]; try (split; reflexivity).
  destruct (LaneSafety.blocking_vehicles power2 IsInFront (v0 :: rest) (p0 :: lane_points)
              (truck_x d, truck_z d) (truck_rotation d)) as [[|b bs]|e];
    [split; reflexivity | | split; reflexivity].
  destruct (Py.min_of (map (fun v => snd (fst v)) (b :: bs))); split; reflexivity.
Qed.

Lemma step_consistent (st : State) (c : call) :
  consistent st -> consistent (step power2 IsInFront st c).
Proof.
  intros [Hflags Htarget]. destruct c as [d vehicles target current road|]; simpl.
  - destruct (check_cases st d vehicles target current road)
      as [[_ [-> | ->]]
         | [(_ & rl & tl & lp & b & bs & _ & _ & _ & _ & _ & ->)
           | [[-> _]
             | (_ & rl & tl & lp & e & _ & _ & _ & _ & _ & ->)]]].
    + now split.
    + split; [reflexivity | discriminate].
    + split; [reflexivity | discriminate].
    + now split.
    + now split.
  - split; [reflexivity | discriminate].
Qed.

(** Whatever sequence of checks and resets the module has gone through
    since it was loaded, its two flags agree and a pending change has a
    target lane; so the speed factor for waiting is 0.5 exactly while a
    change is pending and 1.0 otherwise. *)
Theorem state_stays_consistent (calls : list call) :
  consistent (run power2 IsInFront calls) /\
  get_lane_change_speed_factor (run power2 IsInFront calls)
  = (if is_waiting_for_lane_change (run power2 IsInFront calls) then 0.5 else 1).
Proof.
  assert (consistent (run power2 IsInFront calls)) as Hc.
  { unfold run.
    assert (consistent initial_state) as H0 by (split; [reflexivity | discriminate]).
    revert H0. generalize initial_state.
    induction calls as [|c rest IH]; intros st Hst; simpl; [exact Hst|].
    apply IH. now apply step_consistent. }
  split; [exact Hc|].
  destruct Hc as [Hflags _].
  unfold get_lane_change_speed_factor, is_waiting_for_lane_change.
  rewrite Hflags. now destruct (_slow_down_for_lane_change _).
Qed.

End WithLibrary.

(** *** On the worked scenario *)

Local Abbreviation check_scenario :=
  (check_lane_safety Geometry.power2_exact Geometry.in_front_along_axis).
Local Abbreviation in_lane_scenario :=
  (is_vehicle_in_lane Geometry.power2_exact Geometry.in_front_along_axis).

Lemma unsafe_only_when_blocked_witness :
  1%Z <> 0%Z /\
  exists road_lanes target_lane lane_points v,
    lanes two_lane_road = Some road_lanes /\
    Py.getitem road_lanes 1 = Some target_lane /\
    points target_lane = Some lane_points /\
    In v [vehicle_at 10] /\
    is_zero (position v) = false /\
    in_lane_scenario v lane_points (truck_x truck, truck_z truck) (truck_rotation truck)
    = Py.Return true /\
    (is_ahead Geometry.power2_exact Geometry.in_front_along_axis v
       (truck_x truck, truck_z truck) (truck_rotation truck) \/
     is_behind Geometry.power2_exact Geometry.in_front_along_axis v
       (truck_x truck, truck_z truck) (truck_rotation truck)).
Proof.
  apply (unsafe_only_when_blocked Geometry.power2_exact Geometry.in_front_along_axis
           initial_state truck [vehicle_at 10] 1 0 two_lane_road (1 / 3)).
  reflexivity.
Defined.

Lemma more_traffic_never_unblocks_witness :
  (exists factor',
      check_scenario initial_state truck
        ([vehicle_at 50] ++ [vehicle_at 10] ++ [vehicle_at 0; vehicle_at 20]) 1 0
        two_lane_road
      = (Py.Return (false, factor'), pending 1)) \/
  (exists e v lane_points,
      In v ([vehicle_at 50] ++ [vehicle_at 0; vehicle_at 20]) /\
      is_zero (position v) = false /\
      in_lane_scenario v lane_points (truck_x truck, truck_z truck) (truck_rotation truck)
      = Py.Raise e /\
      check_scenario initial_state truck
        ([vehicle_at 50] ++ [vehicle_at 10] ++ [vehicle_at 0; vehicle_at 20]) 1 0
        two_lane_road
      = (Py.Raise e, initial_state)).
Proof.
  apply (more_traffic_never_unblocks Geometry.power2_exact Geometry.in_front_along_axis
           initial_state truck [vehicle_at 10] [vehicle_at 50] [vehicle_at 0; vehicle_at 20]
           1 0 two_lane_road (1 / 3)).
  reflexivity.
Defined.

Lemma zero_positions_do_not_count_witness :
  check_scenario initial_state truck
    (filter (fun v => negb (is_zero (position v))) [vehicle_at 0; vehicle_at 10; vehicle_at 0])
    1 0 two_lane_road
  = check_scenario initial_state truck
      [vehicle_at 0; vehicle_at 10; vehicle_at 0] 1 0 two_lane_road.
Proof.
  apply (zero_positions_do_not_count Geometry.power2_exact Geometry.in_front_along_axis
           initial_state truck [vehicle_at 0; vehicle_at 10; vehicle_at 0] 1 0
           two_lane_road).
  discriminate.
Defined.

Lemma distance_screen_never_decides_witness :
  in_lane_scenario (vehicle_at 10) centerline (0, 0) 0
  = if (length centerline <? 2)%nat then Py.Return false
    else
      min_dist <- min_dist_to_lane Geometry.power2_exact (ground (vehicle_at 10))
                    centerline infinity ;;
      Py.Return (min_dist <? LANE_WIDTH / 2 + 1).
Proof.
  apply (distance_screen_never_decides Geometry.power2_exact Geometry.in_front_along_axis
           (vehicle_at 10) centerline (0, 0) 0 10).
  - reflexivity.
  - discriminate.
Defined.

(** A pending change, a vehicle 10 m ahead, and a target lane that has a
    single point. *)
Lemma short_lane_never_blocks_witness :
  check_scenario pending_state truck [vehicle_at 10] 0 1
    (mkRoad (Some [mkLane (Some [mkPosition 0 0 0])]))
  = (Py.Return (true, 1), cleared pending_state).
Proof.
  apply (short_lane_never_blocks Geometry.power2_exact Geometry.in_front_along_axis
           pending_state truck [vehicle_at 10] 0 1
           (mkRoad (Some [mkLane (Some [mkPosition 0 0 0])]))
           [mkLane (Some [mkPosition 0 0 0])] (mkLane (Some [mkPosition 0 0 0]))
           [mkPosition 0 0 0]).
  - discriminate.
  - discriminate.
  - reflexivity.
  - reflexivity.
  - reflexivity.
  - simpl. lia.
Defined.

(** More traffic on the scenario: with a vehicle added whose squared offset
    overflows, the blocked call raises instead of answering. *)
Example added_vehicle_raises :
  fst (check_scenario initial_state truck [vehicle_at 10] 1 0 two_lane_road)
  = Py.Return (false, 1 / 3) /\
  check_scenario initial_state truck ([] ++ [vehicle_at 10] ++ [vehicle_at 1e200]) 1 0
    two_lane_road
  = (Py.Raise Py.OverflowError, initial_state).
Proof. split; reflexivity. Qed.

End LaneSafetyMore.
(** ** More on the scalar smoother *)

Module NumbersMore.

Import Numbers NumbersRuns.

Local Open Scope float_scope.

Lemma last_n_short {A : Type} (m : nat) (l : list A) :
  (length l <= m)%nat -> last_n m l = l.
Proof. intros H. unfold last_n. now replace (length l - m)%nat with O by lia. Qed.

Lemma last_n_absorb {A : Type} (m : nat) (l r : list A) :
  last_n m (last_n m l ++ r) = last_n m (l ++ r).
Proof.
  destruct (Nat.le_gt_cases (length l) m) as [Hle | Hgt].
  - now rewrite (last_n_short m l Hle).
  - unfold last_n. rewrite !length_app, length_skipn.
    replace (length l - (length l - m) + length r - m)%nat with (length r) by lia.
    replace (length l + length r - m)%nat with (length r + (length l - m))%nat by lia.
    rewrite <- skipn_skipn. f_equal.
    rewrite skipn_app.
    replace (length l - m - length l)%nat with O by lia. reflexivity.
Qed.

Lemma last_n_nonempty {A : Type} (m : nat) (l : list A) :
  (0 < m)%nat -> l <> [] -> last_n m l <> [].
Proof.
  intros Hm Hl H. unfold last_n in H.
  apply skipn_all_iff in H.
  assert (length l <> O) as Hlen by (destruct l; [contradiction | discriminate]).
  lia.
Qed.

(** One append on a bounded deque keeps the latest [m] elements. *)
Lemma append_window {A : Type} (d : deque A) (v : A) (m : nat) :
  maxlen d = Some m -> (0 < m)%nat -> (length (items d) <= m)%nat ->
  append d v = mkDeque (last_n m (items d ++ [v])) (Some m).
Proof.
  intros Hm Hpos Hlen. unfold append. rewrite Hm.
  destruct m as [|m]; [lia|].
  destruct (Nat.ltb_spec (length (items d)) (S m)) as [Hlt | Hge].
  - rewrite last_n_short; [reflexivity|]. rewrite length_app. simpl. lia.
  - f_equal. unfold last_n. rewrite length_app. simpl.
    replace (length (items d) + 1 - S m)%nat with 1%nat by lia.
    destruct (items d) as [|a rest]; [simpl in Hge; lia | reflexivity].
Qed.

Lemma last_n_length {A : Type} (m : nat) (l : list A) : (length (last_n m l) <= m)%nat.
Proof. unfold last_n. rewrite length_skipn. lia. Qed.

(** Pushing samples in "frames" mode, from any state within its capacity. *)
Lemma smooth_all_frames (amount : Z) (m : nat) (held : list float)
    (samples : list float) (now : float) (r0 : Py.result float) :
  (0 < m)%nat -> (length held <= m)%nat ->
  smooth_all (mkSmoothedValue frames amount (FrameValues (mkDeque held (Some m))))
    samples now r0
  = (mkSmoothedValue frames amount
       (FrameValues (mkDeque (last_n m (held ++ samples)) (Some m))),
     match samples with
     | [] => r0
     | _ :: _ => average (last_n m (held ++ samples))
     end).
Proof.
  intros Hm. revert held r0.
  induction samples as [|v rest IH]; intros held r0 Hlen; simpl.
  - now rewrite app_nil_r, last_n_short.
  - rewrite (append_window (mkDeque held (Some m)) v m eq_refl Hm Hlen). simpl.
    rewrite IH by apply last_n_length.
    rewrite last_n_absorb, <- app_assoc. simpl.
    now destruct rest.
Qed.

(** The constructor's capacity test in "frames" mode. *)
Lemma init_frames (n : Z) (now : float) :
  init frames n now
  = if (n <? - 2 ^ 63)%Z || (2 ^ 63 <=? n)%Z then Py.Raise Py.OverflowError
    else if (n <? 0)%Z then Py.Raise Py.ValueError
    else Py.Return (mkSmoothedValue frames n (FrameValues (deque_of [0] (Some (Z.to_nat n))))).
Proof. reflexivity. Qed.

Lemma init_frames_positive (n : Z) (now : float) :
  (0 < n < 2 ^ 63)%Z ->
  init frames n now
  = Py.Return (mkSmoothedValue frames n (FrameValues (mkDeque [0] (Some (Z.to_nat n))))).
Proof.
  intros Hn. rewrite init_frames.
  destruct (Z.ltb_spec n (- 2 ^ 63)); [lia|].
  destruct (Z.leb_spec (2 ^ 63) n); [lia|].
  destruct (Z.ltb_spec n 0); [lia|]. simpl.
  unfold deque_of. simpl. unfold append. simpl.
  destruct (Z.to_nat n) as [|m] eqn:E; [lia | reflexivity].
Qed.

(** A smoother in "frames" mode with a capacity n > 0 that the deque
    accepts (n below 2^63) always holds the latest n of the initial 0 and
    the samples pushed so far, in order, and each push reports their
    average. *)
Theorem frames_smoother_holds_latest (n : Z) (samples : list float) (now : float)
    (r0 : Py.result float) :
  (0 < n < 2 ^ 63)%Z ->
  exists s0,
    init frames n now = Py.Return s0 /\
    valueArray (fst (smooth_all s0 samples now r0))
    = FrameValues (mkDeque (last_n (Z.to_nat n) (0 :: samples)) (Some (Z.to_nat n))) /\
    (samples <> [] ->
     snd (smooth_all s0 samples now r0)
     = average (last_n (Z.to_nat n) (0 :: samples))).
Proof.
  intros Hn. rewrite (init_frames_positive n now Hn).
  eexists. split; [reflexivity|].
  rewrite smooth_all_frames by (simpl; lia). simpl. split; [reflexivity|].
  intros Hs. destruct samples; [contradiction | reflexivity].
Qed.

Lemma frames_smoother_holds_latest_witness :
  exists s0,
    init frames 2 0 = Py.Return s0 /\
    valueArray (fst (smooth_all s0 [5; 6; 7] 0 (Py.Return 0)))
    = FrameValues (mkDeque [6; 7] (Some 2%nat)) /\
    ([5; 6; 7] <> [] ->
     snd (smooth_all s0 [5; 6; 7] 0 (Py.Return 0)) = average [6; 7]).
Proof. apply (frames_smoother_holds_latest 2 [5; 6; 7] 0 (Py.Return 0)). lia. Defined.

Lemma last_default {A : Type} (l : list A) (a b : A) : l <> [] -> last l a = last l b.
Proof.
  induction l as [|c [|e rest] IH]; intros H; [contradiction | reflexivity |].
  change (last (e :: rest) a = last (e :: rest) b). apply IH. discriminate.
Qed.

Lemma prune_step (window : Z) (fuel : nat) (oldest second : float * float)
    (rest : list (float * float)) :
  prune (S fuel) window (oldest :: second :: rest)
  = if Py.float_gt_int (fst (last (oldest :: second :: rest) oldest) - fst oldest) window
    then prune fuel window (second :: rest)
    else oldest :: second :: rest.
Proof. reflexivity. Qed.

(** The pruning loop with enough fuel. *)
Lemma prune_spec (window : Z) (fuel : nat) (l : list (float * float)) :
  (length l <= fuel)%nat ->
  exists dropped,
    l = dropped ++ prune fuel window l /\
    (l <> [] -> prune fuel window l <> [] /\
                forall a, last (prune fuel window l) a = last l a) /\
    within_window window (prune fuel window l) /\
    Forall (fun old => forall a, Py.float_gt_int (fst (last l a) - fst old) window = true)
      dropped.
Proof.
  revert l. induction fuel as [|fuel IH]; intros l Hlen.
  - destruct l; [|simpl in Hlen; lia]. exists []. simpl. repeat split; try contradiction.
    constructor.
  - destruct l as [|oldest [|second rest]].
    + exists []. simpl. repeat split; try contradiction. constructor.
    + exists []. simpl. repeat split; try discriminate. constructor.
    + rewrite prune_step.
      destruct (Py.float_gt_int
                  (fst (last (oldest :: second :: rest) oldest) - fst oldest) window) eqn:E.
      * destruct (IH (second :: rest)) as (dropped & Hsplit & Hkeep & Hwin & Hold).
        { simpl in *. lia. }
        destruct (Hkeep ltac:(discriminate)) as [Hne Hlast].
        exists (oldest :: dropped). split; [rewrite <- app_comm_cons; f_equal; exact Hsplit|].
        split; [intros _; split; [exact Hne | intros a; apply Hlast]|].
        split; [exact Hwin|].
        constructor.
        -- intros a. rewrite (last_default _ a oldest) by discriminate. exact E.
        -- exact Hold.
      * exists []. split; [reflexivity|]. split; [intros _; split; [discriminate | reflexivity]|].
        split; [exact E | constructor].
Qed.

Lemma prune_within_window (window : Z) (fuel : nat) (l : list (float * float)) :
  within_window window l -> prune fuel window l = l.
Proof.
  intros H. destruct fuel as [|fuel]; [reflexivity|].
  destruct l as [|oldest [|second rest]]; try reflexivity.
  rewrite prune_step. unfold within_window in H. now rewrite H.
Qed.

Lemma average_returns (l : list float) : l <> [] -> exists r, average l = Py.Return r.
Proof. destruct l; [contradiction | intros _; eexists; reflexivity]. Qed.

(** A push in "time" mode appends the pair, then drops pairs from the
    front: the new pair is always kept, every dropped pair is older than
    the window measured from the new pair, and what is kept is a single
    pair or spans no more than the window.  The span, a float, is compared
    with the window, an int, by their exact values.  The push returns the
    average of the kept samples and never raises. *)
Theorem time_push_keeps_the_window (amount : Z) (held : list (float * float))
    (value now : float) :
  let self := mkSmoothedValue time amount (TimeValues (mkDeque held None)) in
  exists dropped kept r,
    held ++ [(now, value)] = dropped ++ kept /\
    last kept (now, value) = (now, value) /\
    kept <> [] /\
    within_window amount kept /\
    Forall (fun old => Py.float_gt_int (now - fst old) amount = true) dropped /\
    smooth self value now
    = (mkSmoothedValue time amount (TimeValues (mkDeque kept None)), Py.Return r) /\
    average (map snd kept) = Py.Return r.
Proof.
  intros self. subst self. unfold smooth. simpl.
  set (l := held ++ [(now, value)]).
  destruct (prune_spec amount (length l) l (Nat.le_refl _))
    as (dropped & Hsplit & Hkeep & Hwin & Hold).
  assert (l <> []) as Hl by (unfold l; now destruct held).
  destruct (Hkeep Hl) as [Hne Hlast].
  destruct (average_returns (map snd (prune (length l) amount l))) as (r & Hr).
  { intros H. apply map_eq_nil in H. contradiction. }
  exists dropped, (prune (length l) amount l), r.
  split; [exact Hsplit|].
  split; [rewrite Hlast; unfold l; apply last_last|].
  split; [exact Hne|]. split; [exact Hwin|].
  split.
  - eapply Forall_impl; [|exact Hold]. intros old H.
    specialize (H (now, value)). unfold l in H. now rewrite last_last in H.
  - rewrite Hr. split; reflexivity.
Qed.

(** The window is compared by exact value.  With a window of 2^63
    seconds, a pair that is exactly 2^63 seconds old is kept and the push
    reports the average of both samples; one float further it is dropped. *)
Example time_window_is_compared_exactly :
  let self :=
    mkSmoothedValue time (2 ^ 63) (TimeValues (mkDeque [(0, 0)] None)) in
  snd (smooth self 8 9223372036854775808) = Py.Return 4 /\
  snd (smooth self 8 9223372036854777856) = Py.Return 8.
Proof. split; reflexivity. Qed.

(** Right after a push, [get()] reports what the push returned (or raises
    what it raised) and leaves the object as it is, for every object whose
    "time" history is an unbounded deque. *)
Theorem get_repeats_the_push (self : SmoothedValue) (value now : float) :
  (forall d, valueArray self = TimeValues d -> maxlen d = None) ->
  get (fst (smooth self value now)) = smooth self value now.
Proof.
  intros Hunbounded. unfold smooth.
  destruct self as [mode amount values].
  destruct mode, values as [d | d |]; try reflexivity.
  destruct d as [held bound].
  assert (bound = None) as -> by exact (Hunbounded _ eq_refl).
  simpl.
  set (l := held ++ [(now, value)]).
  destruct (prune_spec amount (length l) l (Nat.le_refl _))
    as (dropped & _ & Hkeep & Hwin & _).
  destruct (Hkeep ltac:(unfold l; now destruct held)) as [Hne _].
  set (kept := prune (length l) amount l) in *.
  unfold get. simpl.
  rewrite (prune_within_window amount (length kept) kept Hwin).
  destruct kept; [contradiction | reflexivity].
Qed.

Lemma get_repeats_the_push_witness :
  get (fst (smooth (mkSmoothedValue time 2 (TimeValues (mkDeque [(0, 0); (1, 4)] None)))
              8 5))
  = smooth (mkSmoothedValue time 2 (TimeValues (mkDeque [(0, 0); (1, 4)] None))) 8 5.
Proof.
  apply (get_repeats_the_push
           (mkSmoothedValue time 2 (TimeValues (mkDeque [(0, 0); (1, 4)] None))) 8 5).
  intros d [= <-]. reflexivity.
Defined.

Lemma holds_samples_step (self : SmoothedValue) (u : use) :
  holds_samples self ->
  holds_samples (fst (apply_use self u)) /\
  exists r, snd (apply_use self u) = Py.Return r.
Proof.
  destruct self as [mode amount values].
  intros [(Hmode & held & m & Hvalues & Hm & Hne & Hlen) | (Hmode & held & Hvalues & Hne)];
    simpl in Hmode, Hvalues; subst mode values; destruct u as [value now|]; simpl.
  - rewrite (append_window (mkDeque held (Some m)) value m eq_refl Hm Hlen). simpl.
    assert (last_n m (held ++ [value]) <> []) as Hne'
      by (apply last_n_nonempty; [exact Hm | now destruct held]).
    split; [|now apply average_returns].
    left. split; [reflexivity|]. exists (last_n m (held ++ [value])), m.
    repeat split; trivial. apply last_n_length.
  - split; [|now apply average_returns].
    left. split; [reflexivity|]. now exists held, m.
  - set (l := held ++ [(now, value)]).
    destruct (prune_spec amount (length l) l (Nat.le_refl _))
      as (_ & _ & Hkeep & _).
    destruct (Hkeep ltac:(unfold l; now destruct held)) as [Hne' _].
    split.
    + right. split; [reflexivity|]. eexists. split; [reflexivity | exact Hne'].
    + apply average_returns. intros H. apply map_eq_nil in H. contradiction.
  - destruct (prune_spec amount (length held) held (Nat.le_refl _))
      as (_ & _ & Hkeep & _).
    destruct (Hkeep Hne) as [Hne' _].
    split.
    + right. split; [reflexivity|]. eexists. split; [reflexivity | exact Hne'].
    + destruct (prune (length held) amount held) eqn:E; [contradiction|].
      apply average_returns. discriminate.
Qed.

Lemma holds_samples_outcomes (self : SmoothedValue) (uses : list use) :
  holds_samples self ->
  Forall (fun outcome => exists r, outcome = Py.Return r) (outcomes self uses).
Proof.
  revert self. induction uses as [|u rest IH]; intros self H; simpl; [constructor|].
  destruct (holds_samples_step self u H) as [Hnext Hr].
  destruct (apply_use self u) as [self' outcome]. simpl in *.
  constructor; [exact Hr | now apply IH].
Qed.

(** What a smoother raises depends on how it was built, and on nothing
    else.  A frame capacity that does not fit 64 signed bits (below -2^63,
    or 2^63 and above) is refused at construction with OverflowError, and a
    negative one that fits with ValueError.  With a positive frame capacity
    below 2^63, or in "time" mode, the constructor returns and no sequence
    of [smooth] and [get] calls ever raises.  With frame capacity 0 every
    call raises ZeroDivisionError, and with an unknown mode every call
    raises ValueError. *)
Theorem smoother_raises_by_configuration :
  (forall n now,
      (n < - 2 ^ 63)%Z \/ (2 ^ 63 <= n)%Z <-> init frames n now = Py.Raise Py.OverflowError) /\
  (forall n now,
      (- 2 ^ 63 <= n < 0)%Z <-> init frames n now = Py.Raise Py.ValueError) /\
  (forall mode n now uses,
      (mode = frames /\ (0 < n < 2 ^ 63)%Z) \/ mode = time ->
      exists s0,
        init mode n now = Py.Return s0 /\
        Forall (fun outcome => exists r, outcome = Py.Return r) (outcomes s0 uses)) /\
  (forall now uses,
      exists s0,
        init frames 0 now = Py.Return s0 /\
        Forall (fun outcome => outcome = Py.Raise Py.ZeroDivisionError)
          (outcomes s0 uses)) /\
  (forall n now uses,
      exists s0,
        init other_smoothing n now = Py.Return s0 /\
        Forall (fun outcome => outcome = Py.Raise Py.ValueError) (outcomes s0 uses)).
Proof.
  split; [|split; [|split; [|split]]].
  - intros n now. rewrite init_frames.
    destruct (Z.ltb_spec n (- 2 ^ 63)); destruct (Z.leb_spec (2 ^ 63) n);
      destruct (Z.ltb_spec n 0); simpl; split; trivial; try discriminate; lia.
  - intros n now. rewrite init_frames.
    destruct (Z.ltb_spec n (- 2 ^ 63)); destruct (Z.leb_spec (2 ^ 63) n);
      destruct (Z.ltb_spec n 0); simpl; split; trivial; try discriminate; lia.
  - intros mode n now uses [[-> Hn] | ->].
    + rewrite (init_frames_positive n now Hn). eexists. split; [reflexivity|].
      apply holds_samples_outcomes. left. split; [reflexivity|].
      exists [0], (Z.to_nat n). simpl.
      repeat split; try discriminate; lia.
    + eexists. split; [reflexivity|].
      apply holds_samples_outcomes. right. split; [reflexivity|].
      exists [(now, 0)]. split; [reflexivity | discriminate].
  - intros now uses. eexists. split; [reflexivity|].
    induction uses as [|[value t|] rest IH]; simpl; constructor; trivial.
  - intros n now uses. eexists. split; [reflexivity|].
    induction uses as [|[value t|] rest IH]; simpl; constructor; trivial.
Qed.

End NumbersMore.

